(** * onyxconfig_tool: the configuration record model and its mutation logic

    A shallow embedding of [onyxconfig_tool.py]: the documents the tool
    reads and writes, the codec ([json.loads] / [json.dumps] with compact
    separators) it applies to the values of the key-value store, the
    handwriting configuration it builds, the enable / disable
    operations, the listings of the handler and the sub-commands of the
    command line, followed by the properties of these definitions. *)

From Stdlib Require Import Strings.String Strings.Ascii.
From Stdlib Require Import ZArith NArith Bool Lia.
From Stdlib Require Import DecimalFacts DecimalN.
From stdpp Require Import gmap sorting.

Set Default Proof Using "Type".

(** ** Python strings

    A Python [str] is a sequence of code points.  Code points are kept as
    [N]; the characters of the source's own literals are ASCII. *)

Abbreviation pystr := (list N).

Definition py (s : string) : pystr :=
  List.map N_of_ascii (list_ascii_of_string s).

(** ** Documents

    What [json.loads] yields and [json.dumps] accepts: [None], booleans,
    integers, strings, lists and dictionaries.  A dictionary keeps its
    keys in insertion order, as a Python [dict] does; that order is the
    order [json.dumps] writes.  Python floats are outside this model, and
    so are the resource limits of the interpreter: integers are
    unbounded, texts of any length convert, nesting has no bound. *)

Unset Elimination Schemes.
Inductive json : Type :=
| JNull
| JBool (b : bool)
| JInt (n : Z)
| JStr (s : pystr)
| JList (l : list json)
| JDict (d : list (pystr * json)).
Set Elimination Schemes.

Section json_induction.
Variable P : json → Prop.
Hypothesis Hnull : P JNull.
Hypothesis Hbool : ∀ b, P (JBool b).
Hypothesis Hint : ∀ n, P (JInt n).
Hypothesis Hstr : ∀ s, P (JStr s).
Hypothesis Hlist : ∀ l, Forall P l → P (JList l).
Hypothesis Hdict : ∀ d, Forall (λ kv, P kv.2) d → P (JDict d).

Fixpoint json_ind (v : json) : P v :=
  match v with
  | JNull => Hnull
  | JBool b => Hbool b
  | JInt n => Hint n
  | JStr s => Hstr s
  | JList l =>
      Hlist l ((fix go (l : list json) : Forall P l :=
                  match l with
                  | [] => @List.Forall_nil _ P
                  | x :: l' => @List.Forall_cons _ P x l' (json_ind x) (go l')
                  end) l)
  | JDict d =>
      Hdict d ((fix go (d : list (pystr * json)) : Forall (λ kv, P kv.2) d :=
                  match d with
                  | [] => @List.Forall_nil _ _
                  | kv :: d' => @List.Forall_cons _ _ kv d' (json_ind kv.2) (go d')
                  end) d)
  end.
End json_induction.

(** Truth value of a document, as [if x:] and [not x] test it. *)
Definition truthy (v : json) : bool :=
  match v with
  | JNull => false
  | JBool b => b
  | JInt n => negb (n =? 0)%Z
  | JStr s => negb (bool_decide (s = []))
  | JList l => negb (bool_decide (length l = 0))
  | JDict d => negb (bool_decide (length d = 0))
  end.

(** ** Dictionaries

    [d.get(k)], [k in d], [d[k] = v] and [del d[k]] on the ordered
    representation.  Assigning to a key that is present replaces the
    value where it stands; a new key goes to the end. *)

Abbreviation dict := (list (pystr * json)).

Fixpoint dict_get (k : pystr) (d : dict) : option json :=
  match d with
  | [] => None
  | (k', v) :: d' => if decide (k' = k) then Some v else dict_get k d'
  end.

Definition dict_in (k : pystr) (d : dict) : bool :=
  bool_decide (is_Some (dict_get k d)).

Fixpoint dict_set (k : pystr) (v : json) (d : dict) : dict :=
  match d with
  | [] => [(k, v)]
  | (k', v') :: d' =>
      if decide (k' = k) then (k', v) :: d' else (k', v') :: dict_set k v d'
  end.

Fixpoint dict_del (k : pystr) (d : dict) : dict :=
  match d with
  | [] => []
  | (k', v') :: d' =>
      if decide (k' = k) then d' else (k', v') :: dict_del k d'
  end.

Definition keys (d : dict) : list pystr := d.*1.

(** [x.get(k, {})] *)
Definition get_or_empty (k : pystr) (d : dict) : json :=
  default (JDict []) (dict_get k d).

(** ** The handwriting configuration of one activity *)

Module HandwritingOptimizer_build.

Definition displayConfig : json :=
  JDict [ (py "bwMode", JInt 0);
          (py "cfaColorBrightness", JInt 0);
          (py "cfaColorSaturation", JInt 0);
          (py "cfaColorSaturationMin", JInt 60);
          (py "contrast", JInt 30);
          (py "ditherThreshold", JInt 128);
          (py "enable", JBool true);
          (py "enhance", JBool true);
          (py "monoLevel", JInt 10) ].

Definition globalStrokeStyle : json :=
  JDict [ (py "enable", JBool true);
          (py "strokeColor", JInt (-16777216));
          (py "strokeExtraArgs", JList []);
          (py "strokeParams", JList []);
          (py "strokeStyle", JInt 0);
          (py "strokeWidth", JInt 3) ].

Definition noteConfig (draw_view_key : pystr) : json :=
  JDict [ (py "compatibleVersionCode", JInt 0);
          (py "drawViewKey", JStr draw_view_key);
          (py "enable", JBool true);
          (py "globalStrokeStyle", globalStrokeStyle);
          (py "repaintLatency", JInt 500);
          (py "styleMap", JDict []);
          (py "supportNoteConfig", JBool true) ].

Definition paintConfig : json :=
  JDict [ (py "antiAlisingType", JInt 0);
          (py "ditherBitmap", JBool false);
          (py "enable", JBool true);
          (py "fillBrightness", JInt 0);
          (py "fillContrast", JInt 0);
          (py "fillEAC", JBool false);
          (py "iconBrightness", JInt 0);
          (py "iconContrast", JInt 0);
          (py "iconEAC", JBool false);
          (py "iconThreshold", JInt 0);
          (py "imgEAC", JBool true);
          (py "imgGamma", JInt 60);
          (py "quantBits", JInt 3);
          (py "textBold", JBool false);
          (py "textEACType", JInt 0) ].

Definition refreshConfig : json :=
  JDict [ (py "animationDuration", JInt 50);
          (py "antiFlicker", JInt 10);
          (py "enable", JBool true);
          (py "gcInterval", JInt 20);
          (py "supportRegal", JBool false);
          (py "turbo", JInt 2);
          (py "updateMode", JInt 2);
          (py "useGCForNewSurface", JBool false) ].

End HandwritingOptimizer_build.

Definition create_activity_config (draw_view_key activity_name : pystr) : json :=
  JDict [ (py "clsName", JStr activity_name);
          (py "disableScrollAnim", JBool false);
          (py "displayConfig", HandwritingOptimizer_build.displayConfig);
          (py "enable", JBool true);
          (py "noteConfig", HandwritingOptimizer_build.noteConfig draw_view_key);
          (py "paintConfig", HandwritingOptimizer_build.paintConfig);
          (py "refreshConfig", HandwritingOptimizer_build.refreshConfig) ].

(** ** The codec: [json.dumps(config, separators=(',', ':'))]

    The encoder runs with its defaults apart from the separators:
    [ensure_ascii] is on, so a string is written between quotes with
    every character outside the printable ASCII range escaped, and the
    keys of a dictionary are written in the order the dictionary holds
    them. *)

Module codec.

Local Open Scope N_scope.

Definition hexdigit (n : N) : N := if n <? 10 then 48 + n else 87 + n.

(** ['{0:04x}'.format(n)] for [n < 0x10000] *)
Definition hex4 (n : N) : pystr :=
  [ hexdigit (n / 4096 mod 16); hexdigit (n / 256 mod 16);
    hexdigit (n / 16 mod 16); hexdigit (n mod 16) ].

(** The replacement [py_encode_basestring_ascii] makes for one character:
    the short escapes of [ESCAPE_DCT], the character itself between
    space and tilde, [\uXXXX] below 0x10000 and a surrogate pair above. *)
Definition escape_char (c : N) : pystr :=
  if c =? 34 then [92; 34]
  else if c =? 92 then [92; 92]
  else if c =? 8 then [92; 98]
  else if c =? 12 then [92; 102]
  else if c =? 10 then [92; 110]
  else if c =? 13 then [92; 114]
  else if c =? 9 then [92; 116]
  else if (32 <=? c) && (c <=? 126) then [c]
  else if c <? 65536 then 92 :: 117 :: hex4 c
  else
    let n := c - 65536 in
    let s1 := N.lor 55296 (N.land (N.shiftr n 10) 1023) in
    let s2 := N.lor 56320 (N.land n 1023) in
    92 :: 117 :: hex4 s1 ++ 92 :: 117 :: hex4 s2.

Definition encode_basestring_ascii (s : pystr) : pystr :=
  34 :: flat_map escape_char s ++ [34].

Fixpoint uint_chars (d : Decimal.uint) : pystr :=
  match d with
  | Decimal.Nil => []
  | Decimal.D0 d => 48 :: uint_chars d
  | Decimal.D1 d => 49 :: uint_chars d
  | Decimal.D2 d => 50 :: uint_chars d
  | Decimal.D3 d => 51 :: uint_chars d
  | Decimal.D4 d => 52 :: uint_chars d
  | Decimal.D5 d => 53 :: uint_chars d
  | Decimal.D6 d => 54 :: uint_chars d
  | Decimal.D7 d => 55 :: uint_chars d
  | Decimal.D8 d => 56 :: uint_chars d
  | Decimal.D9 d => 57 :: uint_chars d
  end.

(** [int.__repr__]: decimal digits, a minus sign for a negative number *)
Definition int_repr (n : Z) : pystr :=
  match n with
  | Z0 => [48]
  | Zpos p => uint_chars (Pos.to_uint p)
  | Zneg p => 45 :: uint_chars (Pos.to_uint p)
  end.

Fixpoint join (sep : N) (parts : list pystr) : pystr :=
  match parts with
  | [] => []
  | p :: ps =>
      match ps with
      | [] => p
      | _ :: _ => p ++ sep :: join sep ps
      end
  end.

Fixpoint dumps (v : json) : pystr :=
  match v with
  | JNull => py "null"
  | JBool true => py "true"
  | JBool false => py "false"
  | JInt n => int_repr n
  | JStr s => encode_basestring_ascii s
  | JList l => 91 :: join 44 (List.map dumps l) ++ [93]
  | JDict d =>
      123 :: join 44 (List.map (λ kv, encode_basestring_ascii kv.1 ++ 58 :: dumps kv.2) d)
          ++ [125]
  end.

(** ** The codec: [json.loads]

    The decoder of the standard library on a [str]: the JSON grammar with
    the whitespace set space, tab, line feed and carriage return, strings
    scanned in strict mode, duplicate keys resolved by [dict(pairs)].
    A number with a fraction or an exponent and the constants [NaN],
    [Infinity] and [-Infinity] denote floats: on a text that holds one
    this decoder gives no document. *)

Definition hexval (c : N) : option N :=
  if (48 <=? c) && (c <=? 57) then Some (c - 48)
  else if (97 <=? c) && (c <=? 102) then Some (c - 87)
  else if (65 <=? c) && (c <=? 70) then Some (c - 55)
  else None.

(** [int(esc, 16)] on four hexadecimal digits *)
Definition decode_uXXXX (h1 h2 h3 h4 : N) : option N :=
  match hexval h1, hexval h2, hexval h3, hexval h4 with
  | Some a, Some b, Some c, Some d => Some (a * 4096 + b * 256 + c * 16 + d)
  | _, _, _, _ => None
  end.

(** The [BACKSLASH] table *)
Definition backslash (e : N) : option N :=
  if e =? 34 then Some 34
  else if e =? 92 then Some 92
  else if e =? 47 then Some 47
  else if e =? 98 then Some 8
  else if e =? 102 then Some 12
  else if e =? 110 then Some 10
  else if e =? 114 then Some 13
  else if e =? 116 then Some 9
  else None.

Definition is_high_surrogate (c : N) : bool := (55296 <=? c) && (c <=? 56319).
Definition is_low_surrogate (c : N) : bool := (56320 <=? c) && (c <=? 57343).

Definition join_surrogates (uni uni2 : N) : N :=
  65536 + N.lor (N.shiftl (uni - 55296) 10) (uni2 - 56320).

Definition push (c : N) (r : option (pystr * pystr)) : option (pystr * pystr) :=
  match r with
  | Some (str, rest) => Some (c :: str, rest)
  | None => None
  end.

(** [scanstring(s, end, strict=True)], entered after the opening quote:
    the decoded string and the text after the closing quote. *)
Fixpoint scanstring (s : pystr) {struct s} : option (pystr * pystr) :=
  match s with
  | [] => None
  | c :: s1 =>
      if c =? 34 then Some ([], s1)
      else if c =? 92 then
        match s1 with
        | [] => None
        | e :: s2 =>
            if e =? 117 then
              match s2 with
              | h1 :: h2 :: h3 :: h4 :: s3 =>
                  match decode_uXXXX h1 h2 h3 h4 with
                  | None => None
                  | Some uni =>
                      if is_high_surrogate uni then
                        match s3 with
                        | b :: u :: s4 =>
                            if (b =? 92) && (u =? 117) then
                              match s4 with
                              | g1 :: g2 :: g3 :: g4 :: s5 =>
                                  match decode_uXXXX g1 g2 g3 g4 with
                                  | None => None
                                  | Some uni2 =>
                                      if is_low_surrogate uni2
                                      then push (join_surrogates uni uni2) (scanstring s5)
                                      else push uni (scanstring s3)
                                  end
                              | _ => None
                              end
                            else push uni (scanstring s3)
                        | _ => push uni (scanstring s3)
                        end
                      else push uni (scanstring s3)
                  end
              | _ => None
              end
            else
              match backslash e with
              | Some ch => push ch (scanstring s2)
              | None => None
              end
        end
      else if c <? 32 then None
      else push c (scanstring s1)
  end.

Definition is_ws (c : N) : bool :=
  (c =? 32) || (c =? 9) || (c =? 10) || (c =? 13).

Fixpoint skip_ws (s : pystr) : pystr :=
  match s with
  | [] => []
  | c :: s' => if is_ws c then skip_ws s' else s
  end.

Definition is_digit (c : N) : bool := (48 <=? c) && (c <=? 57).

Definition digit_cons (c : N) (d : Decimal.uint) : Decimal.uint :=
  if c =? 48 then Decimal.D0 d
  else if c =? 49 then Decimal.D1 d
  else if c =? 50 then Decimal.D2 d
  else if c =? 51 then Decimal.D3 d
  else if c =? 52 then Decimal.D4 d
  else if c =? 53 then Decimal.D5 d
  else if c =? 54 then Decimal.D6 d
  else if c =? 55 then Decimal.D7 d
  else if c =? 56 then Decimal.D8 d
  else Decimal.D9 d.

(** The longest run of decimal digits at the head of the text *)
Fixpoint take_digits (s : pystr) : Decimal.uint * pystr :=
  match s with
  | [] => (Decimal.Nil, [])
  | c :: s' =>
      if is_digit c
      then let '(d, rest) := take_digits s' in (digit_cons c d, rest)
      else (Decimal.Nil, s)
  end.

(** The integer part of [NUMBER_RE]: a zero alone, or a digit from 1 to
    9 and every digit after it. *)
Definition match_integer (s : pystr) : option (Decimal.uint * pystr) :=
  match s with
  | [] => None
  | c :: s' =>
      if c =? 48 then Some (Decimal.D0 Decimal.Nil, s')
      else if is_digit c then Some (take_digits s)
      else None
  end.

Definition starts_with_digit (s : pystr) : bool :=
  match s with
  | c :: _ => is_digit c
  | [] => false
  end.

(** Whether the fraction or the exponent group of [NUMBER_RE] matches *)
Definition has_frac_or_exp (s : pystr) : bool :=
  match s with
  | c :: s' =>
      if c =? 46 then starts_with_digit s'
      else if (c =? 101) || (c =? 69) then
        match s' with
        | g :: s'' =>
            if (g =? 43) || (g =? 45) then starts_with_digit s''
            else is_digit g
        | [] => false
        end
      else false
  | [] => false
  end.

(** [match_number] followed by [int(integer)]; nothing for a float *)
Definition scan_number (s : pystr) : option (json * pystr) :=
  let '(negative, body) :=
    match s with
    | c :: s' => if c =? 45 then (true, s') else (false, s)
    | [] => (false, s)
    end in
  match match_integer body with
  | None => None
  | Some (d, rest) =>
      if has_frac_or_exp rest then None
      else
        let n := Z.of_N (N.of_uint d) in
        Some (JInt (if negative then - n else n)%Z, rest)
  end.

Fixpoint strip_prefix (p s : pystr) : option pystr :=
  match p with
  | [] => Some s
  | a :: p' =>
      match s with
      | [] => None
      | c :: s' => if a =? c then strip_prefix p' s' else None
      end
  end.

(** [dict(pairs)] *)
Definition dict_of_pairs (pairs : list (pystr * json)) : dict :=
  fold_left (λ d kv, dict_set kv.1 kv.2 d) pairs [].

(** The last cases of [scan_once]: the three keywords, then a number *)
Definition scan_literal (s : pystr) : option (json * pystr) :=
  match strip_prefix (py "null") s with
  | Some rest => Some (JNull, rest)
  | None =>
      match strip_prefix (py "true") s with
      | Some rest => Some (JBool true, rest)
      | None =>
          match strip_prefix (py "false") s with
          | Some rest => Some (JBool false, rest)
          | None => scan_number s
          end
      end
  end.

(** [scan_once] with [JSONObject] and [JSONArray].  The two loops are
    entered at the first character of a key, after its quote, and at the
    first character of an element. *)
Fixpoint scan_once (fuel : nat) (s : pystr) {struct fuel} : option (json * pystr) :=
  match fuel with
  | O => None
  | S fuel =>
      match s with
      | [] => None
      | c :: s1 =>
          if c =? 34 then
            match scanstring s1 with
            | Some (str, rest) => Some (JStr str, rest)
            | None => None
            end
          else if c =? 123 then
            match skip_ws s1 with
            | [] => None
            | c2 :: s2 =>
                if c2 =? 125 then Some (JDict [], s2)
                else if c2 =? 34 then
                  match JSONObject fuel s2 with
                  | Some (pairs, rest) => Some (JDict (dict_of_pairs pairs), rest)
                  | None => None
                  end
                else None
            end
          else if c =? 91 then
            match skip_ws s1 with
            | [] => None
            | c2 :: s2 =>
                if c2 =? 93 then Some (JList [], s2)
                else
                  match JSONArray fuel (c2 :: s2) with
                  | Some (values, rest) => Some (JList values, rest)
                  | None => None
                  end
            end
          else scan_literal s
      end
  end

with JSONObject (fuel : nat) (s : pystr) {struct fuel}
  : option (list (pystr * json) * pystr) :=
  match fuel with
  | O => None
  | S fuel =>
      match scanstring s with
      | None => None
      | Some (key, s1) =>
          match skip_ws s1 with
          | [] => None
          | c :: s2 =>
              if c =? 58 then
                match scan_once fuel (skip_ws s2) with
                | None => None
                | Some (value, s3) =>
                    match skip_ws s3 with
                    | [] => None
                    | c3 :: s4 =>
                        if c3 =? 125 then Some ([(key, value)], s4)
                        else if c3 =? 44 then
                          match skip_ws s4 with
                          | [] => None
                          | c5 :: s5 =>
                              if c5 =? 34 then
                                match JSONObject fuel s5 with
                                | Some (pairs, rest) => Some ((key, value) :: pairs, rest)
                                | None => None
                                end
                              else None
                          end
                        else None
                    end
                end
              else None
          end
      end
  end

with JSONArray (fuel : nat) (s : pystr) {struct fuel}
  : option (list json * pystr) :=
  match fuel with
  | O => None
  | S fuel =>
      match scan_once fuel s with
      | None => None
      | Some (value, s1) =>
          match skip_ws s1 with
          | [] => None
          | c :: s2 =>
              if c =? 93 then Some ([value], s2)
              else if c =? 44 then
                match JSONArray fuel (skip_ws s2) with
                | Some (values, rest) => Some (value :: values, rest)
                | None => None
                end
              else None
          end
      end
  end.

(** [json.loads(s)]: leading whitespace, one value, trailing whitespace
    and nothing after it.  Every call of the scanner consumes a
    character, so the length of the text bounds the calls. *)
Definition loads (s : pystr) : option json :=
  match scan_once (S (length s)) (skip_ws s) with
  | Some (v, rest) =>
      match skip_ws rest with
      | [] => Some v
      | _ :: _ => None
      end
  | None => None
  end.

(** ** Well-formed documents

    A stored text is Unicode text: code points below 0x110000, none of
    them a surrogate.  A document is well formed when no dictionary in it
    holds a key twice and when, in each of its strings, the code points
    are in range and no high surrogate is directly followed by a low one
    (the decoder joins such a pair into one code point, so no decoded
    string holds one). *)

Definition is_surrogate (c : N) : bool := (55296 <=? c) && (c <=? 57343).
Definition scalar (c : N) : bool := (c <? 1114112) && negb (is_surrogate c).
Definition scalar_text (s : pystr) : bool := forallb scalar s.

Fixpoint str_ok (s : pystr) : bool :=
  match s with
  | [] => true
  | c :: s' =>
      (c <? 1114112)
      && negb (is_high_surrogate c
               && match s' with
                  | c2 :: _ => is_low_surrogate c2
                  | [] => false
                  end)
      && str_ok s'
  end.

Fixpoint doc_ok (v : json) : bool :=
  match v with
  | JStr s => str_ok s
  | JList l => forallb doc_ok l
  | JDict d =>
      bool_decide (NoDup d.*1)
      && forallb (λ kv, str_ok kv.1 && doc_ok kv.2) d
  | _ => true
  end.

End codec.

(** ** The process state

    The tool runs against one store.  The state keeps what the code can
    observe or change: whether the two files of the store exist, the
    string values the store holds, the backup copy of the store files,
    the calls made on the store and the lines printed. *)

Inductive file := DatabaseFile | CrcFile.

Inductive exn :=
| TypeError
| AttributeError
| IndexError
| FileNotFoundError (f : file)
| SystemExit (code : Z).

Inductive outcome (A : Type) :=
| Return (a : A)
| Raise (e : exn).
Arguments Return {A} a.
Arguments Raise {A} e.

Inductive event :=
| Open
| GetString (key : pystr)
| SetString (key value : pystr)
| CopyFiles.

Inductive message :=
| AppNotFound (package_name : pystr)
| NoOptimizations (package_name : pystr)
| RemovedActivity (activity_name : pystr)
| ActivityNotFound (activity_name : pystr)
| CreatedBackups
| Enabled (package_name activity_name draw_view_key : pystr)
| FailedEnable (package_name : pystr)
| Disabled (package_name : pystr)
| FailedDisable (package_name : pystr)
| NotKnownApp (package_name : pystr)
| ErrorRaised (e : exn).

Record state := mkState {
  database_exists : bool;
  crc_exists : bool;
  db : gmap pystr pystr;
  backup : option (gmap pystr pystr);
  calls : list event;
  stdout : list message
}.

Definition M (A : Type) : Type := state → outcome A * state.

Definition ret {A} (a : A) : M A := λ s, (Return a, s).

Definition raise {A} (e : exn) : M A := λ s, (Raise e, s).

Definition bind {A B} (m : M A) (k : A → M B) : M B :=
  λ s, match m s with
       | (Return a, s') => k a s'
       | (Raise e, s') => (Raise e, s')
       end.

Notation "x <- m ;; k" := (bind m (λ x, k))
  (at level 100, m at next level, right associativity).
Notation "m ;;; k" := (bind m (λ _, k))
  (at level 100, right associativity).

Definition print (m : message) : M unit :=
  λ s, (Return tt, mkState (database_exists s) (crc_exists s) (db s) (backup s)
                           (calls s) (stdout s ++ [m])).

Definition record_call (e : event) (s : state) : state :=
  mkState (database_exists s) (crc_exists s) (db s) (backup s)
          (calls s ++ [e]) (stdout s).

(** ** OnyxMMKVHandler *)

(** [__init__]: both files must exist, then the store is opened. *)
Definition OnyxMMKVHandler_init : M unit :=
  λ s, if negb (database_exists s) then (Raise (FileNotFoundError DatabaseFile), s)
       else if negb (crc_exists s) then (Raise (FileNotFoundError CrcFile), s)
       else (Return tt, record_call Open s).

Definition backup_database : M unit :=
  λ s, (Return tt,
        mkState (database_exists s) (crc_exists s) (db s) (Some (db s))
                (calls s ++ [CopyFiles]) (stdout s)).

Definition app_key (package_name : pystr) : pystr := py "eac_app_" ++ package_name.

(** Modelled from the spec: the key-value store is an external
    collaborator of the tool, taken by the contract the specification
    gives its adapter, [get(key)] and [set(key, value)] on string keys.
    Reading a key the store does not hold gives the empty string, which
    decodes to no document. *)
Definition getString (key : pystr) : M pystr :=
  λ s, (Return (default [] (db s !! key)), record_call (GetString key) s).

(** Modelled from the spec: [set(key, value)] stores the value under the
    key, the first argument of the call being the key. *)
Definition db_set (key value : pystr) : M unit :=
  λ s, (Return tt,
        mkState (database_exists s) (crc_exists s) (<[key := value]> (db s))
                (backup s) (calls s ++ [SetString key value]) (stdout s)).

(** [json.loads] raises on a text it cannot decode and the handler
    answers [None] then. *)
Definition get_app_config (package_name : pystr) : M (option json) :=
  config_str <- getString (app_key package_name) ;;
  ret (codec.loads config_str).

Definition set_app_config (package_name : pystr) (config : json) : M bool :=
  db_set (app_key package_name) (codec.dumps config) ;;;
  ret true.

(** ** HandwritingOptimizer *)

Definition activityConfigMap : pystr := py "activityConfigMap".

(** [not config] for the optional document [get_app_config] answers *)
Definition falsy (config : option json) : bool :=
  match config with
  | None => true
  | Some v => negb (truthy v)
  end.

(** Only a dictionary supports the membership test followed by the item
    assignments of [enable_handwriting]; on any other true document one
    of these statements raises [TypeError]. *)
Definition enable_handwriting (package_name draw_view_key activity_name : pystr)
  : M bool :=
  config <- get_app_config package_name ;;
  if falsy config then
    print (AppNotFound package_name) ;;;
    ret false
  else
    match config with
    | Some (JDict config) =>
        let config :=
          if negb (dict_in activityConfigMap config)
          then dict_set activityConfigMap (JDict []) config
          else config in
        let activity_config := create_activity_config draw_view_key activity_name in
        match dict_get activityConfigMap config with
        | Some (JDict activity_map) =>
            let activity_map := dict_set activity_name activity_config activity_map in
            set_app_config package_name
              (JDict (dict_set activityConfigMap (JDict activity_map) config))
        | _ => raise TypeError
        end
    | _ => raise TypeError
    end.

(** [x.get(k)] followed by a truth test: an absent key gives [None]. *)
Definition get_truthy (k : pystr) (d : dict) : bool :=
  truthy (default JNull (dict_get k d)).

(** The test of the removal loop on one entry of the map.  [.get] exists
    on dictionaries only. *)
Definition has_handwriting (act_config : json) : outcome bool :=
  match act_config with
  | JDict act_config =>
      match get_or_empty (py "noteConfig") act_config with
      | JDict note_config =>
          Return (get_truthy (py "enable") note_config
                  && get_truthy (py "drawViewKey") note_config)
      | _ => Raise AttributeError
      end
  | _ => Raise AttributeError
  end.

Fixpoint collect_to_remove (items : dict) : outcome (list pystr) :=
  match items with
  | [] => Return []
  | (act_name, act_config) :: items' =>
      match has_handwriting act_config with
      | Raise e => Raise e
      | Return b =>
          match collect_to_remove items' with
          | Raise e => Raise e
          | Return to_remove =>
              Return (if b then act_name :: to_remove else to_remove)
          end
      end
  end.

Definition remove_all (to_remove : list pystr) (activity_map : dict) : dict :=
  fold_left (λ m act_name, dict_del act_name m) to_remove activity_map.

Fixpoint print_all (ms : list message) : M unit :=
  match ms with
  | [] => ret tt
  | m :: ms' => print m ;;; print_all ms'
  end.

Fixpoint is_prefix_of (p s : pystr) : bool :=
  match p, s with
  | [], _ => true
  | _ :: _, [] => false
  | a :: p', c :: s' => (a =? c)%N && is_prefix_of p' s'
  end.

Fixpoint is_substring (p s : pystr) : bool :=
  is_prefix_of p s ||
  match s with
  | [] => false
  | _ :: s' => is_substring p s'
  end.

(** [activity_name in activity_map] for a true [activity_map]: key
    membership in a dictionary, element membership in a list, substring
    test in a string, [TypeError] otherwise. *)
Definition contains (activity_name : pystr) (activity_map : json) : outcome bool :=
  match activity_map with
  | JDict m => Return (dict_in activity_name m)
  | JList l => Return (existsb (λ x, match x with
                                      | JStr s => bool_decide (s = activity_name)
                                      | _ => false
                                      end) l)
  | JStr s => Return (is_substring activity_name s)
  | _ => Raise TypeError
  end.

(** The dictionary [activity_map] is the object held by [config]: what is
    deleted from it is deleted from [config], so the document written back
    is [config] with the map replaced where it stands. *)
Definition disable_handwriting (package_name : pystr) (activity_name : option pystr)
  : M bool :=
  config <- get_app_config package_name ;;
  if falsy config then
    print (AppNotFound package_name) ;;;
    ret false
  else
    match config with
    | Some (JDict config) =>
        let activity_map := get_or_empty activityConfigMap config in
        if negb (truthy activity_map) then
          print (NoOptimizations package_name) ;;;
          ret true
        else
          match activity_name with
          | Some (c :: name') =>
              let activity_name := c :: name' in
              match contains activity_name activity_map with
              | Raise e => raise e
              | Return true =>
                  match activity_map with
                  | JDict m =>
                      print (RemovedActivity activity_name) ;;;
                      set_app_config package_name
                        (JDict (dict_set activityConfigMap
                                  (JDict (dict_del activity_name m)) config))
                  | _ => raise TypeError
                  end
              | Return false =>
                  print (ActivityNotFound activity_name) ;;;
                  ret false
              end
          | _ =>
              match activity_map with
              | JDict m =>
                  match collect_to_remove m with
                  | Raise e => raise e
                  | Return to_remove =>
                      print_all (List.map RemovedActivity to_remove) ;;;
                      set_app_config package_name
                        (JDict (dict_set activityConfigMap
                                  (JDict (remove_all to_remove m)) config))
                  end
              | _ => raise AttributeError
              end
          end
    | _ => raise AttributeError
    end.

(** ** The preset catalog and the command line *)

Record preset := mkPreset {
  name : pystr;
  drawViewKey : pystr;
  commonActivities : list pystr
}.

Definition KNOWN_APPS : list (pystr * preset) :=
  [ (py "com.xodo.pdf.reader",
     mkPreset (py "Xodo PDF Reader") (py "com.pdftron.pdf.PDFViewCtrl")
       [ py "com.xodo.presentation.activity.TabletReaderActivity";
         py "com.xodo.presentation.activity.ReaderActivity" ]);
    (py "com.steadfastinnovation.android.projectpapyrus",
     mkPreset (py "Squid")
       (py "com.steadfastinnovation.android.projectpapyrus.ui.widget.PageViewContainer")
       [ py "com.steadfastinnovation.android.projectpapyrus.ui.MainActivity" ]);
    (py "md.obsidian",
     mkPreset (py "Obsidian (Excalidraw/Ink)") (py "com.getcapacitor.CapacitorWebView")
       [ py "md.obsidian.MainActivity" ]);
    (py "com.penly.penly",
     mkPreset (py "Penly") (py "com.penly.penly.editor.views.EditorView")
       [ py "com.penly.penly.editor.EditorActivity" ]);
    (py "jp.ne.ibis.ibispaintx",
     mkPreset (py "Ibis Paint X") (py "jp.ne.ibis.ibispaintx.app.glwtk.IbisPaintView")
       [ py "jp.ne.ibis.ibispaintx.app.MainActivity" ]);
    (py "com.medibang.android.paint.tablet",
     mkPreset (py "MediBang Paint")
       (py "com.medibang.android.paint.tablet.ui.widget.CanvasView")
       [ py "com.medibang.android.paint.tablet.MainActivity" ]);
    (py "org.joplin.react",
     mkPreset (py "Joplin (Drawing plugin)")
       (py "com.reactnativecommunity.webview.RNCWebView")
       [ py "org.joplin.react.MainActivity" ]);
    (py "com.easyinnovation.notebook.gfree",
     mkPreset (py "DrawNote") (py "com.dragonnest.app.view.DrawingContainerView")
       [ py "com.easyinnovation.notebook.gfree.MainActivity" ]);
    (py "com.microsoft.office.onenote",
     mkPreset (py "Microsoft OneNote")
       (py "com.microsoft.office.onenote.drawing.CanvasView")
       [ py "com.microsoft.office.onenote.ui.main.MainActivity" ]) ].

Fixpoint known_app (app : pystr) (table : list (pystr * preset)) : option preset :=
  match table with
  | [] => None
  | (k, info) :: table' => if decide (k = app) then Some info else known_app app table'
  end.

(** The sub-commands that change the store.  [--backup] is a
    [store_true] flag whose default is [True]: it is always set. *)
Inductive command :=
| CmdEnable (app draw_view activity : pystr)
| CmdDisable (app : pystr) (activity : option pystr)
| CmdQuick (app : pystr) (activity : option pystr).

(** The body of the [try] block of [main] for these sub-commands: the
    handler is built first, whatever the sub-command. *)
Definition main_try (args : command) : M unit :=
  OnyxMMKVHandler_init ;;;
  match args with
  | CmdEnable app draw_view activity =>
      backup_database ;;;
      print CreatedBackups ;;;
      success <- enable_handwriting app draw_view activity ;;
      if success then print (Enabled app activity draw_view)
      else print (FailedEnable app)
  | CmdDisable app activity =>
      backup_database ;;;
      print CreatedBackups ;;;
      success <- disable_handwriting app activity ;;
      if success then print (Disabled app) else print (FailedDisable app)
  | CmdQuick app activity =>
      match known_app app KNOWN_APPS with
      | None =>
          print (NotKnownApp app) ;;;
          raise (SystemExit 1)
      | Some app_info =>
          activity <-
            match activity with
            | Some (c :: a) => ret (c :: a)
            | _ =>
                match commonActivities app_info with
                | first :: _ => ret first
                | [] => raise IndexError
                end
            end ;;
          backup_database ;;;
          print CreatedBackups ;;;
          success <- enable_handwriting app (drawViewKey app_info) activity ;;
          if success then print (Enabled app activity (drawViewKey app_info))
          else print (FailedEnable app)
      end
  end.

(** [main]: [except Exception] prints the error and exits with status 1;
    [SystemExit] is not an [Exception] and passes through.  The result
    is the exit status. *)
Definition main (args : command) (s : state) : Z * state :=
  match main_try args s with
  | (Return _, s') => (0%Z, s')
  | (Raise (SystemExit code), s') => (code, s')
  | (Raise e, s') =>
      match print (ErrorRaised e) s' with
      | (_, s'') => (1%Z, s'')
      end
  end.

(** ** Notions of the specification *)

(** The map of a record, empty when the record has none. *)
Definition activity_map_of (config : dict) : dict :=
  match dict_get activityConfigMap config with
  | Some (JDict m) => m
  | _ => []
  end.

(** The optional field [activityConfigMap] of the data model: absent, or
    a mapping. *)
Definition map_shape_ok (config : dict) : bool :=
  match dict_get activityConfigMap config with
  | None | Some (JDict _) => true
  | _ => false
  end.

(** The record of an application: the store holds Unicode text under
    the key of the application and this text decodes to a document. *)
Definition recorded (s : state) (package_name : pystr) (config : dict) : Prop :=
  ∃ raw, db s !! app_key package_name = Some raw
         ∧ codec.scalar_text raw = true
         ∧ codec.loads raw = Some (JDict config).

(** Locate, as the two operations decide it: the record is a document
    that is not empty. *)
Definition located (s : state) (package_name : pystr) (config : dict) : Prop :=
  recorded s package_name config ∧ config ≠ [].

(** A field of the [noteConfig] of an entry. *)
Definition note_field (k : pystr) (entry : json) : option json :=
  match entry with
  | JDict e =>
      match dict_get (py "noteConfig") e with
      | Some (JDict n) => dict_get k n
      | _ => None
      end
  | _ => None
  end.

(** The active test in the words of the specification:
    [noteConfig.enable == true] and [noteConfig.drawViewKey] non-empty. *)
Definition active_test (entry : json) : bool :=
  match note_field (py "enable") entry, note_field (py "drawViewKey") entry with
  | Some (JBool true), Some (JStr (_ :: _)) => true
  | _, _ => false
  end.

(** An Activity Configuration of the data model, as far as the active
    test reads it: a document whose [noteConfig], when present, is a
    document with a boolean [enable] and a string [drawViewKey], each of
    them optional or null. *)
Definition note_typed (n : dict) : bool :=
  match dict_get (py "enable") n with
  | None | Some JNull | Some (JBool _) => true
  | _ => false
  end
  && match dict_get (py "drawViewKey") n with
     | None | Some JNull | Some (JStr _) => true
     | _ => false
     end.

Definition entry_typed (entry : json) : bool :=
  match entry with
  | JDict e =>
      match dict_get (py "noteConfig") e with
      | None => true
      | Some (JDict n) => note_typed n
      | _ => false
      end
  | _ => false
  end.

Definition record_typed (config : dict) : bool :=
  map_shape_ok config && forallb (λ kv, entry_typed kv.2) (activity_map_of config).


(** The state after [getString] and [db.set] on the key of an
    application, as one read-modify-write cycle leaves it. *)
Definition written (package_name : pystr) (config : json) (s : state) : state :=
  mkState (database_exists s) (crc_exists s)
          (<[app_key package_name := codec.dumps config]> (db s)) (backup s)
          ((calls s ++ [GetString (app_key package_name)])
             ++ [SetString (app_key package_name) (codec.dumps config)])
          (stdout s).

(** The state after a cycle that stops before the write. *)
Definition only_read (package_name : pystr) (said : list message) (s : state) : state :=
  mkState (database_exists s) (crc_exists s) (db s) (backup s)
          (calls s ++ [GetString (app_key package_name)])
          (stdout s ++ said).

Definition print_state (said : list message) (s : state) : state :=
  mkState (database_exists s) (crc_exists s) (db s) (backup s) (calls s)
          (stdout s ++ said).

(** The document [enable_handwriting] writes for a located record. *)
Definition enabled_config (draw_view_key activity_name : pystr) (config : dict) : dict :=
  dict_set activityConfigMap
    (JDict (dict_set activity_name
              (create_activity_config draw_view_key activity_name)
              (activity_map_of config)))
    config.

(** Text written with an apostrophe for the double quote. *)
Definition dq (s : string) : pystr :=
  List.map (λ c, if (c =? 39)%N then 34%N else c) (py s).

Definition fresh_state (store : gmap pystr pystr) : state :=
  mkState true true store None [] [].

Fixpoint get_path (path : list pystr) (v : json) : option json :=
  match path with
  | [] => Some v
  | k :: path' =>
      match v with
      | JDict d =>
          match dict_get k d with
          | Some v' => get_path path' v'
          | None => None
          end
      | _ => None
      end
  end.

(** The literal defaults of the Activity Configuration Builder as the
    specification lists them, field by field. *)
Module spec_defaults.

Definition fields (l : list (string * json)) : json :=
  JDict (List.map (λ nv, (py nv.1, nv.2)) l).

Definition displayConfig : json :=
  fields [ ("bwMode", JInt 0); ("cfaColorBrightness", JInt 0);
           ("cfaColorSaturation", JInt 0); ("cfaColorSaturationMin", JInt 60);
           ("contrast", JInt 30); ("ditherThreshold", JInt 128);
           ("enable", JBool true); ("enhance", JBool true);
           ("monoLevel", JInt 10) ]%string.

Definition noteConfig (input : pystr) : json :=
  fields [ ("compatibleVersionCode", JInt 0); ("drawViewKey", JStr input);
           ("enable", JBool true);
           ("globalStrokeStyle",
            fields [ ("enable", JBool true); ("strokeColor", JInt (-16777216));
                     ("strokeExtraArgs", JList []); ("strokeParams", JList []);
                     ("strokeStyle", JInt 0); ("strokeWidth", JInt 3) ]);
           ("repaintLatency", JInt 500); ("styleMap", JDict []);
           ("supportNoteConfig", JBool true) ]%string.

Definition paintConfig : json :=
  fields [ ("antiAlisingType", JInt 0); ("ditherBitmap", JBool false);
           ("enable", JBool true); ("fillBrightness", JInt 0);
           ("fillContrast", JInt 0); ("fillEAC", JBool false);
           ("iconBrightness", JInt 0); ("iconContrast", JInt 0);
           ("iconEAC", JBool false); ("iconThreshold", JInt 0);
           ("imgEAC", JBool true); ("imgGamma", JInt 60); ("quantBits", JInt 3);
           ("textBold", JBool false); ("textEACType", JInt 0) ]%string.

Definition refreshConfig : json :=
  fields [ ("animationDuration", JInt 50); ("antiFlicker", JInt 10);
           ("enable", JBool true); ("gcInterval", JInt 20);
           ("supportRegal", JBool false); ("turbo", JInt 2);
           ("updateMode", JInt 2); ("useGCForNewSurface", JBool false) ]%string.

(** The fields of the document shape of the data model *)
Definition shape : list pystr :=
  [ py "clsName"; py "enable"; py "disableScrollAnim"; py "displayConfig";
    py "noteConfig"; py "paintConfig"; py "refreshConfig" ].

End spec_defaults.

(** The document Locate decodes for an application: what
    [get_app_config] answers. *)
Definition stored (s : state) (package_name : pystr) : option json :=
  codec.loads (default [] (db s !! app_key package_name)).

(** [disable_handwriting] takes the branch without a name when the name
    is [None] or the empty string. *)
Definition unnamed (activity : option pystr) : Prop :=
  activity = None ∨ activity = Some [].

(** The entries the removal loop selects *)
Definition selected (entry : json) : bool :=
  match has_handwriting entry with
  | Return b => b
  | Raise _ => false
  end.

(** The state without the record of an application *)
Definition forget (package_name : pystr) (s : state) : state :=
  mkState (database_exists s) (crc_exists s)
          (delete (app_key package_name) (db s)) (backup s) (calls s) (stdout s).






(** ** Sample states *)

Definition empty_record_state : state :=
  fresh_state {[ app_key (py "x.y") := dq "{ }" ]}.

Definition plain_record_state : state :=
  fresh_state {[ app_key (py "x.y") := dq "{'label':'X Y'}" ]}.

Definition two_entries_text : pystr :=
  dq "{'activityConfigMap':{'A':{'noteConfig':{'enable':true,'drawViewKey':'v'}},'C':{'noteConfig':{'enable':false,'drawViewKey':'v'}}},'other':1}".

Definition two_entries_state : state :=
  fresh_state {[ app_key (py "x.y") := two_entries_text ]}.

Definition two_entries_config : dict :=
  match codec.loads two_entries_text with
  | Some (JDict d) => d
  | _ => []
  end.



(** ** Auxiliary notions of the codec proofs *)

Module codec_aux.
Import codec.
Local Open Scope N_scope.

Definition high_of (c : N) : N := N.lor 55296 (N.land (N.shiftr (c - 65536) 10) 1023).
Definition low_of (c : N) : N := N.lor 56320 (N.land (c - 65536) 1023).

Inductive escape_shape (c : N) : pystr → Prop :=
| shape_short e :
    e ≠ 117 → backslash e = Some c → escape_shape c [92; e]
| shape_plain :
    32 ≤ c → c ≠ 34 → c ≠ 92 → escape_shape c [c]
| shape_u :
    c < 65536 → escape_shape c (92 :: 117 :: hex4 c)
| shape_pair :
    65536 ≤ c →
    escape_shape c (92 :: 117 :: hex4 (high_of c) ++ 92 :: 117 :: hex4 (low_of c)).

(** What the scanner does after an escape [\uXXXX] of value [uni],
    looking at the text [s3] that follows it. *)
Definition after_u (uni : N) (s3 : pystr) : option (pystr * pystr) :=
  if is_high_surrogate uni then
    match s3 with
    | b :: u :: s4 =>
        if (b =? 92) && (u =? 117) then
          match s4 with
          | g1 :: g2 :: g3 :: g4 :: s5 =>
              match decode_uXXXX g1 g2 g3 g4 with
              | None => None
              | Some uni2 =>
                  if is_low_surrogate uni2
                  then push (join_surrogates uni uni2) (scanstring s5)
                  else push uni (scanstring s3)
              end
          | _ => None
          end
        else push uni (scanstring s3)
    | _ => push uni (scanstring s3)
    end
  else push uni (scanstring s3).

Definition delimited (rest : pystr) : bool :=
  match rest with
  | [] => true
  | c :: _ => (c =? 44) || (c =? 93) || (c =? 125)
  end.

Fixpoint size (v : json) : nat :=
  match v with
  | JList l => S (list_sum (List.map (λ x, S (size x)) l))
  | JDict d => S (list_sum (List.map (λ kv, S (size kv.2)) d))
  | _ => 1
  end.

(** The first character of an encoded document: never whitespace, never
    a closing bracket. *)
Definition opens_value (c : N) : bool :=
  (c =? 34) || (c =? 123) || (c =? 91) || (c =? 110) || (c =? 116)
  || (c =? 102) || (c =? 45) || is_digit c.

Definition roundtrips (v : json) : Prop :=
  doc_ok v = true →
  ∀ fuel rest, (size v ≤ fuel)%nat → delimited rest = true →
  scan_once fuel (dumps v ++ rest) = Some (v, rest).

Definition dumps_item (kv : pystr * json) : pystr :=
  encode_basestring_ascii kv.1 ++ 58 :: dumps kv.2.

Definition low_escape_head (s : pystr) : Prop :=
  ∃ g1 g2 g3 g4 s5 uni2,
    s = 92 :: 117 :: g1 :: g2 :: g3 :: g4 :: s5
    ∧ decode_uXXXX g1 g2 g3 g4 = Some uni2 ∧ is_low_surrogate uni2 = true.

Definition entry_ok (kv : pystr * json) : bool := str_ok kv.1 && doc_ok kv.2.

End codec_aux.

(** ** Listing the applications *)

(** The order of [str]: code point by code point, a proper prefix first. *)
Fixpoint str_leb (a b : pystr) : bool :=
  match a, b with
  | [], _ => true
  | _ :: _, [] => false
  | x :: a', y :: b' =>
      if (x <? y)%N then true else if (y <? x)%N then false else str_leb a' b'
  end.

Definition str_le (a b : pystr) : Prop := str_leb a b = true.

#[global] Instance str_le_dec : RelDecision str_le.
Proof. intros a b. unfold str_le. apply _. Defined.

(** [sorted] on a list of strings: the strings in ascending order.  The
    order of strings is total and two strings that compare equal are the
    same string, so that every sort gives this list. *)
Definition sorted (l : list pystr) : list pystr := merge_sort str_le l.

(** Modelled from the spec: [listKeys()] enumerates the keys the store
    holds, each once, in an order of the store's own.  An enumeration
    reads no value and the trace of calls does not keep it. *)
Definition db_keys : M (list pystr) :=
  λ s, (Return (map_to_list (db s)).*1, s).

(** The loop of [list_all_apps] over the keys: the keys that start with
    the prefix, without their first eight characters. *)
Definition eac_apps (keys : list pystr) : list pystr :=
  List.map (drop 8) (List.filter (is_prefix_of (py "eac_app_")) keys).

Definition list_all_apps : M (list pystr) :=
  keys <- db_keys ;;
  ret (sorted (eac_apps keys)).

(** One element of [activities_with_drawing]: the dictionary literal with
    the keys ['activity'] and ['drawViewKey']. *)
Record activity_info := mkInfo {
  info_activity : pystr;
  info_drawViewKey : json
}.

(** The body of the loop over the items of the map, as
    [list_optimized_apps] and the show command have it: what is kept of
    an entry that passes the test.  [.get] exists on dictionaries only;
    the key whose value is true is in the dictionary. *)
Definition drawing_info (activity_name : pystr) (activity_config : json)
  : outcome (option activity_info) :=
  match activity_config with
  | JDict activity_config =>
      match get_or_empty (py "noteConfig") activity_config with
      | JDict note_config =>
          if get_truthy (py "enable") note_config
             && get_truthy (py "drawViewKey") note_config
          then Return (Some (mkInfo activity_name
                               (default JNull (dict_get (py "drawViewKey") note_config))))
          else Return None
      | _ => Raise AttributeError
      end
  | _ => Raise AttributeError
  end.

(** The loop over the items of one map: the entries that pass the test,
    in the order of the map.  An entry on which the test raises ends
    the loop. *)
Fixpoint activities_with_drawing (items : dict) : outcome (list activity_info) :=
  match items with
  | [] => Return []
  | (activity_name, activity_config) :: items' =>
      match drawing_info activity_name activity_config with
      | Raise e => Raise e
      | Return found =>
          match activities_with_drawing items' with
          | Raise e => Raise e
          | Return activities =>
              Return (match found with
                      | Some info => info :: activities
                      | None => activities
                      end)
          end
      end
  end.

(** What [list_optimized_apps] collects for one application:
    [config and config.get('activityConfigMap')] guards the loop over
    [config['activityConfigMap'].items()]. *)
Definition optimized_activities (config : option json) : outcome (list activity_info) :=
  if falsy config then Return []
  else
    match config with
    | Some (JDict config) =>
        match dict_get activityConfigMap config with
        | None => Return []
        | Some activity_map =>
            if truthy activity_map then
              match activity_map with
              | JDict items => activities_with_drawing items
              | _ => Raise AttributeError
              end
            else Return []
        end
    | _ => Raise AttributeError
    end.

(** The loop over the applications: each record is read, and the
    application is kept with its activities when there are some. *)
Fixpoint list_optimized_loop (apps : list pystr)
  : M (list (pystr * list activity_info)) :=
  match apps with
  | [] => ret []
  | app :: apps' =>
      config <- get_app_config app ;;
      match optimized_activities config with
      | Raise e => raise e
      | Return activities =>
          optimized <- list_optimized_loop apps' ;;
          ret (match activities with
               | [] => optimized
               | _ :: _ => (app, activities) :: optimized
               end)
      end
  end.

Definition list_optimized_apps : M (list (pystr * list activity_info)) :=
  apps <- list_all_apps ;;
  list_optimized_loop apps.

(** What is listed of an entry of the map: its name and the
    [drawViewKey] of its [noteConfig]. *)
Definition info_of (kv : pystr * json) : activity_info :=
  mkInfo kv.1 (default JNull (note_field (py "drawViewKey") kv.2)).

(** ** The sub-commands that report

    The list, show and test sub-commands print lines of their own.  The
    console keeps them in the order they are printed, together with the
    messages of the operations the sub-command runs. *)

(** A line, or a block of lines that come together, by what it says:
    the count and the names of the list command, the report of the show
    command, and for the test command its header, the two lines for an
    application that is not found, the line about the backups, the block
    printed after a success and the line printed after a failure. *)
Inductive line :=
| Said (m : message)
| AllApps (count : nat)
| ListedApp (app : pystr)
| OptimizedApps (count : nat)
| OptimizedApp (app : pystr)
| OptimizedActivity (activity : pystr) (view : json)
| ConfigurationFor (app : pystr)
| ActivityConfigurations
| HandwritingEnabled (activity_name : pystr)
| DrawView (view : json)
| NoHandwriting (activity_name : pystr)
| NoActivityConfigurations
| AppNotInDatabase (app : pystr)
| Testing (app_name app draw_view activity : pystr)
| TestAppNotFound (app : pystr)
| TestBackups
| TestApplied (app_name app draw_view : pystr)
| TestFailed.

(** The state of the process and the lines printed so far. *)
Record console := mkConsole {
  process : state;
  screen : list line
}.

(** A step of a sub-command: it answers or raises, and leaves a
    console. *)
Definition K (A : Type) : Type := console → outcome A * console.

Definition retK {A} (a : A) : K A := λ c, (Return a, c).

Definition raiseK {A} (e : exn) : K A := λ c, (Raise e, c).

Definition bindK {A B} (m : K A) (k : A → K B) : K B :=
  λ c, match m c with
       | (Return a, c') => k a c'
       | (Raise e, c') => (Raise e, c')
       end.

Notation "x <~ m ;; k" := (bindK m (λ x, k))
  (at level 100, m at next level, right associativity).
Notation "m ;;~ k" := (bindK m (λ _, k))
  (at level 100, right associativity).

(** [print] of a line of the sub-command *)
Definition say (l : line) : K unit :=
  λ c, (Return tt, mkConsole (process c) (screen c ++ [l])).

(** An operation of the handler or of the optimizer, run from a
    sub-command: what it prints comes on the screen. *)
Definition run {A} (m : M A) : K A :=
  λ c, match m (process c) with
       | (r, s') =>
           (r, mkConsole s'
                 (screen c
                    ++ List.map Said (drop (length (stdout (process c))) (stdout s'))))
       end.

Fixpoint say_all (ls : list line) : K unit :=
  match ls with
  | [] => retK tt
  | l :: ls' => say l ;;~ say_all ls'
  end.

(** The loop of the show command over the items of the map *)
Fixpoint show_activities (items : dict) : K unit :=
  match items with
  | [] => retK tt
  | (activity_name, activity_config) :: items' =>
      match drawing_info activity_name activity_config with
      | Raise e => raiseK e
      | Return (Some info) =>
          say (HandwritingEnabled activity_name) ;;~
          say (DrawView (info_drawViewKey info)) ;;~
          show_activities items'
      | Return None =>
          say (NoHandwriting activity_name) ;;~
          show_activities items'
      end
  end.

(** The lines of the list command for one optimized application *)
Definition optimized_lines (entry : pystr * list activity_info) : list line :=
  OptimizedApp entry.1
  :: List.map (λ info, OptimizedActivity (info_activity info) (info_drawViewKey info))
       entry.2.

(** The name the test command prints: [args.name or args.app]. *)
Definition test_name (app : pystr) (name : option pystr) : pystr :=
  match name with
  | Some (c :: n) => c :: n
  | _ => app
  end.

(** The sub-commands that report, with their arguments. *)
Inductive report :=
| CmdList (all : bool)
| CmdShow (app : pystr)
| CmdTest (app draw_view activity : pystr) (name : option pystr).

(** The body of the [try] block of [main] for these sub-commands.  The
    test command returns from [main] when the application is not found:
    the block ends there, before the backup. *)
Definition report_try (args : report) : K unit :=
  run OnyxMMKVHandler_init ;;~
  match args with
  | CmdList true =>
      apps <~ run list_all_apps ;;
      say (AllApps (length apps)) ;;~
      say_all (List.map ListedApp apps)
  | CmdList false =>
      optimized <~ run list_optimized_apps ;;
      say (OptimizedApps (length optimized)) ;;~
      say_all (flat_map optimized_lines optimized)
  | CmdShow app =>
      config <~ run (get_app_config app) ;;
      if falsy config then say (AppNotInDatabase app)
      else
        say (ConfigurationFor app) ;;~
        match config with
        | Some (JDict config) =>
            let activity_map := get_or_empty activityConfigMap config in
            if truthy activity_map then
              say ActivityConfigurations ;;~
              match activity_map with
              | JDict items => show_activities items
              | _ => raiseK AttributeError
              end
            else say NoActivityConfigurations
        | _ => raiseK AttributeError
        end
  | CmdTest app draw_view activity name =>
      let app_name := test_name app name in
      say (Testing app_name app draw_view activity) ;;~
      config <~ run (get_app_config app) ;;
      if falsy config then say (TestAppNotFound app)
      else
        run backup_database ;;~
        say TestBackups ;;~
        success <~ run (enable_handwriting app draw_view activity) ;;
        if success then say (TestApplied app_name app draw_view)
        else say TestFailed
  end.

(** [main] on these sub-commands: the exit status and the console the
    process leaves. *)
Definition main_report (args : report) (c : console) : Z * console :=
  match report_try args c with
  | (Return _, c') => (0%Z, c')
  | (Raise (SystemExit code), c') => (code, c')
  | (Raise e, c') =>
      match say (Said (ErrorRaised e)) c' with
      | (_, c'') => (1%Z, c'')
      end
  end.

(** The lines of the show command for one entry of a map of the data
    model. *)
Definition show_lines (kv : pystr * json) : list line :=
  if active_test kv.2
  then [HandwritingEnabled kv.1; DrawView (info_drawViewKey (info_of kv))]
  else [NoHandwriting kv.1].

(** ** The suggestions of the discover sub-command *)

(** [s.split('.')] *)
Fixpoint split_dot (s : pystr) : list pystr :=
  match s with
  | [] => [[]]
  | c :: s' =>
      if (c =? 46)%N then [] :: split_dot s'
      else
        match split_dot s' with
        | p :: ps => (c :: p) :: ps
        | [] => [[c]]
        end
  end.

(** The list [common_suffixes] of the source *)
Definition common_suffixes : list pystr :=
  [ py "DrawView"; py "CanvasView"; py "PaintView"; py "DrawingView";
    py "PDFViewCtrl"; py "WebView"; py "RenderView"; py "EditorView";
    py "NoteView"; py "SketchView"; py "InkView"; py "PenView" ].

(** [f"{a}.{b}"] *)
Definition dotted (a b : pystr) : pystr := a ++ 46%N :: b.

(** The list [suggestions] the discover sub-command builds for
    [args.app]. *)
Definition suggestions (app : pystr) : list pystr :=
  let package_parts := split_dot app in
  let base_package :=
    if (2 <? length package_parts)%nat
    then codec.join 46 (removelast package_parts)
    else app in
  flat_map
    (λ suffix,
       [dotted base_package suffix; dotted app suffix]
       ++ (if (3 <=? length package_parts)%nat then
             let first := nth 0 package_parts [] in
             let second := nth 1 package_parts [] in
             [ dotted first (dotted second (dotted (py "ui") suffix));
               dotted first (dotted second (dotted (py "view") suffix)) ]
           else []))
    common_suffixes.

(** The numbered suggestions that are printed: [suggestions[:10]],
    counted from 1, and none when no application or the empty one is
    given. *)
Definition printed_suggestions (app : option pystr) : list (nat * pystr) :=
  match app with
  | Some (c :: a) => zip (seq 1 10) (take 10 (suggestions (c :: a)))
  | _ => []
  end.

(** ** The names of the files

    [pathlib] on the last component of the database path, its name:
    [name.rfind('.')], the properties [suffix] and [stem], and
    [with_suffix] for a suffix that is well-formed, as the three
    literals of the source are. *)

(** [name.rfind('.')], when there is a dot *)
Fixpoint rfind_dot (name : pystr) : option nat :=
  match name with
  | [] => None
  | c :: name' =>
      match rfind_dot name' with
      | Some i => Some (S i)
      | None => if (c =? 46)%N then Some 0%nat else None
      end
  end.

(** Where the suffix starts: [i] with [0 < i < len(name) - 1] *)
Definition suffix_start (name : pystr) : option nat :=
  match rfind_dot name with
  | Some i => if (0 <? i)%nat && (i <? length name - 1)%nat then Some i else None
  | None => None
  end.

Definition suffix (name : pystr) : pystr :=
  match suffix_start name with
  | Some i => drop i name
  | None => []
  end.

Definition stem (name : pystr) : pystr :=
  match suffix_start name with
  | Some i => take i name
  | None => name
  end.

(** [with_suffix] raises [ValueError] on a path that has no name. *)
Definition with_suffix (name new_suffix : pystr) : option pystr :=
  match name with
  | [] => None
  | _ :: _ => Some (take (length name - length (suffix name)) name ++ new_suffix)
  end.

(** The names [__init__] and [backup_database] compute from the name of
    the database file: the identifier under which the store is opened,
    the CRC file whose existence is checked, and the two backup files. *)
Definition database_name (name : pystr) : pystr := stem name.

Definition crc_name (name : pystr) : option pystr := with_suffix name (py ".crc").

Definition backup_db_name (name : pystr) : option pystr := with_suffix name (py ".backup").

Definition backup_crc_name (name : pystr) : option pystr :=
  crc ← crc_name name; with_suffix crc (py ".crc.backup").

(** ** Notions of the properties below, and more sample states *)

(** An application that is not found: the store holds no value under
    its key, or a value that decodes to a false value (the empty
    document, null, zero, the empty string, the empty list). *)
Definition not_found (s : state) (package_name : pystr) : Prop :=
  db s !! app_key package_name = None
  ∨ ∃ v, stored s package_name = Some v ∧ truthy v = false.


(** A text that holds no JSON value: after its leading whitespace it is
    empty, or it starts with a character that opens no value (the
    letters of [NaN] and [Infinity] open one for the decoder). *)
Definition no_value (raw : pystr) : bool :=
  match codec.skip_ws raw with
  | [] => true
  | c :: _ => negb (codec_aux.opens_value c) && negb (c =? 78)%N && negb (c =? 73)%N
  end.

(** A printable ASCII character: from the space to the tilde. *)
Definition printable (c : N) : Prop := (32 ≤ c ∧ c ≤ 126)%N.

Definition list_record_state : state :=
  fresh_state {[ app_key (py "x.y") := dq "[1]" ]}.

Definition null_map_state : state :=
  fresh_state {[ app_key (py "x.y") := dq "{'activityConfigMap':null}" ]}.

Definition broken_entry_map : dict :=
  [ (py "A", JDict [(py "noteConfig",
                     JDict [(py "enable", JBool true); (py "drawViewKey", JStr (py "v"))])]);
    (py "B", JInt 5) ].

Definition broken_entry_state : state :=
  fresh_state {[ app_key (py "x.y") :=
    dq "{'activityConfigMap':{'A':{'noteConfig':{'enable':true,'drawViewKey':'v'}},'B':5}}" ]}.

Definition two_apps_state : state :=
  fresh_state
    {[ app_key (py "x.y") := two_entries_text;
       app_key (py "a.b") :=
         dq "{'activityConfigMap':{'M':{'noteConfig':{'enable':true,'drawViewKey':'w'}}}}" ]}.


Definition plain_text_state : state :=
  fresh_state {[ app_key (py "x.y") := py "  record lost" ]}.

(** * Properties *)

Ltac Zify.zify_post_hook ::= Z.to_euclidean_division_equations.

(** ** The codec *)

Module codec_facts.
Import codec codec_aux.
Local Open Scope N_scope.

Ltac btest :=
  repeat match goal with
  | |- context [N.eqb ?a ?b] => destruct (N.eqb_spec a b); try lia
  | |- context [N.leb ?a ?b] => destruct (N.leb_spec a b); try lia
  | |- context [N.ltb ?a ?b] => destruct (N.ltb_spec a b); try lia
  end.

Lemma hexval_hexdigit d : d < 16 -> hexval (hexdigit d) = Some d.
Proof.
  intros H. unfold hexval, hexdigit.
  destruct (N.ltb_spec d 10); btest; simpl; f_equal; lia.
Qed.

Lemma decode_hex4 n :
  n < 65536 →
  decode_uXXXX (hexdigit (n / 4096 mod 16)) (hexdigit (n / 256 mod 16))
               (hexdigit (n / 16 mod 16)) (hexdigit (n mod 16)) = Some n.
Proof.
  intros H. unfold decode_uXXXX.
  rewrite !hexval_hexdigit by lia. f_equal. lia.
Qed.

Lemma lor_disjoint a b k : b < 2 ^ k → N.lor (a * 2 ^ k) b = a * 2 ^ k + b.
Proof.
  intros Hb.
  assert (Hland : N.land (a * 2 ^ k) b = 0).
  { apply N.bits_inj. intros i. rewrite N.land_spec, N.bits_0.
    destruct (N.lt_ge_cases i k) as [Hi | Hi].
    - rewrite N.mul_pow2_bits_low by assumption. reflexivity.
    - destruct (N.eq_dec b 0) as [-> | Hnz].
      + rewrite N.bits_0. apply andb_false_r.
      + rewrite (N.bits_above_log2 b i), andb_false_r; [reflexivity|].
        apply N.log2_lt_pow2; [lia|].
        eapply N.lt_le_trans; [exact Hb|]. apply N.pow_le_mono_r; lia. }
  rewrite N.add_nocarry_lxor by exact Hland. symmetry. apply N.lxor_lor. exact Hland.
Qed.


Lemma high_of_eq c : 65536 ≤ c → c < 1114112 → high_of c = 55296 + (c - 65536) / 1024.
Proof.
  intros H1 H2. unfold high_of.
  change 1023 with (N.ones 10). rewrite N.land_ones, N.shiftr_div_pow2.
  change (2 ^ 10) with 1024.
  change 55296 with (54 * 2 ^ 10) at 1. rewrite lor_disjoint.
  - change (2 ^ 10) with 1024. lia.
  - change (2 ^ 10) with 1024. lia.
Qed.

Lemma low_of_eq c : 65536 ≤ c → low_of c = 56320 + (c - 65536) mod 1024.
Proof.
  intros H1. unfold low_of.
  change 1023 with (N.ones 10). rewrite N.land_ones.
  change (2 ^ 10) with 1024.
  change 56320 with (55 * 2 ^ 10) at 1. rewrite lor_disjoint.
  - change (2 ^ 10) with 1024. lia.
  - change (2 ^ 10) with 1024. lia.
Qed.

Lemma join_high_low c :
  65536 ≤ c → c < 1114112 → join_surrogates (high_of c) (low_of c) = c.
Proof.
  intros H1 H2. unfold join_surrogates.
  rewrite high_of_eq, low_of_eq by assumption.
  rewrite N.shiftl_mul_pow2.
  replace (55296 + (c - 65536) / 1024 - 55296) with ((c - 65536) / 1024) by lia.
  replace (56320 + (c - 65536) mod 1024 - 56320) with ((c - 65536) mod 1024) by lia.
  rewrite lor_disjoint by (change (2 ^ 10) with 1024; lia).
  change (2 ^ 10) with 1024. lia.
Qed.


Lemma escape_char_shape c : escape_shape c (escape_char c).
Proof.
  unfold escape_char.
  destruct (N.eqb_spec c 34) as [-> | ?]; [by apply (shape_short _ 34)|].
  destruct (N.eqb_spec c 92) as [-> | ?]; [by apply (shape_short _ 92)|].
  destruct (N.eqb_spec c 8) as [-> | ?]; [by apply (shape_short _ 98)|].
  destruct (N.eqb_spec c 12) as [-> | ?]; [by apply (shape_short _ 102)|].
  destruct (N.eqb_spec c 10) as [-> | ?]; [by apply (shape_short _ 110)|].
  destruct (N.eqb_spec c 13) as [-> | ?]; [by apply (shape_short _ 114)|].
  destruct (N.eqb_spec c 9) as [-> | ?]; [by apply (shape_short _ 116)|].
  destruct (N.leb_spec 32 c); simpl.
  - destruct (N.leb_spec c 126); simpl.
    + by apply shape_plain.
    + destruct (N.ltb_spec c 65536); [by apply shape_u|].
      by apply shape_pair.
  - destruct (N.ltb_spec c 65536); [by apply shape_u|]. lia.
Qed.

Lemma scanstring_quote s : scanstring (34 :: s) = Some ([], s).
Proof. reflexivity. Qed.

Lemma scanstring_plain c s :
  32 ≤ c → c ≠ 34 → c ≠ 92 → scanstring (c :: s) = push c (scanstring s).
Proof.
  intros H1 H2 H3. simpl.
  destruct (N.eqb_spec c 34); [done|].
  destruct (N.eqb_spec c 92); [done|].
  destruct (N.ltb_spec c 32); [lia|]. done.
Qed.

Lemma scanstring_short e ch s :
  e ≠ 117 → backslash e = Some ch →
  scanstring (92 :: e :: s) = push ch (scanstring s).
Proof.
  intros H1 H2. simpl.
  destruct (N.eqb_spec e 117); [done|]. by rewrite H2.
Qed.


Lemma scanstring_u h1 h2 h3 h4 s3 :
  scanstring (92 :: 117 :: h1 :: h2 :: h3 :: h4 :: s3) =
  match decode_uXXXX h1 h2 h3 h4 with
  | None => None
  | Some uni => after_u uni s3
  end.
Proof. reflexivity. Qed.

Lemma scanstring_hex4 n s3 :
  n < 65536 → scanstring (92 :: 117 :: hex4 n ++ s3) = after_u n s3.
Proof.
  intros H. unfold hex4. cbn [app]. rewrite scanstring_u, decode_hex4; done.
Qed.

Lemma high_of_range c : 65536 ≤ c → c < 1114112 → 55296 ≤ high_of c ∧ high_of c ≤ 56319.
Proof. intros. rewrite high_of_eq by done. lia. Qed.

Lemma low_of_range c : 65536 ≤ c → 56320 ≤ low_of c ∧ low_of c ≤ 57343.
Proof. intros. rewrite low_of_eq by done. lia. Qed.

Lemma is_high_true c : 55296 ≤ c → c ≤ 56319 → is_high_surrogate c = true.
Proof. intros. unfold is_high_surrogate. btest. Qed.
Lemma is_low_true c : 56320 ≤ c → c ≤ 57343 → is_low_surrogate c = true.
Proof. intros. unfold is_low_surrogate. btest. Qed.
Lemma high_not_low c : is_high_surrogate c = true → is_low_surrogate c = false.
Proof. unfold is_high_surrogate, is_low_surrogate. btest; done. Qed.

(** The escape of a character that is not a low surrogate is never taken
    for the second half of a pair. *)
Lemma after_u_lone uni c s :
  c < 1114112 → is_low_surrogate c = false →
  after_u uni (escape_char c ++ s) = push uni (scanstring (escape_char c ++ s)).
Proof.
  intros Hc Hlow. unfold after_u.
  destruct (is_high_surrogate uni); [|done].
  destruct (escape_char_shape c) as [e He Hb | H1 H2 H3 | H1 | H1].
  - cbn [app]. replace (e =? 117) with false by (symmetry; by apply N.eqb_neq).
    by rewrite andb_false_r.
  - cbn [app]. destruct s as [|u s]; [done|].
    replace (c =? 92) with false by (symmetry; by apply N.eqb_neq). done.
  - unfold hex4. cbn [app]. simpl ((92 =? 92) && (117 =? 117)). cbv iota.
    rewrite decode_hex4 by done. by rewrite Hlow.
  - unfold hex4. cbn [app]. simpl ((92 =? 92) && (117 =? 117)). cbv iota.
    destruct (high_of_range c) as [? ?]; [done..|].
    rewrite decode_hex4 by lia.
    rewrite high_not_low; [done|]. by apply is_high_true.
Qed.

Lemma after_u_end uni s : after_u uni (34 :: s) = push uni (scanstring (34 :: s)).
Proof.
  unfold after_u. destruct (is_high_surrogate uni); [|done].
  destruct s; done.
Qed.

Lemma scanstring_pair c s :
  65536 ≤ c → c < 1114112 →
  scanstring (92 :: 117 :: hex4 (high_of c) ++ 92 :: 117 :: hex4 (low_of c) ++ s)
  = push c (scanstring s).
Proof.
  intros H1 H2.
  destruct (high_of_range c) as [? ?]; [done..|].
  destruct (low_of_range c) as [? ?]; [done..|].
  rewrite scanstring_hex4 by lia. unfold after_u.
  rewrite is_high_true by done.
  unfold hex4 at 1. cbn [app]. simpl ((92 =? 92) && (117 =? 117)). cbv iota.
  rewrite decode_hex4 by lia. rewrite is_low_true by done.
  by rewrite join_high_low.
Qed.

Lemma scanstring_escape s rest :
  str_ok s = true →
  scanstring (flat_map escape_char s ++ 34 :: rest) = Some (s, rest).
Proof.
  induction s as [|c s IH]; intros Hok; [done|].
  cbn [str_ok] in Hok. apply andb_true_iff in Hok as [Hok Hs].
  apply andb_true_iff in Hok as [Hc Hpair]. apply N.ltb_lt in Hc.
  specialize (IH Hs).
  cbn [flat_map]. rewrite <- app_assoc.
  destruct (escape_char_shape c) as [e He Hb | H1 H2 H3 | H1 | H1].
  - cbn [app]. rewrite (scanstring_short e c) by done. by rewrite IH.
  - cbn [app]. rewrite scanstring_plain by done. by rewrite IH.
  - cbn [app]. rewrite scanstring_hex4 by done.
    destruct s as [|c2 s].
    + cbn [flat_map app]. rewrite after_u_end. cbn [flat_map app] in IH. by rewrite IH.
    + cbn [flat_map]. rewrite <- app_assoc.
      cbn [flat_map] in IH. rewrite <- app_assoc in IH.
      cbn [str_ok] in Hs. apply andb_true_iff in Hs as [Hs _].
      apply andb_true_iff in Hs as [Hc2 _]. apply N.ltb_lt in Hc2.
      destruct (is_high_surrogate c) eqn:Hhigh.
      * rewrite after_u_lone; [by rewrite IH|done|].
        simpl in Hpair. by destruct (is_low_surrogate c2).
      * unfold after_u. rewrite Hhigh. by rewrite IH.
  - cbn [app]. rewrite <- app_assoc. cbn [app].
    rewrite scanstring_pair by done. by rewrite IH.
Qed.

(** Numbers *)


Lemma delimited_no_digit rest : delimited rest = true → starts_with_digit rest = false.
Proof.
  destruct rest as [|c rest]; [done|]. unfold delimited, starts_with_digit, is_digit.
  btest; done.
Qed.

Lemma delimited_no_frac rest : delimited rest = true → has_frac_or_exp rest = false.
Proof.
  destruct rest as [|c rest]; [done|]. unfold delimited, has_frac_or_exp.
  btest; done.
Qed.

Lemma take_digits_chars d rest :
  starts_with_digit rest = false →
  take_digits (uint_chars d ++ rest) = (d, rest).
Proof.
  intros Hrest. induction d; cbn [uint_chars app take_digits];
    try (rewrite IHd; reflexivity).
  destruct rest as [|c rest]; [done|]. cbn [take_digits].
  cbn [starts_with_digit] in Hrest. by rewrite Hrest.
Qed.

Lemma nzhead_not_D0 d d' : Decimal.nzhead d ≠ Decimal.D0 d'.
Proof. induction d; cbn; done. Qed.

Lemma to_uint_head p :
  ∃ c t, uint_chars (Pos.to_uint p) = c :: t ∧ is_digit c = true ∧ c ≠ 48.
Proof.
  pose proof (DecimalPos.Unsigned.to_of (Pos.to_uint p)) as Hnorm.
  rewrite DecimalPos.Unsigned.of_to in Hnorm. cbn [N.to_uint] in Hnorm.
  pose proof (DecimalPos.Unsigned.to_uint_nonnil p) as Hnil.
  destruct (Pos.to_uint p) as [|d|d|d|d|d|d|d|d|d|d] eqn:E; [done| |..];
    try (eexists _, _; split; [reflexivity|]; split; [reflexivity|]; lia).
  exfalso. unfold Decimal.unorm in Hnorm. cbn [Decimal.nzhead] in Hnorm.
  destruct (Decimal.nzhead d) eqn:Hd; try discriminate.
  - injection Hnorm as Hnorm. subst d. by apply (DecimalPos.Unsigned.to_uint_nonzero p).
  - exact (nzhead_not_D0 _ _ Hd).
Qed.

Lemma match_integer_pos p rest :
  starts_with_digit rest = false →
  match_integer (uint_chars (Pos.to_uint p) ++ rest) = Some (Pos.to_uint p, rest).
Proof.
  intros Hrest. destruct (to_uint_head p) as (c & t & E & Hd & Hc).
  pose proof (take_digits_chars (Pos.to_uint p) rest Hrest) as Ht.
  rewrite E in *. cbn [app] in *. unfold match_integer.
  replace (c =? 48) with false by (symmetry; by apply N.eqb_neq).
  rewrite Hd. by rewrite Ht.
Qed.

Lemma scan_number_repr n rest :
  delimited rest = true →
  scan_number (int_repr n ++ rest) = Some (JInt n, rest).
Proof.
  intros Hrest.
  pose proof (delimited_no_digit _ Hrest) as Hd.
  pose proof (delimited_no_frac _ Hrest) as Hf.
  destruct n as [|p|p]; unfold int_repr, scan_number.
  - cbn. by rewrite Hf.
  - destruct (to_uint_head p) as (c & t & E & Hc & Hc0).
    pose proof (match_integer_pos p rest Hd) as Hm. rewrite E in *. cbn [app] in *.
    assert ((c =? 45) = false) as ->.
    { revert Hc. unfold is_digit. btest; done. }
    rewrite Hm, Hf. f_equal. f_equal. f_equal.
    change (N.of_uint (Pos.to_uint p)) with (Pos.of_uint (Pos.to_uint p)).
    by rewrite DecimalPos.Unsigned.of_to.
  - cbn [app]. simpl (45 =? 45). cbv iota.
    rewrite match_integer_pos by done. rewrite Hf. f_equal. f_equal. f_equal.
    change (N.of_uint (Pos.to_uint p)) with (Pos.of_uint (Pos.to_uint p)).
    by rewrite DecimalPos.Unsigned.of_to.
Qed.

(** Values *)



Lemma scan_once_str fuel s1 :
  scan_once (S fuel) (34 :: s1) =
  match scanstring s1 with
  | Some (str, rest) => Some (JStr str, rest)
  | None => None
  end.
Proof. reflexivity. Qed.

Lemma scan_once_dict fuel s1 :
  scan_once (S fuel) (123 :: s1) =
  match skip_ws s1 with
  | [] => None
  | c2 :: s2 =>
      if c2 =? 125 then Some (JDict [], s2)
      else if c2 =? 34 then
        match JSONObject fuel s2 with
        | Some (pairs, rest) => Some (JDict (dict_of_pairs pairs), rest)
        | None => None
        end
      else None
  end.
Proof. reflexivity. Qed.

Lemma scan_once_list fuel s1 :
  scan_once (S fuel) (91 :: s1) =
  match skip_ws s1 with
  | [] => None
  | c2 :: s2 =>
      if c2 =? 93 then Some (JList [], s2)
      else
        match JSONArray fuel (c2 :: s2) with
        | Some (values, rest) => Some (JList values, rest)
        | None => None
        end
  end.
Proof. reflexivity. Qed.


Lemma scan_once_other fuel c s1 :
  c ≠ 34 → c ≠ 123 → c ≠ 91 →
  scan_once (S fuel) (c :: s1) = scan_literal (c :: s1).
Proof.
  intros H1 H2 H3. cbn [scan_once].
  destruct (N.eqb_spec c 34); [done|].
  destruct (N.eqb_spec c 123); [done|].
  destruct (N.eqb_spec c 91); [done|]. reflexivity.
Qed.

Lemma JSONObject_eq fuel s :
  JSONObject (S fuel) s =
  match scanstring s with
  | None => None
  | Some (key, s1) =>
      match skip_ws s1 with
      | [] => None
      | c :: s2 =>
          if c =? 58 then
            match scan_once fuel (skip_ws s2) with
            | None => None
            | Some (value, s3) =>
                match skip_ws s3 with
                | [] => None
                | c3 :: s4 =>
                    if c3 =? 125 then Some ([(key, value)], s4)
                    else if c3 =? 44 then
                      match skip_ws s4 with
                      | [] => None
                      | c5 :: s5 =>
                          if c5 =? 34 then
                            match JSONObject fuel s5 with
                            | Some (pairs, rest) => Some ((key, value) :: pairs, rest)
                            | None => None
                            end
                          else None
                      end
                    else None
                end
            end
          else None
      end
  end.
Proof. reflexivity. Qed.

Lemma JSONArray_eq fuel s :
  JSONArray (S fuel) s =
  match scan_once fuel s with
  | None => None
  | Some (value, s1) =>
      match skip_ws s1 with
      | [] => None
      | c :: s2 =>
          if c =? 93 then Some ([value], s2)
          else if c =? 44 then
            match JSONArray fuel (skip_ws s2) with
            | Some (values, rest) => Some (value :: values, rest)
            | None => None
            end
          else None
      end
  end.
Proof. reflexivity. Qed.


Lemma dumps_head v : ∃ c t, dumps v = c :: t ∧ opens_value c = true.
Proof.
  destruct v as [|[]|n|s|l|d]; try (eexists _, _; split; [reflexivity|done]).
  destruct n as [|p|p]; try (eexists _, _; split; [reflexivity|done]).
  destruct (to_uint_head p) as (c & t & E & Hd & _).
  exists c, t. split; [exact E|]. unfold opens_value. rewrite Hd.
  by rewrite !orb_true_r.
Qed.

Lemma skip_ws_nonws c s : is_ws c = false → skip_ws (c :: s) = c :: s.
Proof. intros H. cbn [skip_ws]. by rewrite H. Qed.

Lemma skip_ws_opens c s : opens_value c = true → skip_ws (c :: s) = c :: s.
Proof.
  intros H. cbn [skip_ws].
  assert (is_ws c = false) as ->; [|done].
  revert H. unfold opens_value, is_ws, is_digit. btest; done.
Qed.

Lemma skip_ws_dumps v s : skip_ws (dumps v ++ s) = dumps v ++ s.
Proof.
  destruct (dumps_head v) as (c & t & -> & H). by apply skip_ws_opens.
Qed.

Lemma scan_literal_int n rest :
  delimited rest = true → scan_literal (int_repr n ++ rest) = Some (JInt n, rest).
Proof.
  intros H. unfold scan_literal.
  destruct (dumps_head (JInt n)) as (c & t & E & Hc). cbn [dumps] in E.
  assert (strip_prefix (py "null") (int_repr n ++ rest) = None) as ->.
  { destruct n as [|p|p]; [done| |done].
    destruct (to_uint_head p) as (c' & t' & E' & Hd & _). cbn [int_repr]. rewrite E'.
    cbn. revert Hd. unfold is_digit. btest; done. }
  assert (strip_prefix (py "true") (int_repr n ++ rest) = None) as ->.
  { destruct n as [|p|p]; [done| |done].
    destruct (to_uint_head p) as (c' & t' & E' & Hd & _). cbn [int_repr]. rewrite E'.
    cbn. revert Hd. unfold is_digit. btest; done. }
  assert (strip_prefix (py "false") (int_repr n ++ rest) = None) as ->.
  { destruct n as [|p|p]; [done| |done].
    destruct (to_uint_head p) as (c' & t' & E' & Hd & _). cbn [int_repr]. rewrite E'.
    cbn. revert Hd. unfold is_digit. btest; done. }
  by apply scan_number_repr.
Qed.

Lemma dict_set_fresh k v (d : dict) : k ∉ d.*1 → dict_set k v d = d ++ [(k, v)].
Proof.
  induction d as [|[k' v'] d IH]; intros Hk; [done|].
  cbn [dict_set]. cbn in Hk. apply not_elem_of_cons in Hk as [Hne Hk].
  destruct (decide (k' = k)); [congruence|]. cbn. by rewrite IH.
Qed.

Lemma dict_of_pairs_app (acc d : dict) :
  NoDup ((acc ++ d).*1) →
  fold_left (λ d kv, dict_set kv.1 kv.2 d) d acc = acc ++ d.
Proof.
  revert acc. induction d as [|[k v] d IH]; intros acc Hnd.
  - by rewrite app_nil_r.
  - cbn [fold_left fst snd]. rewrite dict_set_fresh.
    + rewrite IH; rewrite <- app_assoc; done.
    + rewrite fmap_app in Hnd. apply NoDup_app in Hnd as (_ & Hdis & _).
      intros Hin. apply (Hdis k Hin). cbn. left.
Qed.

Lemma dict_of_pairs_nodup (d : dict) : NoDup d.*1 → dict_of_pairs d = d.
Proof. intros H. unfold dict_of_pairs. by rewrite dict_of_pairs_app. Qed.


Lemma join_cons2 sep p q ps : join sep (p :: q :: ps) = p ++ sep :: join sep (q :: ps).
Proof. reflexivity. Qed.

Lemma JSONArray_dumps l :
  l ≠ [] → Forall roundtrips l → forallb doc_ok l = true →
  ∀ fuel rest, (list_sum (List.map (λ x, S (size x)) l) ≤ fuel)%nat →
  JSONArray fuel (join 44 (List.map dumps l) ++ 93 :: rest) = Some (l, rest).
Proof.
  induction l as [|x l IH]; [done|]. intros _ Hall Hok fuel rest Hfuel.
  apply Forall_cons in Hall as [Hx Hall].
  cbn [forallb] in Hok. apply andb_true_iff in Hok as [Hokx Hok].
  cbn [List.map list_sum] in Hfuel.
  destruct fuel as [|fuel]; [cbn in Hfuel; lia|].
  rewrite JSONArray_eq. destruct l as [|y l].
  - cbn [List.map join]. rewrite (Hx Hokx) by (cbn in Hfuel |- *; done || lia).
    reflexivity.
  - cbn [List.map]. rewrite join_cons2, <- app_assoc. cbn [app].
    rewrite (Hx Hokx) by (cbn in Hfuel |- *; done || lia).
    rewrite (skip_ws_nonws 44) by done.
    simpl (44 =? 93). simpl (44 =? 44). cbv iota.
    change (dumps y :: List.map dumps l) with (List.map dumps (y :: l)).
    assert (Hskip : skip_ws (join 44 (List.map dumps (y :: l)) ++ 93 :: rest)
                    = join 44 (List.map dumps (y :: l)) ++ 93 :: rest).
    { cbn [List.map join]. destruct (List.map dumps l).
      - apply skip_ws_dumps.
      - rewrite <- app_assoc. apply skip_ws_dumps. }
    rewrite Hskip, IH; [done|done|done|done|]. cbn in Hfuel |- *. lia.
Qed.


Lemma dumps_item_eq k v s :
  dumps_item (k, v) ++ s = 34 :: flat_map escape_char k ++ 34 :: 58 :: dumps v ++ s.
Proof.
  unfold dumps_item, encode_basestring_ascii. cbn [fst snd app].
  by rewrite <- !app_assoc.
Qed.

Lemma JSONObject_dumps d :
  d ≠ [] → Forall (λ kv, roundtrips kv.2) d →
  forallb (λ kv, str_ok kv.1 && doc_ok kv.2) d = true →
  ∀ fuel rest s, (list_sum (List.map (λ kv, S (size kv.2)) d) ≤ fuel)%nat →
  34 :: s = join 44 (List.map dumps_item d) ++ 125 :: rest →
  JSONObject fuel s = Some (d, rest).
Proof.
  induction d as [|[k v] d IH]; [done|]. intros _ Hall Hok fuel rest s Hfuel Hs.
  apply Forall_cons in Hall as [Hv Hall]. cbn [snd] in Hv.
  cbn [forallb fst snd] in Hok. apply andb_true_iff in Hok as [Hokkv Hok].
  apply andb_true_iff in Hokkv as [Hokk Hokv].
  cbn [List.map list_sum snd] in Hfuel.
  destruct fuel as [|fuel]; [cbn in Hfuel; lia|].
  rewrite JSONObject_eq. destruct d as [|kv d].
  - cbn [List.map join] in Hs. rewrite dumps_item_eq in Hs.
    injection Hs as ->.
    rewrite scanstring_escape by done.
    rewrite (skip_ws_nonws 58) by done. simpl (58 =? 58). cbv iota.
    rewrite skip_ws_dumps.
    rewrite (Hv Hokv) by (cbn in Hfuel |- *; done || lia).
    reflexivity.
  - cbn [List.map] in Hs. rewrite join_cons2, <- app_assoc in Hs. cbn [app] in Hs.
    change (dumps_item kv :: List.map dumps_item d)
      with (List.map dumps_item (kv :: d)) in Hs.
    assert (∃ s', join 44 (List.map dumps_item (kv :: d)) ++ 125 :: rest = 34 :: s')
      as [s' Hs'].
    { destruct kv as [k' v']. cbn [List.map join]. destruct (List.map dumps_item d).
      - rewrite dumps_item_eq. by eexists.
      - rewrite <- app_assoc, dumps_item_eq. by eexists. }
    rewrite Hs' in Hs. rewrite dumps_item_eq in Hs. injection Hs as ->.
    rewrite scanstring_escape by done.
    rewrite (skip_ws_nonws 58) by done. simpl (58 =? 58). cbv iota.
    rewrite skip_ws_dumps.
    rewrite (Hv Hokv) by (cbn in Hfuel |- *; done || lia).
    rewrite (skip_ws_nonws 44) by done.
    simpl (44 =? 125). simpl (44 =? 44). cbv iota.
    rewrite (skip_ws_nonws 34) by done. simpl (34 =? 34). cbv iota.
    rewrite (IH ltac:(done) Hall Hok fuel rest s'); [done| |done].
    cbn in Hfuel |- *. lia.
Qed.

Theorem scan_once_dumps v : roundtrips v.
Proof.
  induction v as [|b|n|s|l IH|d IH] using json_ind; intros Hok fuel rest Hfuel Hrest;
    cbn [size] in Hfuel; (destruct fuel as [|fuel]; [lia|]).
  - reflexivity.
  - by destruct b.
  - cbn [dumps]. destruct (dumps_head (JInt n)) as (c & t & E & Hc).
    cbn [dumps] in E. 
    assert (c ≠ 34 ∧ c ≠ 123 ∧ c ≠ 91) as (H1 & H2 & H3).
    { destruct n as [|p|p]; cbn [int_repr] in E.
      - injection E as <- <-. lia.
      - destruct (to_uint_head p) as (c' & t' & E' & Hd & _). rewrite E' in E.
        injection E as <- <-. revert Hd. unfold is_digit. btest; done.
      - injection E as <- <-. lia. }
    pose proof (scan_literal_int n rest Hrest) as Hlit.
    rewrite E in *. cbn [app] in *. by rewrite scan_once_other.
  - cbn [dumps]. unfold encode_basestring_ascii. cbn [app].
    rewrite scan_once_str. rewrite <- app_assoc. cbn [app].
    cbn [doc_ok] in Hok. by rewrite scanstring_escape.
  - cbn [dumps app]. rewrite scan_once_list, <- app_assoc. cbn [app].
    cbn [doc_ok] in Hok.
    destruct l as [|x l]; [reflexivity|].
    assert (∃ c s', join 44 (List.map dumps (x :: l)) ++ 93 :: rest = c :: s'
                            ∧ opens_value c = true) as (c & s' & Hs' & Hc).
    { cbn [List.map join]. destruct (List.map dumps l).
      - destruct (dumps_head x) as (c & t & -> & H). by eexists _, _.
      - rewrite <- app_assoc. destruct (dumps_head x) as (c & t & -> & H).
        by eexists _, _. }
    rewrite Hs'. rewrite skip_ws_opens by done.
    assert ((c =? 93) = false) as ->.
    { revert Hc. unfold opens_value, is_digit. btest; done. }
    rewrite <- Hs'. rewrite JSONArray_dumps; [done|done| |done|lia].
    eapply Forall_impl; [exact IH|]. done.
  - cbn [dumps app]. rewrite scan_once_dict, <- app_assoc. cbn [app].
    cbn [doc_ok] in Hok. apply andb_true_iff in Hok as [Hnd Hok].
    apply bool_decide_eq_true in Hnd.
    destruct d as [|kv d]; [reflexivity|].
    change (List.map (λ kv0, encode_basestring_ascii kv0.1 ++ 58 :: dumps kv0.2))
      with (List.map dumps_item).
    assert (∃ s', join 44 (List.map dumps_item (kv :: d)) ++ 125 :: rest = 34 :: s')
      as [s' Hs'].
    { destruct kv as [k' v']. cbn [List.map join]. destruct (List.map dumps_item d).
      - rewrite dumps_item_eq. by eexists.
      - rewrite <- app_assoc, dumps_item_eq. by eexists. }
    rewrite Hs'. rewrite (skip_ws_nonws 34) by done.
    simpl (34 =? 125). simpl (34 =? 34). cbv iota.
    rewrite (JSONObject_dumps (kv :: d) ltac:(done) IH Hok fuel rest s'); [|lia|done].
    by rewrite dict_of_pairs_nodup.
Qed.

(** Length *)

Lemma length_join sep parts :
  (list_sum (List.map (λ p, S (length p)) parts) ≤ S (length (join sep parts)))%nat.
Proof.
  induction parts as [|p ps IH]; [cbn; lia|].
  destruct ps as [|q ps]; [cbn; lia|].
  rewrite join_cons2, length_app. cbn [length].
  change (list_sum (List.map (λ p0, S (length p0)) (p :: q :: ps)))
    with (S (length p) + list_sum (List.map (λ p0, S (length p0)) (q :: ps)))%nat.
  lia.
Qed.

Lemma size_le_length v : (size v ≤ length (dumps v))%nat.
Proof.
  induction v as [|b|n|s|l IH|d IH] using json_ind.
  - cbn. lia.
  - destruct b; cbn; lia.
  - destruct (dumps_head (JInt n)) as (c & t & -> & _). cbn. lia.
  - cbn. lia.
  - cbn [size dumps length]. rewrite length_app. cbn [length].
    pose proof (length_join 44 (List.map dumps l)) as Hj.
    assert (list_sum (List.map (λ x, S (size x)) l)
            ≤ list_sum (List.map (λ p, S (length p)) (List.map dumps l)))%nat; [|lia].
    clear Hj. induction IH as [|x l Hx _ IHl]; [done|].
    cbn [List.map]. unfold list_sum in *. cbn [fold_right]. lia.
  - cbn [size dumps length]. rewrite length_app. cbn [length].
    change (List.map (λ kv0, encode_basestring_ascii kv0.1 ++ 58 :: dumps kv0.2))
      with (List.map dumps_item).
    pose proof (length_join 44 (List.map dumps_item d)) as Hj.
    assert (list_sum (List.map (λ kv, S (size kv.2)) d)
            ≤ list_sum (List.map (λ p, S (length p)) (List.map dumps_item d)))%nat; [|lia].
    clear Hj. induction IH as [|[k v] d Hx _ IHd]; [done|].
    cbn [List.map]. unfold list_sum in *. cbn [fold_right snd] in *.
    unfold dumps_item at 1. rewrite length_app. cbn [length snd]. lia.
Qed.

(** Round trip *)
Theorem loads_dumps v : doc_ok v = true → loads (dumps v) = Some v.
Proof.
  intros Hok. unfold loads.
  pose proof (skip_ws_dumps v []) as Hskip. rewrite app_nil_r in Hskip. rewrite Hskip.
  pose proof (scan_once_dumps v Hok (S (length (dumps v))) []) as H.
  rewrite app_nil_r in H. rewrite H; [done| |done].
  pose proof (size_le_length v). lia.
Qed.

(** What the decoder yields *)


Lemma hexval_lt c d : hexval c = Some d → d < 16.
Proof.
  unfold hexval.
  destruct ((48 <=? c) && (c <=? 57)) eqn:E1.
  { intros [= <-]. apply andb_true_iff in E1 as [H1 H2].
    apply N.leb_le in H1, H2. lia. }
  destruct ((97 <=? c) && (c <=? 102)) eqn:E2.
  { intros [= <-]. apply andb_true_iff in E2 as [H1 H2].
    apply N.leb_le in H1, H2. lia. }
  destruct ((65 <=? c) && (c <=? 70)) eqn:E3; [|done].
  intros [= <-]. apply andb_true_iff in E3 as [H1 H2].
  apply N.leb_le in H1, H2. lia.
Qed.

Lemma decode_uXXXX_lt h1 h2 h3 h4 n : decode_uXXXX h1 h2 h3 h4 = Some n → n < 65536.
Proof.
  unfold decode_uXXXX.
  destruct (hexval h1) as [a|] eqn:E1; [|done].
  destruct (hexval h2) as [b|] eqn:E2; [|done].
  destruct (hexval h3) as [c|] eqn:E3; [|done].
  destruct (hexval h4) as [d|] eqn:E4; [|done].
  apply hexval_lt in E1, E2, E3, E4. intros [= <-]. lia.
Qed.

Lemma join_surrogates_range uni uni2 :
  is_high_surrogate uni = true → is_low_surrogate uni2 = true →
  65536 ≤ join_surrogates uni uni2 ∧ join_surrogates uni uni2 < 1114112.
Proof.
  unfold is_high_surrogate, is_low_surrogate, join_surrogates.
  intros [H1 H2]%andb_true_iff [H3 H4]%andb_true_iff.
  apply N.leb_le in H1, H2, H3, H4.
  rewrite N.shiftl_mul_pow2, lor_disjoint by (change (2 ^ 10) with 1024; lia).
  change (2 ^ 10) with 1024. lia.
Qed.

Lemma backslash_small e ch : backslash e = Some ch → ch < 128.
Proof.
  unfold backslash.
  repeat (match goal with |- context [N.eqb ?a ?b] => destruct (N.eqb a b) end;
          [intros [= <-]; lia|]).
  done.
Qed.

Lemma push_inv c r str rest :
  push c r = Some (str, rest) → ∃ str', r = Some (str', rest) ∧ str = c :: str'.
Proof. destruct r as [[str' rest']|]; [|done]. intros [= <- <-]. by eexists. Qed.


Lemma after_u_inv uni s3 str rest :
  after_u uni s3 = Some (str, rest) →
  (∃ str', str = uni :: str' ∧ scanstring s3 = Some (str', rest)
           ∧ (is_high_surrogate uni = true → ¬ low_escape_head s3))
  ∨ (∃ g1 g2 g3 g4 s5 uni2 str',
        s3 = 92 :: 117 :: g1 :: g2 :: g3 :: g4 :: s5
        ∧ is_high_surrogate uni = true
        ∧ decode_uXXXX g1 g2 g3 g4 = Some uni2 ∧ is_low_surrogate uni2 = true
        ∧ str = join_surrogates uni uni2 :: str'
        ∧ scanstring s5 = Some (str', rest)).
Proof.
  unfold after_u. destruct (is_high_surrogate uni) eqn:Hhigh.
  2: { intros (str' & H & ->)%push_inv. left. by eexists. }
  destruct s3 as [|b [|u s4]].
  1,2: intros (str' & H & ->)%push_inv; left; eexists; split; [done|];
       split; [done|]; intros _ (? & ? & ? & ? & ? & ? & ? & _); done.
  destruct (N.eqb_spec b 92) as [-> | Hb]; cbn [andb].
  2: { intros (str' & H & ->)%push_inv; left; eexists; split; [done|].
       split; [done|]. intros _ (? & ? & ? & ? & ? & ? & [= ? ?] & _). done. }
  destruct (N.eqb_spec u 117) as [-> | Hu].
  2: { intros (str' & H & ->)%push_inv; left; eexists; split; [done|].
       split; [done|]. intros _ (? & ? & ? & ? & ? & ? & [= ? ?] & _). done. }
  destruct s4 as [|g1 [|g2 [|g3 [|g4 s5]]]]; try done.
  destruct (decode_uXXXX g1 g2 g3 g4) as [uni2|] eqn:Hdec; [|done].
  destruct (is_low_surrogate uni2) eqn:Hlow.
  - intros (str' & H & ->)%push_inv. right. by eexists _, _, _, _, _, _, _.
  - intros (str' & H & ->)%push_inv. left. eexists. split; [done|]. split; [done|].
    intros _ (? & ? & ? & ? & ? & u2 & [= <- <- <- <- <-] & Hd & Hl). congruence.
Qed.

Lemma scalar_text_cons c s : scalar_text (c :: s) = true → scalar c = true ∧ scalar_text s = true.
Proof. intros H. by apply andb_true_iff in H. Qed.

Lemma str_ok_push c str :
  c < 1114112 →
  (is_high_surrogate c = true → ∀ c2 str', str = c2 :: str' → is_low_surrogate c2 = false) →
  str_ok str = true → str_ok (c :: str) = true.
Proof.
  intros Hc Hlone Hok. cbn [str_ok]. rewrite Hok, andb_true_r.
  apply andb_true_iff. split; [by apply N.ltb_lt|].
  destruct (is_high_surrogate c); [|done]. destruct str as [|c2 str']; [done|].
  by rewrite (Hlone eq_refl c2 str').
Qed.

(** A decoded string: its code points are in range and no high surrogate
    is followed by a low one; a low surrogate at its head was written as
    an escape. *)
Lemma scanstring_ok n s str rest :
  (length s ≤ n)%nat → scalar_text s = true → scanstring s = Some (str, rest) →
  str_ok str = true ∧ scalar_text rest = true
  ∧ (∀ c str', str = c :: str' → is_low_surrogate c = true → low_escape_head s).
Proof.
  revert s str rest. induction n as [|n IH]; intros s str rest Hlen Hs Hscan.
  { destruct s; [done|]. cbn in Hlen. lia. }
  destruct s as [|c s1]; [done|]. cbn [length] in Hlen.
  apply scalar_text_cons in Hs as [Hc Hs1].
  destruct (N.eq_dec c 34) as [-> | Hq].
  { rewrite scanstring_quote in Hscan. injection Hscan as <- <-. done. }
  destruct (N.eq_dec c 92) as [-> | Hb].
  - destruct s1 as [|e s2]; [done|]. cbn [length] in Hlen.
    apply scalar_text_cons in Hs1 as [He Hs2].
    destruct (N.eq_dec e 117) as [-> | Hu].
    + destruct s2 as [|h1 [|h2 [|h3 [|h4 s3]]]]; try done.
      rewrite scanstring_u in Hscan.
      destruct (decode_uXXXX h1 h2 h3 h4) as [uni|] eqn:Hdec; [|done].
      pose proof (decode_uXXXX_lt _ _ _ _ _ Hdec) as Huni.
      cbn [length] in Hlen.
      apply scalar_text_cons in Hs2 as [_ Hs2]. apply scalar_text_cons in Hs2 as [_ Hs2].
      apply scalar_text_cons in Hs2 as [_ Hs2]. apply scalar_text_cons in Hs2 as [_ Hs3].
      apply after_u_inv in Hscan
        as [(str' & -> & Hscan & Hlone)
           | (g1 & g2 & g3 & g4 & s5 & uni2 & str' & -> & Hhigh & Hdec2 & Hlow & -> & Hscan)].
      * destruct (IH s3 str' rest ltac:(lia) Hs3 Hscan) as (Hok & Hrest & Hhead).
        split; [|split; [done|]].
        -- apply str_ok_push; [lia| |done].
           intros Hhigh c2 str'' ->. destruct (is_low_surrogate c2) eqn:Hlow; [|done].
           exfalso. apply (Hlone Hhigh). by eapply Hhead.
        -- intros c2 str'' [= <- <-] Hlow. by eexists _, _, _, _, _, _.
      * cbn [length] in Hlen.
        apply scalar_text_cons in Hs3 as [_ Hs3]. apply scalar_text_cons in Hs3 as [_ Hs3].
        apply scalar_text_cons in Hs3 as [_ Hs3]. apply scalar_text_cons in Hs3 as [_ Hs3].
        apply scalar_text_cons in Hs3 as [_ Hs3]. apply scalar_text_cons in Hs3 as [_ Hs5].
        destruct (IH s5 str' rest ltac:(lia) Hs5 Hscan) as (Hok & Hrest & Hhead).
        destruct (join_surrogates_range uni uni2 Hhigh Hlow) as [Hj1 Hj2].
        split; [|split; [done|]].
        -- apply str_ok_push; [done| |done].
           unfold is_high_surrogate. intros [_ H]%andb_true_iff. apply N.leb_le in H. lia.
        -- intros c2 str'' [= <- <-]. unfold is_low_surrogate.
           intros [_ H]%andb_true_iff. apply N.leb_le in H. lia.
    + cbn [scanstring] in Hscan. simpl (92 =? 34) in Hscan. simpl (92 =? 92) in Hscan.
      cbv iota in Hscan.
      replace (e =? 117) with false in Hscan by (symmetry; by apply N.eqb_neq).
      destruct (backslash e) as [ch|] eqn:Hback; [|done].
      apply push_inv in Hscan as (str' & Hscan & ->).
      apply backslash_small in Hback.
      destruct (IH s2 str' rest ltac:(lia) Hs2 Hscan) as (Hok & Hrest & Hhead).
      split; [|split; [done|]].
      * apply str_ok_push; [lia| |done].
        unfold is_high_surrogate. intros [H _]%andb_true_iff. apply N.leb_le in H. lia.
      * intros c2 str'' [= <- <-]. unfold is_low_surrogate.
        intros [H _]%andb_true_iff. apply N.leb_le in H. lia.
  - cbn [scanstring] in Hscan.
    replace (c =? 34) with false in Hscan by (symmetry; by apply N.eqb_neq).
    replace (c =? 92) with false in Hscan by (symmetry; by apply N.eqb_neq).
    destruct (c <? 32); [done|].
    apply push_inv in Hscan as (str' & Hscan & ->).
    destruct (IH s1 str' rest ltac:(lia) Hs1 Hscan) as (Hok & Hrest & Hhead).
    unfold scalar, is_surrogate in Hc. apply andb_true_iff in Hc as [Hc1 Hc2].
    apply N.ltb_lt in Hc1. apply negb_true_iff in Hc2.
    split; [|split; [done|]].
    * apply str_ok_push; [done| |done].
      unfold is_high_surrogate. intros [H1 H2]%andb_true_iff.
      apply N.leb_le in H1, H2. exfalso. revert Hc2. btest; done.
    * intros c2 str'' [= <- <-]. unfold is_low_surrogate.
      intros [H1 H2]%andb_true_iff. apply N.leb_le in H1, H2.
      exfalso. revert Hc2. btest; done.
Qed.

Lemma skip_ws_scalar s : scalar_text s = true → scalar_text (skip_ws s) = true.
Proof.
  induction s as [|c s IH]; [done|]. intros H. cbn [skip_ws].
  destruct (is_ws c); [|done]. apply IH. by apply scalar_text_cons in H as [_ ?].
Qed.

Lemma strip_prefix_scalar p s rest :
  strip_prefix p s = Some rest → scalar_text s = true → scalar_text rest = true.
Proof.
  revert s. induction p as [|a p IH]; intros s; cbn [strip_prefix].
  { by intros [= ->]. }
  destruct s as [|c s]; [done|]. destruct (a =? c); [|done].
  intros H Hs. apply (IH s H). by apply scalar_text_cons in Hs as [_ ?].
Qed.

Lemma take_digits_scalar s : scalar_text s = true → scalar_text (take_digits s).2 = true.
Proof.
  induction s as [|c s IH]; [done|]. intros H. cbn [take_digits].
  destruct (is_digit c); [|done].
  destruct (take_digits s) as [d rest]. cbn [snd] in *.
  apply IH. by apply scalar_text_cons in H as [_ ?].
Qed.

Lemma scan_number_ok s v rest :
  scalar_text s = true → scan_number s = Some (v, rest) →
  doc_ok v = true ∧ scalar_text rest = true.
Proof.
  intros Hs. unfold scan_number.
  assert (∀ body, scalar_text body = true →
                  ∀ d r, match_integer body = Some (d, r) → scalar_text r = true) as Hint.
  { intros body Hb d r. unfold match_integer. destruct body as [|c body']; [done|].
    destruct (c =? 48).
    - intros [= _ <-]. by apply scalar_text_cons in Hb as [_ ?].
    - destruct (is_digit c); [|done].
      pose proof (take_digits_scalar _ Hb) as Ht.
      destruct (take_digits (c :: body')) as [d' r']. by intros [= <- <-]. }
  destruct s as [|c s'].
  - cbn. done.
  - destruct (c =? 45).
    + destruct (match_integer s') as [[d r]|] eqn:Hm; [|done].
      destruct (has_frac_or_exp r); [done|]. intros [= <- <-]. split; [done|].
      eapply Hint; [|exact Hm]. by apply scalar_text_cons in Hs as [_ ?].
    + destruct (match_integer (c :: s')) as [[d r]|] eqn:Hm; [|done].
      destruct (has_frac_or_exp r); [done|]. intros [= <- <-]. split; [done|].
      eapply Hint; [|exact Hm]. done.
Qed.

Lemma scan_literal_ok s v rest :
  scalar_text s = true → scan_literal s = Some (v, rest) →
  doc_ok v = true ∧ scalar_text rest = true.
Proof.
  intros Hs. unfold scan_literal.
  destruct (strip_prefix (py "null") s) as [r|] eqn:E1.
  { intros [= <- <-]. split; [done|]. by eapply strip_prefix_scalar. }
  destruct (strip_prefix (py "true") s) as [r|] eqn:E2.
  { intros [= <- <-]. split; [done|]. by eapply strip_prefix_scalar. }
  destruct (strip_prefix (py "false") s) as [r|] eqn:E3.
  { intros [= <- <-]. split; [done|]. by eapply strip_prefix_scalar. }
  by apply scan_number_ok.
Qed.


Lemma dict_set_keys k v (d : dict) :
  (dict_set k v d).*1 = if bool_decide (k ∈ d.*1) then d.*1 else d.*1 ++ [k].
Proof.
  induction d as [|[k' v'] d IH]; [done|]. cbn [dict_set].
  destruct (decide (k' = k)) as [-> | Hne].
  - cbn. rewrite bool_decide_eq_true_2; [done|]. left.
  - cbn [fmap list_fmap fst]. cbn in IH. rewrite IH.
    destruct (bool_decide (k ∈ d.*1)) eqn:E.
    + apply bool_decide_eq_true in E. rewrite bool_decide_eq_true_2; [done|]. by right.
    + apply bool_decide_eq_false in E. rewrite bool_decide_eq_false_2; [done|].
      intros [?|?]%elem_of_cons; done.
Qed.

Lemma dict_set_nodup k v (d : dict) : NoDup d.*1 → NoDup (dict_set k v d).*1.
Proof.
  intros H. rewrite dict_set_keys. destruct (bool_decide (k ∈ d.*1)) eqn:E; [done|].
  apply bool_decide_eq_false in E. apply NoDup_app. split; [done|]. split.
  - intros x Hx [->|[]%elem_of_nil]%elem_of_cons. done.
  - apply NoDup_singleton.
Qed.

Lemma dict_set_forallb (P : pystr * json → bool) k v (d : dict) :
  P (k, v) = true → forallb P d = true → forallb P (dict_set k v d) = true.
Proof.
  intros Hkv. induction d as [|[k' v'] d IH]; cbn [dict_set forallb].
  - by rewrite Hkv.
  - intros [H1 H2]%andb_true_iff. destruct (decide (k' = k)) as [-> | Hne].
    + cbn [forallb]. by rewrite Hkv, H2.
    + cbn [forallb]. by rewrite H1, IH.
Qed.

Lemma dict_of_pairs_ok pairs :
  forallb entry_ok pairs = true → doc_ok (JDict (dict_of_pairs pairs)) = true.
Proof.
  intros H. unfold dict_of_pairs.
  assert (∀ acc : dict, NoDup acc.*1 → forallb entry_ok acc = true →
          let d := fold_left (λ d kv, dict_set kv.1 kv.2 d) pairs acc in
          NoDup d.*1 ∧ forallb entry_ok d = true) as Hgen.
  { induction pairs as [|[k v] pairs IH]; intros acc Hnd Hacc; [done|].
    cbn [forallb] in H. apply andb_true_iff in H as [Hkv H].
    cbn [fold_left fst snd]. apply (IH H).
    - by apply dict_set_nodup.
    - by apply dict_set_forallb. }
  destruct (Hgen [] (NoDup_nil_2) eq_refl) as [Hnd Hall].
  cbn [doc_ok]. apply andb_true_iff. split; [by apply bool_decide_eq_true|done].
Qed.

Lemma scan_ok fuel :
  (∀ s v rest, scalar_text s = true → scan_once fuel s = Some (v, rest) →
               doc_ok v = true ∧ scalar_text rest = true)
  ∧ (∀ s pairs rest, scalar_text s = true → JSONObject fuel s = Some (pairs, rest) →
                     forallb entry_ok pairs = true ∧ scalar_text rest = true)
  ∧ (∀ s values rest, scalar_text s = true → JSONArray fuel s = Some (values, rest) →
                      forallb doc_ok values = true ∧ scalar_text rest = true).
Proof.
  induction fuel as [|fuel (IHv & IHo & IHa)]; [done|].
  split; [|split].
  - intros s v rest Hs. destruct s as [|c s1]; [done|].
    pose proof Hs as Hs0. apply scalar_text_cons in Hs as [_ Hs1].
    destruct (N.eq_dec c 34) as [-> | H34].
    { rewrite scan_once_str. destruct (scanstring s1) as [[str r]|] eqn:E; [|done].
      intros [= <- <-].
      by destruct (scanstring_ok _ _ _ _ (le_n _) Hs1 E) as (? & ? & _). }
    destruct (N.eq_dec c 123) as [-> | H123].
    { rewrite scan_once_dict. pose proof (skip_ws_scalar _ Hs1) as Hw.
      destruct (skip_ws s1) as [|c2 s2]; [done|].
      apply scalar_text_cons in Hw as [_ Hs2].
      destruct (c2 =? 125); [by intros [= <- <-]|].
      destruct (c2 =? 34); [|done].
      destruct (JSONObject fuel s2) as [[pairs r]|] eqn:E; [|done].
      intros [= <- <-]. destruct (IHo _ _ _ Hs2 E) as [Hp Hr].
      split; [|done]. by apply dict_of_pairs_ok. }
    destruct (N.eq_dec c 91) as [-> | H91].
    { rewrite scan_once_list. pose proof (skip_ws_scalar _ Hs1) as Hw.
      destruct (skip_ws s1) as [|c2 s2]; [done|].
      destruct (c2 =? 93).
      { intros [= <- <-]. by apply scalar_text_cons in Hw as [_ ?]. }
      destruct (JSONArray fuel (c2 :: s2)) as [[values r]|] eqn:E; [|done].
      intros [= <- <-]. by destruct (IHa _ _ _ Hw E) as [Hp Hr]. }
    rewrite scan_once_other by done. by apply scan_literal_ok.
  - intros s pairs rest Hs. rewrite JSONObject_eq.
    destruct (scanstring s) as [[key s1]|] eqn:Ekey; [|done].
    destruct (scanstring_ok _ _ _ _ (le_n _) Hs Ekey) as (Hkey & Hs1 & _).
    pose proof (skip_ws_scalar _ Hs1) as Hw.
    destruct (skip_ws s1) as [|c s2]; [done|].
    apply scalar_text_cons in Hw as [_ Hs2].
    destruct (c =? 58); [|done].
    pose proof (skip_ws_scalar _ Hs2) as Hw2.
    destruct (scan_once fuel (skip_ws s2)) as [[value s3]|] eqn:Eval; [|done].
    destruct (IHv _ _ _ Hw2 Eval) as [Hval Hs3].
    pose proof (skip_ws_scalar _ Hs3) as Hw3.
    destruct (skip_ws s3) as [|c3 s4]; [done|].
    apply scalar_text_cons in Hw3 as [_ Hs4].
    destruct (c3 =? 125).
    { intros [= <- <-]. split; [|done]. cbn [forallb]. unfold entry_ok at 1.
      cbn [fst snd]. by rewrite Hkey, Hval. }
    destruct (c3 =? 44); [|done].
    pose proof (skip_ws_scalar _ Hs4) as Hw4.
    destruct (skip_ws s4) as [|c5 s5]; [done|].
    apply scalar_text_cons in Hw4 as [_ Hs5].
    destruct (c5 =? 34); [|done].
    destruct (JSONObject fuel s5) as [[pairs' r]|] eqn:E; [|done].
    intros [= <- <-]. destruct (IHo _ _ _ Hs5 E) as [Hp Hr].
    split; [|done]. cbn [forallb]. unfold entry_ok at 1. cbn [fst snd].
    by rewrite Hkey, Hval, Hp.
  - intros s values rest Hs. rewrite JSONArray_eq.
    destruct (scan_once fuel s) as [[value s1]|] eqn:Eval; [|done].
    destruct (IHv _ _ _ Hs Eval) as [Hval Hs1].
    pose proof (skip_ws_scalar _ Hs1) as Hw.
    destruct (skip_ws s1) as [|c s2]; [done|].
    apply scalar_text_cons in Hw as [_ Hs2].
    destruct (c =? 93).
    { intros [= <- <-]. split; [|done]. cbn [forallb]. by rewrite Hval. }
    destruct (c =? 44); [|done].
    pose proof (skip_ws_scalar _ Hs2) as Hw2.
    destruct (JSONArray fuel (skip_ws s2)) as [[values' r]|] eqn:E; [|done].
    intros [= <- <-]. destruct (IHa _ _ _ Hw2 E) as [Hp Hr].
    split; [|done]. cbn [forallb]. by rewrite Hval, Hp.
Qed.

Theorem loads_ok s v : scalar_text s = true → loads s = Some v → doc_ok v = true.
Proof.
  intros Hs. unfold loads.
  destruct (scan_once (S (length s)) (skip_ws s)) as [[v' rest]|] eqn:E; [|done].
  destruct (skip_ws rest); [|done]. intros [= <-].
  destruct (scan_ok (S (length s))) as (H & _ & _).
  by destruct (H _ _ _ (skip_ws_scalar _ Hs) E).
Qed.

End codec_facts.

(** ** Dictionaries, well-formedness and the two operations *)

Module dict_facts.

Lemma dict_get_set_eq k v (d : dict) : dict_get k (dict_set k v d) = Some v.
Proof.
  induction d as [|[k' v'] d IH]; cbn [dict_set dict_get].
  - by rewrite decide_True.
  - destruct (decide (k' = k)) as [-> | Hne]; cbn [dict_get].
    + by rewrite decide_True.
    + by rewrite decide_False.
Qed.

Lemma dict_get_set_ne k k' v (d : dict) :
  k ≠ k' → dict_get k' (dict_set k v d) = dict_get k' d.
Proof.
  intros Hne. induction d as [|[k0 v0] d IH]; cbn [dict_set dict_get].
  - by rewrite decide_False.
  - destruct (decide (k0 = k)) as [-> | Hne0]; cbn [dict_get].
    + by rewrite !decide_False.
    + destruct (decide (k0 = k')); done.
Qed.

Lemma dict_set_set k v v' (d : dict) : dict_set k v (dict_set k v' d) = dict_set k v d.
Proof.
  induction d as [|[k0 v0] d IH]; cbn [dict_set].
  - by rewrite decide_True.
  - destruct (decide (k0 = k)) as [-> | Hne0]; cbn [dict_set].
    + by rewrite decide_True.
    + rewrite decide_False by done. by rewrite IH.
Qed.

Lemma dict_get_None k (d : dict) : dict_get k d = None ↔ k ∉ d.*1.
Proof.
  induction d as [|[k0 v0] d IH]; cbn [dict_get].
  - split; [intros _; apply not_elem_of_nil|done].
  - cbn. rewrite not_elem_of_cons. destruct (decide (k0 = k)) as [-> | Hne].
    + split; [done|]. intros [? _]. done.
    + rewrite IH. split; [by intros ?; split|by intros [_ ?]].
Qed.

Lemma dict_get_Some_elem k v (d : dict) : dict_get k d = Some v → (k, v) ∈ d.
Proof.
  induction d as [|[k0 v0] d IH]; cbn [dict_get]; [done|].
  destruct (decide (k0 = k)) as [-> | Hne].
  - intros [= ->]. left.
  - intros H. right. by apply IH.
Qed.

Lemma dict_set_id k v (d : dict) : dict_get k d = Some v → dict_set k v d = d.
Proof.
  induction d as [|[k0 v0] d IH]; cbn [dict_get dict_set]; [done|].
  destruct (decide (k0 = k)) as [-> | Hne].
  - by intros [= ->].
  - intros H. by rewrite IH.
Qed.

Lemma dict_del_keys k (d : dict) :
  NoDup d.*1 → (dict_del k d).*1 = List.filter (λ k', negb (bool_decide (k' = k))) d.*1.
Proof.
  induction d as [|[k0 v0] d IH]; [done|]. cbn. intros [Hk0 Hnd]%NoDup_cons.
  destruct (decide (k0 = k)) as [-> | Hne].
  - rewrite bool_decide_eq_true_2 by done. cbn.
    clear IH. induction d as [|[k1 v1] d IH]; [done|]. cbn in *.
    apply not_elem_of_cons in Hk0 as [Hne Hk0]. apply NoDup_cons in Hnd as [_ Hnd].
    rewrite bool_decide_eq_false_2 by done. cbn. by rewrite <- IH.
  - rewrite bool_decide_eq_false_2 by done. cbn. by rewrite IH.
Qed.


Lemma dict_get_del_eq k (d : dict) : NoDup d.*1 → dict_get k (dict_del k d) = None.
Proof.
  induction d as [|[k0 v0] d IH]; [done|]. cbn. intros [Hk0 Hnd]%NoDup_cons.
  destruct (decide (k0 = k)) as [-> | Hne].
  - by apply dict_get_None.
  - cbn [dict_get]. rewrite decide_False by done. by apply IH.
Qed.

Lemma dict_del_absent k (d : dict) : dict_get k d = None → dict_del k d = d.
Proof.
  induction d as [|[k0 v0] d IH]; [done|]. cbn [dict_get dict_del].
  destruct (decide (k0 = k)); [done|]. intros H. by rewrite IH.
Qed.

End dict_facts.

Ltac by_compute :=
  match goal with
  | |- ?G =>
      let H := fresh in
      assert (H : bool_decide G = true) by (vm_compute; reflexivity);
      exact (proj1 (bool_decide_eq_true G) H)
  end.

Module wf_facts.
Import codec codec_aux codec_facts dict_facts.

Lemma doc_ok_dict (d : dict) :
  doc_ok (JDict d) = true ↔ NoDup d.*1 ∧ forallb entry_ok d = true.
Proof.
  cbn [doc_ok]. rewrite andb_true_iff, bool_decide_eq_true. done.
Qed.

Lemma doc_ok_dict_set k v (d : dict) :
  doc_ok (JDict d) = true → str_ok k = true → doc_ok v = true →
  doc_ok (JDict (dict_set k v d)) = true.
Proof.
  rewrite !doc_ok_dict. intros [Hnd Hall] Hk Hv. split.
  - by apply dict_set_nodup.
  - apply dict_set_forallb; [|done]. unfold entry_ok. cbn. by rewrite Hk, Hv.
Qed.

Lemma doc_ok_dict_get k v (d : dict) :
  doc_ok (JDict d) = true → dict_get k d = Some v → doc_ok v = true.
Proof.
  rewrite doc_ok_dict. intros [_ Hall] Hget.
  apply dict_get_Some_elem in Hget. rewrite forallb_forall in Hall.
  apply list_elem_of_In in Hget. apply Hall in Hget.
  by apply andb_true_iff in Hget as [_ ?].
Qed.

Lemma doc_ok_filter (P : pystr * json → bool) (d : dict) :
  doc_ok (JDict d) = true → doc_ok (JDict (List.filter P d)) = true.
Proof.
  rewrite !doc_ok_dict. intros [Hnd Hall]. split.
  - clear Hall. induction d as [|[k v] d IH]; [done|]. cbn in *.
    apply NoDup_cons in Hnd as [Hk Hnd]. destruct (P (k, v)); [|by apply IH].
    cbn. apply NoDup_cons. split; [|by apply IH].
    intros Hin. apply Hk. apply list_elem_of_fmap in Hin as ([k' v'] & -> & Hin).
    apply list_elem_of_In, filter_In in Hin as [Hin _].
    apply list_elem_of_fmap. exists (k', v'). split; [done|]. by apply list_elem_of_In.
  - rewrite forallb_forall in *. intros x [Hx _]%filter_In. by apply Hall.
Qed.

Lemma dict_del_filter k (d : dict) :
  NoDup d.*1 → dict_del k d = List.filter (λ kv, negb (bool_decide (kv.1 = k))) d.
Proof.
  induction d as [|[k0 v0] d IH]; [done|]. cbn. intros [Hk0 Hnd]%NoDup_cons.
  destruct (decide (k0 = k)) as [-> | Hne].
  - rewrite bool_decide_eq_true_2 by done. cbn.
    clear IH Hnd. induction d as [|[k1 v1] d IH]; [done|]. cbn in *.
    apply not_elem_of_cons in Hk0 as [Hne Hk0].
    rewrite bool_decide_eq_false_2 by done. cbn. by rewrite <- IH.
  - rewrite bool_decide_eq_false_2 by done. cbn. by rewrite IH.
Qed.

Lemma doc_ok_dict_del k (d : dict) :
  doc_ok (JDict d) = true → doc_ok (JDict (dict_del k d)) = true.
Proof.
  intros H. rewrite dict_del_filter; [by apply doc_ok_filter|].
  by apply doc_ok_dict in H as [? _].
Qed.

Lemma str_ok_activityConfigMap : str_ok activityConfigMap = true.
Proof. reflexivity. Qed.

Lemma doc_ok_create key act :
  str_ok key = true → str_ok act = true →
  doc_ok (create_activity_config key act) = true.
Proof.
  intros Hk Ha. unfold create_activity_config.
  apply doc_ok_dict. split.
  { cbn [fmap list_fmap fst]. by_compute. }
  unfold entry_ok. cbn [forallb fst snd doc_ok]. rewrite Ha.
  unfold HandwritingOptimizer_build.noteConfig. cbn [doc_ok forallb fst snd]. rewrite Hk.
  reflexivity.
Qed.

Lemma doc_ok_activity_map (d : dict) :
  doc_ok (JDict d) = true → doc_ok (JDict (activity_map_of d)) = true.
Proof.
  intros H. unfold activity_map_of.
  destruct (dict_get activityConfigMap d) as [[| | | | |m]|] eqn:E; try done.
  by eapply doc_ok_dict_get.
Qed.

Lemma doc_ok_enabled_config key act (d : dict) :
  doc_ok (JDict d) = true → str_ok key = true → str_ok act = true →
  doc_ok (JDict (enabled_config key act d)) = true.
Proof.
  intros Hd Hk Ha. unfold enabled_config.
  apply doc_ok_dict_set; [done|apply str_ok_activityConfigMap|].
  apply doc_ok_dict_set; [by apply doc_ok_activity_map|done|by apply doc_ok_create].
Qed.

Lemma recorded_doc_ok s app d : recorded s app d → doc_ok (JDict d) = true.
Proof. intros (raw & _ & Hraw & Hloads). by eapply loads_ok. Qed.

Lemma located_doc_ok s app d : located s app d → doc_ok (JDict d) = true.
Proof. intros [Hrec _]. by eapply recorded_doc_ok. Qed.

End wf_facts.

Module optimizer_facts.
Import codec codec_aux codec_facts dict_facts wf_facts.

Lemma get_app_config_run app s :
  get_app_config app s
  = (Return (stored s app), record_call (GetString (app_key app)) s).
Proof. reflexivity. Qed.

Lemma stored_recorded s app d : recorded s app d → stored s app = Some (JDict d).
Proof. intros (raw & Hraw & _ & Hloads). unfold stored. by rewrite Hraw. Qed.

Lemma stored_located s app d : located s app d → stored s app = Some (JDict d) ∧ d ≠ [].
Proof. intros [Hrec Hne]. split; [by apply stored_recorded|done]. Qed.

Lemma stored_absent s app : db s !! app_key app = None → stored s app = None.
Proof. intros H. unfold stored. by rewrite H. Qed.

Lemma stored_written s app v : doc_ok v = true → stored (written app v s) app = Some v.
Proof.
  intros Hv. unfold stored, written. cbn [db]. rewrite lookup_insert_eq. cbn [default].
  by apply loads_dumps.
Qed.

Lemma truthy_dict (d : dict) : d ≠ [] → truthy (JDict d) = true.
Proof. by destruct d. Qed.

Lemma enable_not_found app key act s :
  falsy (stored s app) = true →
  enable_handwriting app key act s = (Return false, only_read app [AppNotFound app] s).
Proof.
  intros H. unfold enable_handwriting, bind. rewrite get_app_config_run, H. reflexivity.
Qed.

Lemma dict_in_spec k (d : dict) : dict_in k d = bool_decide (is_Some (dict_get k d)).
Proof. reflexivity. Qed.

Lemma enable_run app key act s d :
  stored s app = Some (JDict d) → d ≠ [] → map_shape_ok d = true →
  enable_handwriting app key act s
  = (Return true, written app (JDict (enabled_config key act d)) s).
Proof.
  intros Hst Hne Hshape. unfold enable_handwriting, bind.
  rewrite get_app_config_run, Hst. cbn [falsy]. rewrite truthy_dict by done. cbn [negb].
  unfold enabled_config, activity_map_of, map_shape_ok in *. unfold dict_in.
  destruct (dict_get activityConfigMap d) as [[| | | | |m]|] eqn:E; try done.
  - rewrite bool_decide_eq_true_2 by eauto. cbn [negb]. rewrite E. reflexivity.
  - rewrite bool_decide_eq_false_2 by (intros [? ?]; done). cbn [negb].
    rewrite dict_get_set_eq, dict_set_set. reflexivity.
Qed.

Lemma print_all_run ms s : print_all ms s = (Return tt, print_state ms s).
Proof.
  revert s. induction ms as [|m ms IH]; intros s.
  - destruct s. unfold print_state. cbn. by rewrite app_nil_r.
  - cbn [print_all]. unfold bind. cbn [print]. rewrite IH. unfold print_state. cbn.
    by rewrite <- app_assoc.
Qed.

Lemma disable_not_found app activity s :
  falsy (stored s app) = true →
  disable_handwriting app activity s
  = (Return false, only_read app [AppNotFound app] s).
Proof.
  intros H. unfold disable_handwriting, bind. rewrite get_app_config_run, H. reflexivity.
Qed.

Lemma disable_nothing app activity s d :
  stored s app = Some (JDict d) → d ≠ [] →
  truthy (get_or_empty activityConfigMap d) = false →
  disable_handwriting app activity s
  = (Return true, only_read app [NoOptimizations app] s).
Proof.
  intros Hst Hne Hmap. unfold disable_handwriting, bind.
  rewrite get_app_config_run, Hst. cbn [falsy]. rewrite truthy_dict by done. cbn [negb].
  rewrite Hmap. reflexivity.
Qed.

Lemma get_or_empty_map (d m : dict) :
  dict_get activityConfigMap d = Some (JDict m) →
  get_or_empty activityConfigMap d = JDict m.
Proof. intros H. unfold get_or_empty. by rewrite H. Qed.

Lemma disable_named_present app c a s d m :
  stored s app = Some (JDict d) → d ≠ [] →
  dict_get activityConfigMap d = Some (JDict m) → m ≠ [] →
  is_Some (dict_get (c :: a) m) →
  disable_handwriting app (Some (c :: a)) s
  = (Return true,
     written app (JDict (dict_set activityConfigMap (JDict (dict_del (c :: a) m)) d))
       (print_state [RemovedActivity (c :: a)] s)).
Proof.
  intros Hst Hne Hmap Hm Hin. unfold disable_handwriting, bind.
  rewrite get_app_config_run, Hst. cbn [falsy]. rewrite truthy_dict by done. cbn [negb].
  rewrite (get_or_empty_map _ _ Hmap), truthy_dict by done. cbn [negb contains].
  unfold dict_in. rewrite bool_decide_eq_true_2 by done. reflexivity.
Qed.

Lemma disable_named_absent app c a s d m :
  stored s app = Some (JDict d) → d ≠ [] →
  dict_get activityConfigMap d = Some (JDict m) → m ≠ [] →
  dict_get (c :: a) m = None →
  disable_handwriting app (Some (c :: a)) s
  = (Return false, only_read app [ActivityNotFound (c :: a)] s).
Proof.
  intros Hst Hne Hmap Hm Hin. unfold disable_handwriting, bind.
  rewrite get_app_config_run, Hst. cbn [falsy]. rewrite truthy_dict by done. cbn [negb].
  rewrite (get_or_empty_map _ _ Hmap), truthy_dict by done. cbn [negb contains].
  unfold dict_in. rewrite bool_decide_eq_false_2; [reflexivity|].
  rewrite Hin. by intros [? ?].
Qed.

Lemma disable_all app activity s d m to_remove :
  unnamed activity →
  stored s app = Some (JDict d) → d ≠ [] →
  dict_get activityConfigMap d = Some (JDict m) → m ≠ [] →
  collect_to_remove m = Return to_remove →
  disable_handwriting app activity s
  = (Return true,
     written app (JDict (dict_set activityConfigMap (JDict (remove_all to_remove m)) d))
       (print_state (List.map RemovedActivity to_remove) s)).
Proof.
  intros Hact Hst Hne Hmap Hm Hrm. unfold disable_handwriting, bind.
  rewrite get_app_config_run, Hst. cbn [falsy]. rewrite truthy_dict by done. cbn [negb].
  rewrite (get_or_empty_map _ _ Hmap), truthy_dict by done. cbn [negb].
  destruct Hact as [-> | ->]; rewrite Hrm; unfold bind; rewrite print_all_run; reflexivity.
Qed.

Lemma collect_to_remove_keys m to_remove :
  collect_to_remove m = Return to_remove →
  to_remove = (List.filter (λ kv, selected kv.2) m).*1.
Proof.
  revert to_remove. induction m as [|[k v] m IH]; intros rm; cbn [collect_to_remove].
  - by intros [= <-].
  - unfold selected at 1. cbn [List.filter snd].
    destruct (has_handwriting v) as [b|]; [|done].
    destruct (collect_to_remove m) as [rm'|]; [|done].
    intros [= <-]. rewrite (IH rm' eq_refl). by destruct b.
Qed.

Lemma remove_all_skip rm k v (m : dict) :
  k ∉ rm → remove_all rm ((k, v) :: m) = (k, v) :: remove_all rm m.
Proof.
  revert m. induction rm as [|k' rm IH]; intros m Hk; [done|].
  apply not_elem_of_cons in Hk as [Hne Hk].
  unfold remove_all in *. cbn [fold_left dict_del].
  rewrite decide_False by done. by apply IH.
Qed.

Lemma remove_all_selected (m : dict) :
  NoDup m.*1 →
  remove_all (List.filter (λ kv, selected kv.2) m).*1 m
  = List.filter (λ kv, negb (selected kv.2)) m.
Proof.
  induction m as [|[k v] m IH]; [done|]. cbn [fmap list_fmap fst].
  intros [Hk Hnd]%NoDup_cons. cbn [List.filter snd]. destruct (selected v); cbn [negb].
  - cbn [fmap list_fmap fst]. unfold remove_all. cbn [fold_left dict_del].
    rewrite decide_True by done. by apply IH.
  - rewrite remove_all_skip; [by rewrite IH|].
    intros Hin. apply Hk. apply list_elem_of_fmap in Hin as ([k' v'] & -> & Hin).
    apply list_elem_of_In, filter_In in Hin as [Hin _].
    apply list_elem_of_fmap. exists (k', v'). split; [done|]. by apply list_elem_of_In.
Qed.

Lemma has_handwriting_typed entry :
  entry_typed entry = true → has_handwriting entry = Return (active_test entry).
Proof.
  destruct entry as [| | | | |e]; try done. unfold entry_typed, has_handwriting, active_test.
  unfold note_field, get_or_empty.
  destruct (dict_get (py "noteConfig") e) as [[| | | | |n]|]; try done.
  unfold note_typed, get_truthy. cbn [default from_option id].
  destruct (dict_get (py "enable") n) as [[|b| | | |]|]; try done;
    destruct (dict_get (py "drawViewKey") n) as [[| | |k| |]|]; try done; intros _;
    cbn [default from_option id truthy andb]; try done; try (by destruct b);
    by destruct b, k.
Qed.

Lemma collect_to_remove_typed (m : dict) :
  forallb (λ kv, entry_typed kv.2) m = true →
  collect_to_remove m = Return (List.filter (λ kv, active_test kv.2) m).*1
  ∧ List.filter (λ kv, selected kv.2) m = List.filter (λ kv, active_test kv.2) m.
Proof.
  induction m as [|[k v] m IH]; [done|]. cbn [forallb snd].
  intros [Hv Hm]%andb_true_iff. destruct (IH Hm) as [IH1 IH2].
  cbn [collect_to_remove List.filter snd]. unfold selected at 1.
  rewrite (has_handwriting_typed v Hv), IH1, IH2. by destruct (active_test v).
Qed.

End optimizer_facts.

(** ** The builder *)

Module builder_spec.

(** C9.  The builder is a function of its two arguments and of nothing
    else: whatever the key and the activity, the document has exactly the
    fields of the data model, [clsName] is the activity, the
    [drawViewKey] of [noteConfig] is the key, and the four nested
    documents are the literal defaults the specification lists, among
    them contrast 30, repaintLatency 500 and updateMode 2. *)
Theorem create_activity_config_literal draw_view_key activity_name :
  let doc := create_activity_config draw_view_key activity_name in
  get_path [py "clsName"] doc = Some (JStr activity_name)
  ∧ get_path [py "noteConfig"; py "drawViewKey"] doc = Some (JStr draw_view_key)
  ∧ get_path [py "displayConfig"] doc = Some spec_defaults.displayConfig
  ∧ get_path [py "noteConfig"] doc = Some (spec_defaults.noteConfig draw_view_key)
  ∧ get_path [py "paintConfig"] doc = Some spec_defaults.paintConfig
  ∧ get_path [py "refreshConfig"] doc = Some spec_defaults.refreshConfig
  ∧ get_path [py "enable"] doc = Some (JBool true)
  ∧ get_path [py "disableScrollAnim"] doc = Some (JBool false)
  ∧ get_path [py "displayConfig"; py "contrast"] doc = Some (JInt 30)
  ∧ get_path [py "noteConfig"; py "repaintLatency"] doc = Some (JInt 500)
  ∧ get_path [py "refreshConfig"; py "updateMode"] doc = Some (JInt 2)
  ∧ match doc with
    | JDict d => d.*1 ≡ₚ spec_defaults.shape
    | _ => False
    end.
Proof.
  cbv zeta. repeat split; try reflexivity.
  cbn [create_activity_config fmap list_fmap fst]. unfold spec_defaults.shape.
  apply Permutation_skip.
  etransitivity; [|apply Permutation_swap]. apply Permutation_skip.
  etransitivity; [|apply Permutation_swap]. apply Permutation_skip.
  reflexivity.
Qed.

End builder_spec.

(** ** The optimization manager *)

Module manager_spec.
Import codec codec_aux codec_facts dict_facts wf_facts optimizer_facts.

(** C4.  Enabling an application whose key the store does not hold
    answers [False] after reporting that the application was not found;
    the store and the backup are what they were and the only call made
    on the store is the read: no write is attempted. *)
Theorem enable_absent_not_found package_name draw_view_key activity_name s :
  db s !! app_key package_name = None →
  ∃ s', enable_handwriting package_name draw_view_key activity_name s = (Return false, s')
        ∧ stdout s' = stdout s ++ [AppNotFound package_name]
        ∧ db s' = db s
        ∧ backup s' = backup s
        ∧ calls s' = calls s ++ [GetString (app_key package_name)].
Proof.
  intros Habsent. eexists. split.
  - apply enable_not_found. by rewrite stored_absent.
  - done.
Qed.

Lemma enable_absent_not_found_witness :
  ∃ s', enable_handwriting (py "x.y") (py "some.View") (py "x.y.MainActivity")
          (fresh_state ∅) = (Return false, s')
        ∧ stdout s' = stdout (fresh_state ∅) ++ [AppNotFound (py "x.y")]
        ∧ db s' = db (fresh_state ∅)
        ∧ backup s' = backup (fresh_state ∅)
        ∧ calls s' = calls (fresh_state ∅) ++ [GetString (app_key (py "x.y"))].
Proof.
  apply (enable_absent_not_found (py "x.y") (py "some.View") (py "x.y.MainActivity")
           (fresh_state ∅)).
  vm_compute. reflexivity.
Defined.

(** C10.  When the stored value of an application decodes to the empty
    document, enable and disable both report the application as not
    found and answer [False] after the read alone, and they do the same
    on the state from which the record has been removed: the check is on
    the truth value of the decoded record. *)
Theorem empty_document_not_found package_name draw_view_key activity_name activity s raw :
  db s !! app_key package_name = Some raw →
  loads raw = Some (JDict []) →
  enable_handwriting package_name draw_view_key activity_name s
  = (Return false, only_read package_name [AppNotFound package_name] s)
  ∧ disable_handwriting package_name activity s
    = (Return false, only_read package_name [AppNotFound package_name] s)
  ∧ enable_handwriting package_name draw_view_key activity_name (forget package_name s)
    = (Return false,
       only_read package_name [AppNotFound package_name] (forget package_name s))
  ∧ disable_handwriting package_name activity (forget package_name s)
    = (Return false,
       only_read package_name [AppNotFound package_name] (forget package_name s)).
Proof.
  intros Hraw Hloads.
  assert (stored s package_name = Some (JDict [])) as Hst.
  { unfold stored. by rewrite Hraw. }
  assert (stored (forget package_name s) package_name = None) as Hforget.
  { apply stored_absent. cbn [forget db]. apply lookup_delete_eq. }
  repeat split.
  - apply enable_not_found. by rewrite Hst.
  - apply disable_not_found. by rewrite Hst.
  - apply enable_not_found. by rewrite Hforget.
  - apply disable_not_found. by rewrite Hforget.
Qed.


Lemma empty_document_not_found_witness :
  enable_handwriting (py "x.y") (py "some.View") (py "x.y.MainActivity") empty_record_state
  = (Return false, only_read (py "x.y") [AppNotFound (py "x.y")] empty_record_state)
  ∧ disable_handwriting (py "x.y") None empty_record_state
    = (Return false, only_read (py "x.y") [AppNotFound (py "x.y")] empty_record_state)
  ∧ enable_handwriting (py "x.y") (py "some.View") (py "x.y.MainActivity")
      (forget (py "x.y") empty_record_state)
    = (Return false,
       only_read (py "x.y") [AppNotFound (py "x.y")] (forget (py "x.y") empty_record_state))
  ∧ disable_handwriting (py "x.y") None (forget (py "x.y") empty_record_state)
    = (Return false,
       only_read (py "x.y") [AppNotFound (py "x.y")] (forget (py "x.y") empty_record_state)).
Proof.
  apply (empty_document_not_found (py "x.y") (py "some.View") (py "x.y.MainActivity")
           None empty_record_state (dq "{ }")).
  - vm_compute. reflexivity.
  - vm_compute. reflexivity.
Defined.








Lemma enabled_config_nonempty key act (d : dict) : enabled_config key act d ≠ [].
Proof. unfold enabled_config. by destruct d as [|[k v] d]; cbn; [|destruct (decide _)]. Qed.

Lemma enabled_config_shape key act (d : dict) :
  map_shape_ok (enabled_config key act d) = true.
Proof. unfold map_shape_ok, enabled_config. by rewrite dict_get_set_eq. Qed.



Lemma selected_typed entry : entry_typed entry = true → selected entry = active_test entry.
Proof. intros H. unfold selected. by rewrite has_handwriting_typed. Qed.

Lemma filter_typed (m : dict) :
  forallb (λ kv, entry_typed kv.2) m = true →
  List.filter (λ kv, negb (selected kv.2)) m
  = List.filter (λ kv, negb (active_test kv.2)) m.
Proof.
  intros H. apply filter_ext_in. intros kv Hin.
  rewrite forallb_forall in H. by rewrite selected_typed by by apply H.
Qed.



Lemma stored_only_read s app app' said : stored (only_read app' said s) app = stored s app.
Proof. reflexivity. Qed.

Lemma activity_map_of_set m (d : dict) :
  activity_map_of (dict_set activityConfigMap (JDict m) d) = m.
Proof. unfold activity_map_of. by rewrite dict_get_set_eq. Qed.








Lemma doc_ok_remove_all rm (m : dict) :
  doc_ok (JDict m) = true → doc_ok (JDict (remove_all rm m)) = true.
Proof.
  revert m. induction rm as [|k rm IH]; intros m Hm; [done|].
  unfold remove_all in *. cbn [fold_left]. apply IH. by apply doc_ok_dict_del.
Qed.

Lemma stored_Some_present s app v : stored s app = Some v → is_Some (db s !! app_key app).
Proof.
  unfold stored. destruct (db s !! app_key app) as [raw|]; [by eauto|].
  cbn [default from_option]. by vm_compute.
Qed.




Lemma enable_effect app key act s :
  db (enable_handwriting app key act s).2 = db s
  ∨ ∃ d, stored s app = Some (JDict d)
         ∧ (enable_handwriting app key act s).2
           = written app (JDict (enabled_config key act d)) (print_state [] s).
Proof.
  destruct (stored s app) as [v|] eqn:Hst.
  2: { left. rewrite enable_not_found; [done|by rewrite Hst]. }
  destruct (truthy v) eqn:Htr.
  2: { left. rewrite enable_not_found; [done|by rewrite Hst; cbn; rewrite Htr]. }
  destruct v as [| | | | |d];
    try (left; unfold enable_handwriting, bind; rewrite get_app_config_run, Hst;
         cbn [falsy]; rewrite Htr; reflexivity).
  destruct (map_shape_ok d) eqn:Hshape.
  - right. exists d. split; [done|]. rewrite (enable_run _ _ _ _ d); [|done| |done].
    + cbn [snd]. unfold written, print_state. cbn. by rewrite app_nil_r.
    + by destruct d.
  - left. unfold enable_handwriting, bind. rewrite get_app_config_run, Hst.
    cbn [falsy]. rewrite Htr. cbn [negb]. unfold map_shape_ok, dict_in in *.
    destruct (dict_get activityConfigMap d) as [[| | | | |m]|] eqn:E; try done;
      rewrite bool_decide_eq_true_2 by eauto; cbn [negb]; rewrite E; reflexivity.
Qed.

Lemma disable_effect app activity s :
  db (disable_handwriting app activity s).2 = db s
  ∨ ∃ d m rm said,
      stored s app = Some (JDict d)
      ∧ dict_get activityConfigMap d = Some (JDict m)
      ∧ (disable_handwriting app activity s).2
        = written app (JDict (dict_set activityConfigMap (JDict (remove_all rm m)) d))
            (print_state said s).
Proof.
  destruct (stored s app) as [v|] eqn:Hst.
  2: { left. rewrite disable_not_found; [done|by rewrite Hst]. }
  destruct (truthy v) eqn:Htr.
  2: { left. rewrite disable_not_found; [done|by rewrite Hst; cbn; rewrite Htr]. }
  destruct v as [| | | | |d];
    try (left; unfold disable_handwriting, bind; rewrite get_app_config_run, Hst;
         cbn [falsy]; rewrite Htr; reflexivity).
  assert (d ≠ []) as Hd by (by destruct d).
  destruct (truthy (get_or_empty activityConfigMap d)) eqn:Hmap.
  2: { left. by rewrite (disable_nothing _ _ _ d). }
  unfold get_or_empty in Hmap.
  destruct (dict_get activityConfigMap d) as [am|] eqn:Ham; [|done]. cbn in Hmap.
  assert (∀ m, am = JDict m → m ≠ []) as Hne.
  { intros m ->. by destruct m. }
  destruct activity as [[|c a]|].
  - destruct am as [| | | | |m];
      try (left; unfold disable_handwriting, bind; rewrite get_app_config_run, Hst;
           cbn [falsy]; rewrite Htr; cbn [negb]; unfold get_or_empty; rewrite Ham;
           cbn [default from_option id]; rewrite Hmap; reflexivity).
    destruct (collect_to_remove m) as [rm|e] eqn:Hrm.
    + right. exists d, m, rm, (List.map RemovedActivity rm). split; [done|]. split; [done|].
      by rewrite (disable_all _ _ _ d m rm (or_intror eq_refl) Hst Hd Ham (Hne m eq_refl) Hrm).
    + left. unfold disable_handwriting, bind. rewrite get_app_config_run, Hst.
      cbn [falsy]. rewrite Htr. cbn [negb]. unfold get_or_empty. rewrite Ham.
      cbn [default from_option id]. rewrite Hmap. cbn [negb]. rewrite Hrm. reflexivity.
  - destruct am as [| | | | |m].
    1-5: left; unfold disable_handwriting, bind; rewrite get_app_config_run, Hst;
         cbn [falsy]; rewrite Htr; cbn [negb]; unfold get_or_empty; rewrite Ham;
         cbn [default from_option id]; rewrite Hmap; cbn [negb contains];
         try reflexivity;
         match goal with
         | |- context [is_substring ?p ?t] => destruct (is_substring p t); reflexivity
         | |- context [existsb ?f ?l] => destruct (existsb f l); reflexivity
         end.
    destruct (dict_get (c :: a) m) as [e|] eqn:Hget.
    + right. exists d, m, [c :: a], [RemovedActivity (c :: a)]. split; [done|]. split; [done|].
      rewrite (disable_named_present _ _ _ _ d m); try done. by apply Hne.
    + left. rewrite (disable_named_absent _ _ _ _ d m); try done. by apply Hne.
  - destruct am as [| | | | |m];
      try (left; unfold disable_handwriting, bind; rewrite get_app_config_run, Hst;
           cbn [falsy]; rewrite Htr; cbn [negb]; unfold get_or_empty; rewrite Ham;
           cbn [default from_option id]; rewrite Hmap; reflexivity).
    destruct (collect_to_remove m) as [rm|e] eqn:Hrm.
    + right. exists d, m, rm, (List.map RemovedActivity rm). split; [done|]. split; [done|].
      by rewrite (disable_all _ _ _ d m rm (or_introl eq_refl) Hst Hd Ham (Hne m eq_refl) Hrm).
    + left. unfold disable_handwriting, bind. rewrite get_app_config_run, Hst.
      cbn [falsy]. rewrite Htr. cbn [negb]. unfold get_or_empty. rewrite Ham.
      cbn [default from_option id]. rewrite Hmap. cbn [negb]. rewrite Hrm. reflexivity.
Qed.



End manager_spec.

(** ** Round trip and compactness of the codec *)

Module codec_spec.
Import codec codec_aux codec_facts.
Local Open Scope N_scope.














(** The identity is between encodings.  A text from another writer that
    decodes to a record need not be the encoding of that record: with a
    space after the colon the record is the same and its encoding is the
    compact one. *)
Lemma reencode_normalises_spacing :
  ∃ R, loads (dq "{'a': 1}") = Some R
       ∧ doc_ok R = true
       ∧ dumps R = dq "{'a':1}"
       ∧ dumps R ≠ dq "{'a': 1}".
Proof.
  exists (JDict [(py "a", JInt 1)]).
  split; [vm_compute; reflexivity|]. split; [vm_compute; reflexivity|].
  split; [vm_compute; reflexivity|]. vm_compute. discriminate.
Qed.

End codec_spec.

(** ** The quick command *)

Module cli_spec.

(** C8, as amended.  With both files of the store in place, the quick
    command on an application that the catalog does not list exits with
    status 1 after reporting the unknown application; the store has been
    opened by then, and nothing else happened to it: no backup, no read
    and no write. *)
Theorem quick_unknown_app app activity s :
  known_app app KNOWN_APPS = None →
  database_exists s = true →
  crc_exists s = true →
  main (CmdQuick app activity) s
  = (1%Z, mkState (database_exists s) (crc_exists s) (db s) (backup s)
            (calls s ++ [Open]) (stdout s ++ [NotKnownApp app])).
Proof.
  intros Hunknown Hdb Hcrc. destruct s as [de ce store bk cs out].
  cbn [database_exists crc_exists] in Hdb, Hcrc. subst de ce.
  unfold main, main_try, bind, OnyxMMKVHandler_init.
  cbn [database_exists crc_exists negb]. rewrite Hunknown. reflexivity.
Qed.

Lemma quick_unknown_app_witness :
  main (CmdQuick (py "org.example.unknown") None) (fresh_state ∅)
  = (1%Z, mkState (database_exists (fresh_state ∅)) (crc_exists (fresh_state ∅))
            (db (fresh_state ∅)) (backup (fresh_state ∅))
            (calls (fresh_state ∅) ++ [Open])
            (stdout (fresh_state ∅) ++ [NotKnownApp (py "org.example.unknown")])).
Proof.
  apply (quick_unknown_app (py "org.example.unknown") None (fresh_state ∅)).
  - vm_compute. reflexivity.
  - reflexivity.
  - reflexivity.
Defined.

(** When the database file is missing the same command reports the
    missing file, not the unknown application; and when the files exist
    the store is opened before the catalog is consulted. *)
Lemma quick_unknown_app_counterexample :
  main (CmdQuick (py "org.example.unknown") None) (mkState false true ∅ None [] [])
  = (1%Z, mkState false true ∅ None [] [ErrorRaised (FileNotFoundError DatabaseFile)])
  ∧ calls (main (CmdQuick (py "org.example.unknown") None) (fresh_state ∅)).2 = [Open].
Proof. split; vm_compute; reflexivity. Qed.

End cli_spec.

(** * Properties of the listings and of the sub-commands *)

(** ** Facts about the listings *)

Module listing_facts.
Import codec codec_aux codec_facts dict_facts wf_facts optimizer_facts.

Lemma str_leb_refl a : str_leb a a = true.
Proof. induction a as [|x a IH]; [done|]. cbn. by rewrite N.ltb_irrefl. Qed.

#[global] Instance str_le_total : Total str_le.
Proof.
  intros a. unfold str_le. induction a as [|x a IH]; intros [|y b]; cbn; auto.
  destruct (N.ltb_spec x y), (N.ltb_spec y x); auto; lia.
Qed.

#[global] Instance str_le_trans : Transitive str_le.
Proof.
  intros a. unfold str_le. induction a as [|x a IH]; intros [|y b] [|z c]; cbn; try done.
  destruct (N.ltb_spec x y), (N.ltb_spec y x), (N.ltb_spec y z), (N.ltb_spec z y),
    (N.ltb_spec x z), (N.ltb_spec z x); try done; try lia. apply IH.
Qed.

#[global] Instance str_le_antisymm : AntiSymm (=) str_le.
Proof.
  intros a. unfold str_le. induction a as [|x a IH]; intros [|y b]; cbn; try done.
  destruct (N.ltb_spec x y), (N.ltb_spec y x); try done; try lia.
  intros H1 H2. f_equal; [lia|by apply IH].
Qed.

Lemma is_prefix_of_spec p s : is_prefix_of p s = true ↔ ∃ t, s = p ++ t.
Proof.
  revert s. induction p as [|a p IH]; intros s; cbn.
  - split; eauto.
  - destruct s as [|c s]; [split; [done|by intros [? ?]]|].
    rewrite andb_true_iff, N.eqb_eq, IH. split.
    + intros [-> [t ->]]. eauto.
    + intros [t [= -> ->]]. eauto.
Qed.


Lemma elem_of_eac_apps p keys : p ∈ eac_apps keys ↔ app_key p ∈ keys.
Proof.
  unfold eac_apps. rewrite list_elem_of_In, in_map_iff. split.
  - intros (key & <- & [Hin Hpre]%filter_In).
    apply is_prefix_of_spec in Hpre as [t ->]. by apply list_elem_of_In.
  - intros Hin. exists (app_key p). split; [done|]. apply filter_In.
    split; [by apply list_elem_of_In|]. apply is_prefix_of_spec. by exists p.
Qed.

Lemma NoDup_eac_apps keys : NoDup keys → NoDup (eac_apps keys).
Proof.
  unfold eac_apps. induction 1 as [|key keys Hkey Hnd IH]; cbn [List.filter]; [constructor|].
  destruct (is_prefix_of (py "eac_app_") key) eqn:Hpre; [|done].
  cbn [List.map]. constructor; [|done].
  intros Hin. apply Hkey. apply is_prefix_of_spec in Hpre as [t ->].
  change (drop 8 (py "eac_app_" ++ t)) with t in Hin.
  by apply elem_of_eac_apps in Hin.
Qed.

Lemma eac_apps_Permutation keys keys' : keys ≡ₚ keys' → eac_apps keys ≡ₚ eac_apps keys'.
Proof.
  intros H. unfold eac_apps. apply Permutation_map.
  induction H; cbn [List.filter]; try done.
  - by destruct (is_prefix_of _ x); [constructor|].
  - destruct (is_prefix_of _ x), (is_prefix_of _ y); try done. constructor.
  - etransitivity; eauto.
Qed.

Lemma sorted_spec l :
  StronglySorted str_le (sorted l) ∧ sorted l ≡ₚ l.
Proof.
  split; [apply StronglySorted_merge_sort; apply _|apply merge_sort_Permutation].
Qed.

Lemma list_all_apps_run s :
  list_all_apps s = (Return (sorted (eac_apps (map_to_list (db s)).*1)), s).
Proof. reflexivity. Qed.

Lemma elem_of_list_all_apps s p :
  p ∈ sorted (eac_apps (map_to_list (db s)).*1) ↔ is_Some (db s !! app_key p).
Proof.
  rewrite (proj2 (sorted_spec _)), elem_of_eac_apps, list_elem_of_fmap. split.
  - intros ([k v] & -> & Hin). apply elem_of_map_to_list in Hin. eauto.
  - intros [v Hv]. exists (app_key p, v). split; [done|]. by apply elem_of_map_to_list.
Qed.

Lemma sorted_eac_apps_Permutation keys keys' :
  keys ≡ₚ keys' → sorted (eac_apps keys) = sorted (eac_apps keys').
Proof.
  intros Hperm.
  destruct (sorted_spec (eac_apps keys)) as [Hs Hp].
  destruct (sorted_spec (eac_apps keys')) as [Hs' Hp'].
  apply (StronglySorted_unique str_le); [done|done|].
  rewrite Hp, Hp'. by apply eac_apps_Permutation.
Qed.

Lemma same_keys_same_apps (m m' : gmap pystr pystr) :
  (∀ k, is_Some (m' !! k) ↔ is_Some (m !! k)) →
  sorted (eac_apps (map_to_list m').*1) = sorted (eac_apps (map_to_list m).*1).
Proof.
  intros Hkeys. apply sorted_eac_apps_Permutation.
  apply NoDup_Permutation; [apply NoDup_fst_map_to_list..|].
  intros k. rewrite !list_elem_of_fmap. split.
  - intros ([k' v] & -> & Hin%elem_of_map_to_list).
    destruct (proj1 (Hkeys k')) as [v' Hv']; [by eauto|].
    exists (k', v'). split; [done|]. by apply elem_of_map_to_list.
  - intros ([k' v] & -> & Hin%elem_of_map_to_list).
    destruct (proj2 (Hkeys k')) as [v' Hv']; [by eauto|].
    exists (k', v'). split; [done|]. by apply elem_of_map_to_list.
Qed.

Lemma keys_written app v said s :
  is_Some (db s !! app_key app) →
  ∀ k, is_Some (db (written app v (print_state said s)) !! k) ↔ is_Some (db s !! k).
Proof.
  intros Hin k. cbn [written print_state db].
  destruct (decide (k = app_key app)) as [-> | Hne].
  - rewrite lookup_insert_eq. split; eauto.
  - by rewrite lookup_insert_ne.
Qed.

Lemma drawing_info_has_handwriting name entry :
  match has_handwriting entry with
  | Raise e => drawing_info name entry = Raise e ∧ e = AttributeError
  | Return true =>
      drawing_info name entry
      = Return (Some (mkInfo name (default JNull (note_field (py "drawViewKey") entry))))
  | Return false => drawing_info name entry = Return None
  end.
Proof.
  unfold has_handwriting, drawing_info, note_field, get_or_empty.
  destruct entry as [| | | | |e]; try done.
  destruct (dict_get (py "noteConfig") e) as [[| | | | |n]|];
    cbn [default from_option id]; try done.
  destruct (get_truthy (py "enable") n && get_truthy (py "drawViewKey") n); done.
Qed.

Lemma activities_with_drawing_spec (m : dict) :
  match collect_to_remove m with
  | Raise e => activities_with_drawing m = Raise AttributeError ∧ e = AttributeError
  | Return to_remove =>
      activities_with_drawing m
      = Return (List.map info_of (List.filter (λ kv, selected kv.2) m))
  end.
Proof.
  induction m as [|[k v] m IH]; [done|].
  cbn [collect_to_remove activities_with_drawing List.filter snd]. unfold selected at 1 3.
  pose proof (drawing_info_has_handwriting k v) as Hv.
  destruct (has_handwriting v) as [[|]|e].
  - rewrite Hv. destruct (collect_to_remove m) as [rm|e'].
    + by rewrite IH.
    + destruct IH as [-> ->]. done.
  - rewrite Hv. destruct (collect_to_remove m) as [rm|e'].
    + by rewrite IH.
    + destruct IH as [-> ->]. done.
  - destruct Hv as [-> ->]. done.
Qed.

Lemma optimized_activities_raise config e :
  optimized_activities config = Raise e → e = AttributeError.
Proof.
  unfold optimized_activities. destruct (falsy config); [done|].
  destruct config as [[| | | | |d]|]; try by intros [= <-].
  destruct (dict_get activityConfigMap d) as [am|]; [|done].
  destruct (truthy am); [|done].
  destruct am as [| | | | |m]; try by intros [= <-].
  pose proof (activities_with_drawing_spec m) as H.
  destruct (collect_to_remove m); [by rewrite H|]. destruct H as [-> _]. by intros [= <-].
Qed.

Lemma list_optimized_loop_frame apps s r s' :
  list_optimized_loop apps s = (r, s') →
  database_exists s' = database_exists s ∧ crc_exists s' = crc_exists s
  ∧ db s' = db s ∧ backup s' = backup s ∧ stdout s' = stdout s
  ∧ ∃ reads, calls s' = calls s ++ List.map (λ app, GetString (app_key app)) reads
             ∧ reads `prefix_of` apps.
Proof.
  revert s r s'. induction apps as [|app apps IH]; intros s r s' Hrun.
  - cbn in Hrun. injection Hrun as <- <-. do 5 (split; [done|]). exists [].
    by rewrite app_nil_r.
  - cbn [list_optimized_loop] in Hrun. unfold bind at 1 in Hrun.
    rewrite get_app_config_run in Hrun.
    destruct (optimized_activities (stored s app)) as [acts|e].
    + unfold bind in Hrun.
      destruct (list_optimized_loop apps (record_call (GetString (app_key app)) s))
        as [r0 s0] eqn:E.
      apply IH in E as (? & ? & ? & ? & ? & reads & Hcalls & Hpre).
      assert (s' = s0) as -> by (destruct r0; by injection Hrun).
      do 5 (split; [done|]). exists (app :: reads). split; [|by apply prefix_cons].
      rewrite Hcalls. cbn. by rewrite <- app_assoc.
    + injection Hrun as <- <-. do 5 (split; [done|]). exists [app].
      split; [done|]. apply prefix_cons, prefix_nil.
Qed.

Lemma list_optimized_loop_returns apps s l s' :
  list_optimized_loop apps s = (Return l, s') →
  ∀ app, app ∈ apps →
    ∃ acts, optimized_activities (stored s app) = Return acts
            ∧ (acts ≠ [] → (app, acts) ∈ l).
Proof.
  revert s l s'. induction apps as [|app0 apps IH]; intros s l s' Hrun app Hin.
  { by apply elem_of_nil in Hin. }
  cbn [list_optimized_loop] in Hrun. unfold bind at 1 in Hrun.
  rewrite get_app_config_run in Hrun.
  destruct (optimized_activities (stored s app0)) as [acts0|e] eqn:E0; [|done].
  unfold bind in Hrun.
  destruct (list_optimized_loop apps (record_call (GetString (app_key app0)) s))
    as [[l0|e] s0] eqn:E; [|done].
  injection Hrun as <- <-.
  apply elem_of_cons in Hin as [-> | Hin].
  - exists acts0. split; [done|]. intros Hne. destruct acts0; [done|]. apply elem_of_cons. by left.
  - destruct (IH _ _ _ E app Hin) as (acts & Hacts & Hl).
    exists acts. split; [done|]. intros Hne. specialize (Hl Hne).
    destruct acts0; [done|]. apply elem_of_cons. by right.
Qed.

Lemma list_optimized_loop_listed apps s l s' :
  list_optimized_loop apps s = (Return l, s') →
  ∀ app acts, (app, acts) ∈ l →
    app ∈ apps ∧ acts ≠ [] ∧ optimized_activities (stored s app) = Return acts.
Proof.
  revert s l s'. induction apps as [|app0 apps IH]; intros s l s' Hrun app acts Hin.
  { cbn in Hrun. injection Hrun as <- <-. by apply elem_of_nil in Hin. }
  cbn [list_optimized_loop] in Hrun. unfold bind at 1 in Hrun.
  rewrite get_app_config_run in Hrun.
  destruct (optimized_activities (stored s app0)) as [acts0|e] eqn:E0; [|done].
  unfold bind in Hrun.
  destruct (list_optimized_loop apps (record_call (GetString (app_key app0)) s))
    as [[l0|e] s0] eqn:E; [|done].
  injection Hrun as <- <-.
  assert ((app, acts) ∈ l0 → app ∈ app0 :: apps ∧ acts ≠ []
          ∧ optimized_activities (stored s app) = Return acts) as Hrest.
  { intros Hin0. destruct (IH _ _ _ E app acts Hin0) as (? & ? & ?).
    split; [apply elem_of_cons; by right|]. done. }
  destruct acts0 as [|a0 acts0]; [by apply Hrest|].
  apply elem_of_cons in Hin as [[= -> ->] | Hin]; [|by apply Hrest].
  split; [apply elem_of_cons; by left|]. done.
Qed.

Lemma list_optimized_loop_sublist apps s l s' :
  list_optimized_loop apps s = (Return l, s') → l.*1 `sublist_of` apps.
Proof.
  revert s l s'. induction apps as [|app0 apps IH]; intros s l s' Hrun.
  { cbn in Hrun. by injection Hrun as <- <-. }
  cbn [list_optimized_loop] in Hrun. unfold bind at 1 in Hrun.
  rewrite get_app_config_run in Hrun.
  destruct (optimized_activities (stored s app0)) as [acts0|e] eqn:E0; [|done].
  unfold bind in Hrun.
  destruct (list_optimized_loop apps (record_call (GetString (app_key app0)) s))
    as [[l0|e] s0] eqn:E; [|done].
  injection Hrun as <- <-. specialize (IH _ _ _ E).
  destruct acts0; [by apply sublist_cons|]. cbn. by apply sublist_skip.
Qed.

Lemma list_optimized_loop_raises apps s app e :
  app ∈ apps → optimized_activities (stored s app) = Raise e →
  (list_optimized_loop apps s).1 = Raise AttributeError.
Proof.
  revert s. induction apps as [|app0 apps IH]; intros s Hin Hraise.
  { by apply elem_of_nil in Hin. }
  cbn [list_optimized_loop]. unfold bind at 1. rewrite get_app_config_run.
  destruct (optimized_activities (stored s app0)) as [acts0|e0] eqn:E0.
  - apply elem_of_cons in Hin as [-> | Hin]; [by rewrite Hraise in E0|].
    unfold bind. specialize (IH (record_call (GetString (app_key app0)) s) Hin Hraise).
    destruct (list_optimized_loop apps (record_call (GetString (app_key app0)) s))
      as [[l0|e1] s0]; cbn in *; done.
  - apply optimized_activities_raise in E0 as ->. done.
Qed.

Lemma list_optimized_apps_run s :
  list_optimized_apps s
  = list_optimized_loop (sorted (eac_apps (map_to_list (db s)).*1)) s.
Proof. reflexivity. Qed.

Lemma optimized_activities_inv config x acts :
  optimized_activities config = Return (x :: acts) →
  ∃ d m, config = Some (JDict d) ∧ dict_get activityConfigMap d = Some (JDict m)
         ∧ activities_with_drawing m = Return (x :: acts).
Proof.
  unfold optimized_activities. destruct (falsy config); [done|].
  destruct config as [[| | | | |d]|]; try done.
  destruct (dict_get activityConfigMap d) as [am|] eqn:E; [|done].
  destruct (truthy am); [|done].
  destruct am as [| | | | |m]; try done. intros H. by exists d, m.
Qed.

Lemma optimized_activities_map (d m : dict) :
  dict_get activityConfigMap d = Some (JDict m) → m ≠ [] →
  optimized_activities (Some (JDict d)) = activities_with_drawing m.
Proof.
  intros Hget Hm. unfold optimized_activities.
  assert (d ≠ []) as Hd by (by destruct d).
  cbn [falsy]. rewrite !truthy_dict by done. cbn [negb]. by rewrite Hget, truthy_dict.
Qed.

Lemma activities_with_drawing_Return (m : dict) acts :
  activities_with_drawing m = Return acts →
  acts = List.map info_of (List.filter (λ kv, selected kv.2) m)
  ∧ collect_to_remove m = Return (List.map info_activity acts).
Proof.
  intros Hacts. pose proof (activities_with_drawing_spec m) as H.
  destruct (collect_to_remove m) as [rm|e] eqn:Hrm.
  - rewrite Hacts in H. injection H as ->. split; [done|].
    rewrite (collect_to_remove_keys _ _ Hrm). f_equal.
    rewrite List.map_map. done.
  - destruct H as [H _]. by rewrite H in Hacts.
Qed.

Lemma info_in_activities (m : dict) acts k entry info :
  activities_with_drawing m = Return acts →
  (k, entry) ∈ m → drawing_info k entry = Return (Some info) → info ∈ acts.
Proof.
  revert acts. induction m as [|[k0 v0] m IH]; intros acts Hacts Hin Hinfo.
  { by apply elem_of_nil in Hin. }
  cbn [activities_with_drawing] in Hacts.
  destruct (drawing_info k0 v0) as [found|] eqn:E0; [|done].
  destruct (activities_with_drawing m) as [acts0|]; [|done]. injection Hacts as <-.
  apply elem_of_cons in Hin as [[= <- <-] | Hin].
  - rewrite Hinfo in E0. injection E0 as <-. apply elem_of_cons. by left.
  - specialize (IH acts0 eq_refl Hin Hinfo). destruct found; [|done].
    apply elem_of_cons. by right.
Qed.

Lemma filter_selected_rejected (m : dict) :
  List.filter (λ kv, selected kv.2) (List.filter (λ kv, negb (selected kv.2)) m) = [].
Proof.
  induction m as [|[k v] m IH]; [done|]. cbn [List.filter snd].
  destruct (selected v) eqn:E; cbn [negb]; [done|]. cbn [List.filter snd]. by rewrite E.
Qed.

Lemma optimized_activities_falsy_map (d : dict) :
  truthy (get_or_empty activityConfigMap d) = false →
  optimized_activities (Some (JDict d)) = Return [].
Proof.
  unfold get_or_empty, optimized_activities. destruct (falsy (Some (JDict d))); [done|].
  destruct (dict_get activityConfigMap d) as [am|]; [|done]. cbn [default from_option id].
  by intros ->.
Qed.

Lemma optimized_activities_not_dict v :
  truthy v = true → (∀ config, v ≠ JDict config) →
  optimized_activities (Some v) = Raise AttributeError.
Proof.
  intros Htr Hnd. unfold optimized_activities. cbn [falsy]. rewrite Htr. cbn [negb].
  destruct v as [| | | | |d]; try done. by destruct (Hnd d).
Qed.

Lemma list_optimized_apps_raises s app e :
  is_Some (db s !! app_key app) →
  optimized_activities (stored s app) = Raise e →
  ∃ s', list_optimized_apps s = (Raise AttributeError, s')
        ∧ db s' = db s ∧ stdout s' = stdout s.
Proof.
  intros Hin He. rewrite list_optimized_apps_run.
  apply elem_of_list_all_apps in Hin.
  pose proof (list_optimized_loop_raises _ _ _ _ Hin He) as Hraise.
  destruct (list_optimized_loop (sorted (eac_apps (map_to_list (db s)).*1)) s)
    as [r s'] eqn:E. cbn [fst] in Hraise. subst r.
  apply list_optimized_loop_frame in E as (_ & _ & ? & _ & ? & _). by exists s'.
Qed.

End listing_facts.

(** ** Facts about the text that is stored *)

Module ascii_facts.
Import codec codec_facts.
Local Open Scope N_scope.

Lemma printable_hexdigit d : d < 16 → printable (hexdigit d).
Proof. unfold printable, hexdigit. destruct (N.ltb_spec d 10); lia. Qed.

Lemma printable_hex4 n : Forall printable (hex4 n).
Proof.
  unfold hex4. repeat constructor; apply printable_hexdigit; lia.
Qed.

Lemma printable_escape_char c : Forall printable (escape_char c).
Proof.
  unfold escape_char.
  repeat (match goal with |- context [?x =? ?y] => destruct (N.eqb_spec x y) end;
          [repeat constructor; unfold printable; lia|]).
  destruct (N.leb_spec 32 c), (N.leb_spec c 126); cbn [andb].
  1: by repeat constructor.
  all: destruct (N.ltb_spec c 65536).
  all: repeat (first [apply printable_hex4 | apply Forall_nil
                     | apply Forall_app; split | apply Forall_cons; split]);
       unfold printable; lia.
Qed.

Lemma printable_string s : Forall printable (encode_basestring_ascii s).
Proof.
  unfold encode_basestring_ascii. apply Forall_cons. split; [unfold printable; lia|].
  apply Forall_app. split; [|repeat constructor; unfold printable; lia].
  induction s as [|c s IH]; [constructor|]. cbn [flat_map]. apply Forall_app.
  split; [apply printable_escape_char|done].
Qed.

Lemma printable_uint d : Forall printable (uint_chars d).
Proof.
  induction d; cbn [uint_chars]; [constructor|..];
    (apply Forall_cons; split; [unfold printable; lia|done]).
Qed.

Lemma printable_int n : Forall printable (int_repr n).
Proof.
  destruct n; cbn [int_repr]; [repeat constructor; unfold printable; lia|..].
  - apply printable_uint.
  - apply Forall_cons. split; [unfold printable; lia|apply printable_uint].
Qed.

Lemma printable_join parts :
  Forall (Forall printable) parts → Forall printable (join 44 parts).
Proof.
  induction 1 as [|p ps Hp Hps IH]; [constructor|].
  destruct ps as [|q ps]; [done|]. rewrite join_cons2. apply Forall_app. split; [done|].
  apply Forall_cons. split; [unfold printable; lia|done].
Qed.

Lemma printable_dumps v : Forall printable (dumps v).
Proof.
  induction v as [|b|n|s|l IH|d IH] using json_ind.
  - repeat constructor; unfold printable; cbn; lia.
  - destruct b; repeat constructor; unfold printable; cbn; lia.
  - apply printable_int.
  - apply printable_string.
  - cbn [dumps]. apply Forall_cons. split; [unfold printable; lia|].
    apply Forall_app. split; [|repeat constructor; unfold printable; lia].
    apply printable_join. apply Forall_forall. intros p Hp.
    apply list_elem_of_In, in_map_iff in Hp as (x & <- & Hx).
    rewrite Forall_forall in IH. apply IH. by apply list_elem_of_In.
  - cbn [dumps]. apply Forall_cons. split; [unfold printable; lia|].
    apply Forall_app. split; [|repeat constructor; unfold printable; lia].
    apply printable_join. apply Forall_forall. intros p Hp.
    apply list_elem_of_In, in_map_iff in Hp as ([k x] & <- & Hx). cbn [fst snd].
    apply Forall_app. split; [apply printable_string|].
    apply Forall_cons. split; [unfold printable; lia|].
    rewrite Forall_forall in IH. apply (IH (k, x)). by apply list_elem_of_In.
Qed.

End ascii_facts.

(** ** Facts about the removal *)

Module removal_facts.
Import codec codec_aux codec_facts dict_facts wf_facts optimizer_facts listing_facts.

Lemma dict_in_elem k (d : dict) : dict_in k d = bool_decide (k ∈ d.*1).
Proof.
  unfold dict_in. apply bool_decide_ext. split.
  - intros [v Hv]. apply dict_get_Some_elem in Hv. apply list_elem_of_fmap. by exists (k, v).
  - intros Hin. destruct (dict_get k d) eqn:E; [by eauto|]. by apply dict_get_None in E.
Qed.

Lemma dict_del_set_fresh k v (d : dict) :
  dict_get k d = None → dict_del k (dict_set k v d) = d.
Proof.
  induction d as [|[k0 v0] d IH]; cbn [dict_get dict_set dict_del].
  - by rewrite decide_True.
  - destruct (decide (k0 = k)); [done|]. intros H. cbn [dict_del].
    rewrite decide_False by done. by rewrite IH.
Qed.

Lemma dict_set_nonempty k v (d : dict) : dict_set k v d ≠ [].
Proof. destruct d as [|[k0 v0] d]; cbn; [done|]. by destruct (decide _). Qed.

Lemma collect_to_remove_raise (m : dict) k entry e :
  (k, entry) ∈ m → has_handwriting entry = Raise e →
  collect_to_remove m = Raise AttributeError.
Proof.
  intros Hin He. pose proof (activities_with_drawing_spec m) as Hspec.
  destruct (collect_to_remove m) as [rm|e'] eqn:Hrm; [|by destruct Hspec as [_ ->]].
  exfalso. clear Hspec. revert rm Hrm.
  induction m as [|[k0 v0] m IH]; intros rm Hrm; [by apply elem_of_nil in Hin|].
  cbn [collect_to_remove] in Hrm.
  destruct (has_handwriting v0) as [b|] eqn:E0; [|done].
  destruct (collect_to_remove m) as [rm'|]; [|done].
  apply elem_of_cons in Hin as [[= <- <-] | Hin]; [by rewrite He in E0|].
  by eapply IH.
Qed.

Lemma disable_all_raise app activity s (d m : dict) e :
  unnamed activity →
  stored s app = Some (JDict d) →
  dict_get activityConfigMap d = Some (JDict m) → m ≠ [] →
  collect_to_remove m = Raise e →
  disable_handwriting app activity s = (Raise e, record_call (GetString (app_key app)) s).
Proof.
  intros Hun Hst Hget Hm Hrm. assert (d ≠ []) as Hd by (by destruct d).
  unfold disable_handwriting, bind. rewrite get_app_config_run, Hst. cbn [falsy].
  rewrite truthy_dict by done. cbn [negb].
  rewrite (get_or_empty_map _ _ Hget), truthy_dict by done. cbn [negb].
  by destruct Hun as [-> | ->]; rewrite Hrm.
Qed.

Lemma collect_to_remove_rejected (m : dict) rm :
  collect_to_remove m = Return rm →
  collect_to_remove (List.filter (λ kv, negb (selected kv.2)) m) = Return [].
Proof.
  revert rm. induction m as [|[k v] m IH]; intros rm Hrm; [done|].
  cbn [collect_to_remove] in Hrm. cbn [List.filter snd]. unfold selected at 1.
  destruct (has_handwriting v) as [b|] eqn:E; [|done].
  destruct (collect_to_remove m) as [rm'|]; [|done].
  specialize (IH rm' eq_refl). destruct b; cbn [negb]; [done|].
  cbn [collect_to_remove]. by rewrite E, IH.
Qed.

Lemma db_written_again app v said s :
  db s !! app_key app = Some (dumps v) →
  db (written app v (print_state said s)) = db s.
Proof. intros H. cbn [written print_state db]. by apply insert_id. Qed.

Lemma db_written app v said s :
  db (written app v (print_state said s)) !! app_key app = Some (dumps v).
Proof. cbn [written print_state db]. apply lookup_insert_eq. Qed.

Lemma disable_unnamed_true app activity s (d : dict) s1 :
  unnamed activity →
  stored s app = Some (JDict d) →
  doc_ok (JDict d) = true →
  disable_handwriting app activity s = (Return true, s1) →
  ∃ d', stored s1 app = Some (JDict d')
        ∧ (truthy (get_or_empty activityConfigMap d') = false
           ∨ ∃ m, dict_get activityConfigMap d' = Some (JDict m)
                  ∧ List.filter (λ kv, selected kv.2) m = []).
Proof.
  intros Hun Hst Hok Hrun.
  destruct (decide (d = [])) as [-> | Hd].
  { rewrite disable_not_found in Hrun; [done|by rewrite Hst]. }
  destruct (truthy (get_or_empty activityConfigMap d)) eqn:Htr.
  2: { rewrite (disable_nothing _ _ _ d) in Hrun by done. injection Hrun as <-.
       exists d. split; [done|]. by left. }
  unfold get_or_empty in Htr.
  destruct (dict_get activityConfigMap d) as [am|] eqn:Hget; [|done].
  cbn [default from_option id] in Htr.
  assert (∃ m, am = JDict m) as [m ->].
  { destruct am as [| | | | |m]; eauto; exfalso;
      unfold disable_handwriting, bind in Hrun; rewrite get_app_config_run, Hst in Hrun;
      cbn [falsy] in Hrun; rewrite truthy_dict in Hrun by done; cbn [negb] in Hrun;
      unfold get_or_empty in Hrun; rewrite Hget in Hrun;
      cbn [default from_option id] in Hrun; rewrite Htr in Hrun; cbn [negb] in Hrun;
      by destruct Hun as [-> | ->]. }
  assert (m ≠ []) as Hm by (by destruct m).
  destruct (collect_to_remove m) as [rm|e] eqn:Hrm.
  2: { exfalso. unfold disable_handwriting, bind in Hrun.
       rewrite get_app_config_run, Hst in Hrun. cbn [falsy] in Hrun.
       rewrite truthy_dict in Hrun by done. cbn [negb] in Hrun.
       rewrite (get_or_empty_map _ _ Hget), truthy_dict in Hrun by done.
       cbn [negb] in Hrun. by destruct Hun as [-> | ->]; rewrite Hrm in Hrun. }
  rewrite (disable_all _ _ _ d m rm Hun Hst Hd Hget Hm Hrm) in Hrun. injection Hrun as <-.
  pose proof (doc_ok_dict_get _ _ _ Hok Hget) as Hokm.
  pose proof (proj1 (doc_ok_dict m) Hokm) as [Hnd _].
  eexists. split.
  { apply stored_written. apply doc_ok_dict_set; [done|apply str_ok_activityConfigMap|].
    by apply manager_spec.doc_ok_remove_all. }
  right. eexists. split; [apply dict_get_set_eq|].
  rewrite (collect_to_remove_keys _ _ Hrm), remove_all_selected by done.
  apply filter_selected_rejected.
Qed.

Lemma disable_unnamed_twice package_name activity s config :
  unnamed activity →
  recorded s package_name config →
  map_shape_ok config = true →
  db (disable_handwriting package_name activity
        (disable_handwriting package_name activity s).2).2
  = db (disable_handwriting package_name activity s).2.
Proof.
  intros Hun Hrec Hshape.
  pose proof (stored_recorded _ _ _ Hrec) as Hst.
  pose proof (recorded_doc_ok _ _ _ Hrec) as Hok.
  destruct (decide (config = [])) as [-> | Hcfg].
  { rewrite (disable_not_found _ _ s) by (by rewrite Hst). cbn [snd].
    by rewrite disable_not_found by (by rewrite manager_spec.stored_only_read, Hst). }
  destruct (truthy (get_or_empty activityConfigMap config)) eqn:Htr.
  2: { rewrite (disable_nothing _ _ s config) by done. cbn [snd].
       by rewrite (disable_nothing _ _ _ config). }
  unfold get_or_empty, map_shape_ok in Htr, Hshape.
  destruct (dict_get activityConfigMap config) as [[| | | | |m]|] eqn:Hget; try done.
  assert (m ≠ []) as Hm by (by destruct m).
  pose proof (doc_ok_dict_get _ _ _ Hok Hget) as Hokm.
  pose proof (proj1 (doc_ok_dict m) Hokm) as [Hnd _].
  destruct (collect_to_remove m) as [rm|e] eqn:Hrm.
  2: { rewrite (disable_all_raise _ _ s config m e) by done. cbn [snd].
       by rewrite (disable_all_raise _ _ _ config m e). }
  rewrite (disable_all _ _ s config m rm) by done. cbn [snd].
  rewrite (collect_to_remove_keys _ _ Hrm), remove_all_selected by done.
  set (m1 := List.filter (λ kv, negb (selected kv.2)) m).
  set (config1 := dict_set activityConfigMap (JDict m1) config).
  set (s1 := written _ _ _).
  assert (stored s1 package_name = Some (JDict config1)) as Hst1.
  { apply stored_written. apply doc_ok_dict_set; [done|apply str_ok_activityConfigMap|].
    by apply doc_ok_filter. }
  assert (dict_get activityConfigMap config1 = Some (JDict m1)) as Hget1
    by apply dict_get_set_eq.
  assert (config1 ≠ []) as Hcfg1 by apply dict_set_nonempty.
  destruct (decide (m1 = [])) as [Hempty | Hm1].
  { rewrite (disable_nothing _ _ s1 config1); [done|done|done|].
    by rewrite (get_or_empty_map _ _ Hget1), Hempty. }
  rewrite (disable_all _ _ s1 config1 m1 []); try done.
  2: { by eapply collect_to_remove_rejected. }
  cbn [snd remove_all fold_left]. apply db_written_again.
  unfold config1 at 1. rewrite dict_set_set. apply db_written.
Qed.

End removal_facts.

(** ** Facts about the sub-commands *)

Module command_facts.
Import codec codec_aux codec_facts dict_facts wf_facts optimizer_facts listing_facts removal_facts.

Lemma not_found_falsy s app : not_found s app → falsy (stored s app) = true.
Proof.
  intros [Habsent | (v & Hst & Hv)]; [by rewrite stored_absent|].
  rewrite Hst. cbn [falsy]. by rewrite Hv.
Qed.

Lemma init_run s :
  database_exists s = true → crc_exists s = true →
  OnyxMMKVHandler_init s = (Return tt, record_call Open s).
Proof. intros Hdb Hcrc. unfold OnyxMMKVHandler_init. by rewrite Hdb, Hcrc. Qed.

Lemma init_missing s :
  database_exists s = false ∨ crc_exists s = false →
  OnyxMMKVHandler_init s
  = (Raise (FileNotFoundError (if database_exists s then CrcFile else DatabaseFile)), s).
Proof.
  intros H. unfold OnyxMMKVHandler_init.
  destruct (database_exists s); [|done]. destruct H as [H | ->]; done.
Qed.





Lemma after_backup s :
  database_exists s = true → crc_exists s = true →
  (OnyxMMKVHandler_init ;;; backup_database ;;; print CreatedBackups) s
  = (Return tt,
     mkState true true (db s) (Some (db s)) (calls s ++ [Open; CopyFiles])
       (stdout s ++ [CreatedBackups])).
Proof.
  intros Hdb Hcrc. unfold bind. rewrite init_run by done. cbn.
  by rewrite Hdb, Hcrc, <- app_assoc.
Qed.

Lemma run_silent {A} (m : M A) c :
  stdout (m (process c)).2 = stdout (process c) →
  run m c = ((m (process c)).1, mkConsole (m (process c)).2 (screen c)).
Proof.
  intros H. unfold run. destruct (m (process c)) as [r s'] eqn:E. cbn [fst snd] in *.
  by rewrite H, drop_all, app_nil_r.
Qed.

Lemma run_init c :
  database_exists (process c) = true → crc_exists (process c) = true →
  run OnyxMMKVHandler_init c = (Return tt, mkConsole (record_call Open (process c)) (screen c)).
Proof.
  intros Hdb Hcrc. rewrite run_silent; by rewrite init_run.
Qed.

Lemma run_get_app_config app c :
  run (get_app_config app) c
  = (Return (stored (process c) app),
     mkConsole (record_call (GetString (app_key app)) (process c)) (screen c)).
Proof. by rewrite run_silent. Qed.

Lemma show_activities_process items c :
  process (show_activities items c).2 = process c.
Proof.
  revert c. induction items as [|[k v] items IH]; intros c; [done|].
  cbn [show_activities]. destruct (drawing_info k v) as [[info|]|e]; [| |done].
  - unfold bindK. cbn. by rewrite IH.
  - unfold bindK. cbn. by rewrite IH.
Qed.

Lemma drawing_info_typed k entry :
  entry_typed entry = true →
  drawing_info k entry
  = Return (if active_test entry then Some (info_of (k, entry)) else None).
Proof.
  intros Htyped. pose proof (drawing_info_has_handwriting k entry) as H.
  rewrite (has_handwriting_typed _ Htyped) in H. by destruct (active_test entry).
Qed.

Lemma show_activities_typed (items : dict) c :
  forallb (λ kv, entry_typed kv.2) items = true →
  show_activities items c
  = (Return tt, mkConsole (process c) (screen c ++ flat_map show_lines items)).
Proof.
  revert c. induction items as [|[k v] items IH]; intros c.
  - intros _. cbn. rewrite app_nil_r. by destruct c.
  - cbn [forallb snd]. intros [Hv Hitems]%andb_true_iff.
    cbn [show_activities flat_map]. rewrite (drawing_info_typed _ _ Hv).
    unfold show_lines at 1. cbn [snd fst]. destruct (active_test v).
    + unfold bindK. cbn. rewrite IH by done. cbn. by rewrite <- !app_assoc.
    + unfold bindK. cbn. rewrite IH by done. cbn. by rewrite <- !app_assoc.
Qed.

Lemma entry_typed_create key act : entry_typed (create_activity_config key act) = true.
Proof. reflexivity. Qed.

Lemma show_typed_record app c (d : dict) :
  database_exists (process c) = true →
  crc_exists (process c) = true →
  stored (process c) app = Some (JDict d) →
  record_typed d = true →
  (main_report (CmdShow app) c).1 = 0%Z
  ∧ screen (main_report (CmdShow app) c).2
    = screen c
      ++ (if bool_decide (d = []) then [AppNotInDatabase app]
          else ConfigurationFor app
               :: (if bool_decide (activity_map_of d = []) then [NoActivityConfigurations]
                   else ActivityConfigurations :: flat_map show_lines (activity_map_of d))).
Proof.
  intros Hdb Hcrc Hst [Hshape Htyped]%andb_true_iff.
  unfold main_report, report_try, bindK.
  rewrite run_init by done. rewrite run_get_app_config. cbn [process screen].
  change (stored (record_call Open (process c)) app) with (stored (process c) app).
  rewrite Hst. cbn [falsy]. destruct (decide (d = [])) as [-> | Hd].
  { change (truthy (JDict [])) with false. rewrite bool_decide_eq_true_2 by done.
    by cbn [negb say fst snd screen process]. }
  rewrite truthy_dict by done. rewrite (bool_decide_eq_false_2 (d = [])) by done.
  cbn [negb say process screen]. unfold get_or_empty, map_shape_ok, activity_map_of in *.
  destruct (dict_get activityConfigMap d) as [[| | | | |m]|]; try done.
  - cbn [default from_option id]. destruct (decide (m = [])) as [-> | Hm].
    { change (truthy (JDict [])) with false. rewrite bool_decide_eq_true_2 by done.
      cbn [say fst snd screen process]. by rewrite <- app_assoc. }
    rewrite truthy_dict by done. rewrite (bool_decide_eq_false_2 (m = [])) by done.
    cbn [say process screen]. rewrite show_activities_typed by done.
    cbn [fst snd screen]. by rewrite <- !app_assoc.
  - cbn [default from_option id]. change (truthy (JDict [])) with false.
    rewrite bool_decide_eq_true_2 by done.
    cbn [say fst snd screen process]. by rewrite <- app_assoc.
Qed.

Lemma show_lines_inactive (m : dict) a :
  forallb (λ kv, negb (active_test kv.2)) m = true →
  HandwritingEnabled a ∉ flat_map show_lines m.
Proof.
  induction m as [|[k v] m IH]; cbn [forallb flat_map snd].
  - intros _. apply not_elem_of_nil.
  - intros [Hv Hm]%andb_true_iff. unfold show_lines at 1. cbn [snd fst].
    apply negb_true_iff in Hv. rewrite Hv. cbn [app].
    apply not_elem_of_cons. split; [done|by apply IH].
Qed.

Lemma say_all_run ls c : say_all ls c = (Return tt, mkConsole (process c) (screen c ++ ls)).
Proof.
  revert c. induction ls as [|l ls IH]; intros c.
  - cbn. rewrite app_nil_r. by destruct c.
  - cbn [say_all]. unfold bindK. cbn [say]. rewrite IH. cbn. by rewrite <- app_assoc.
Qed.

End command_facts.

(** ** The handler: storing, reading back and listing *)

Module handler_spec.
Import codec codec_aux codec_facts dict_facts wf_facts optimizer_facts listing_facts ascii_facts removal_facts command_facts.



(** X2.  The text [set_app_config] stores is printable ASCII, whatever
    the document: every character of the value it puts under the key of
    the application lies between the space and the tilde, a character
    outside that range being written as an escape. *)
Theorem set_app_config_stores_ascii package_name config s :
  ∃ text,
    db (set_app_config package_name config s).2 !! app_key package_name = Some text
    ∧ text = dumps config
    ∧ Forall printable text.
Proof.
  exists (dumps config). split; [cbn; apply lookup_insert_eq|]. split; [done|].
  apply printable_dumps.
Qed.

(** X3.  [list_all_apps] answers, without changing anything, the
    package names whose key [eac_app_<name>] the store holds: each of
    them once, in ascending order of [str], and no other name. *)
Theorem list_all_apps_sorted_packages s :
  ∃ apps,
    list_all_apps s = (Return apps, s)
    ∧ StronglySorted str_le apps
    ∧ NoDup apps
    ∧ ∀ package_name, package_name ∈ apps ↔ is_Some (db s !! app_key package_name).
Proof.
  eexists. split; [apply list_all_apps_run|].
  destruct (sorted_spec (eac_apps (map_to_list (db s)).*1)) as [Hsorted Hperm].
  split; [done|]. split.
  - rewrite Hperm. apply NoDup_eac_apps, NoDup_fst_map_to_list.
  - apply elem_of_list_all_apps.
Qed.

(** X4.  The answer of [list_all_apps] does not depend on the order in
    which the store enumerates its keys: on two enumerations of the same
    keys the loop and the sort give the same list. *)
Theorem list_all_apps_any_enumeration keys keys' :
  keys ≡ₚ keys' → sorted (eac_apps keys) = sorted (eac_apps keys').
Proof.
  apply sorted_eac_apps_Permutation.
Qed.

Lemma list_all_apps_any_enumeration_witness :
  sorted (eac_apps [app_key (py "b.c"); py "other"; app_key (py "a")])
  = sorted (eac_apps [py "other"; app_key (py "a"); app_key (py "b.c")]).
Proof.
  apply (list_all_apps_any_enumeration
           [app_key (py "b.c"); py "other"; app_key (py "a")]
           [py "other"; app_key (py "a"); app_key (py "b.c")]).
  etransitivity; [apply Permutation_swap|]. apply Permutation_skip. apply Permutation_swap.
Defined.

(** X5.  [list_optimized_apps] only reads.  Whether it answers or
    raises, the store, the backup and the output are what they were,
    and, the enumeration of the keys apart, the calls it made on the
    store are reads of records of applications that [list_all_apps]
    lists. *)
Theorem list_optimized_apps_only_reads s :
  let s' := (list_optimized_apps s).2 in
  db s' = db s ∧ backup s' = backup s ∧ stdout s' = stdout s
  ∧ ∃ reads, calls s' = calls s ++ List.map (λ app, GetString (app_key app)) reads
             ∧ ∀ app, app ∈ reads → is_Some (db s !! app_key app).
Proof.
  intros s'. subst s'. rewrite list_optimized_apps_run.
  destruct (list_optimized_loop (sorted (eac_apps (map_to_list (db s)).*1)) s)
    as [r s'] eqn:E.
  apply list_optimized_loop_frame in E as (_ & _ & ? & ? & ? & reads & Hcalls & Hpre).
  do 3 (split; [done|]). exists reads. split; [done|].
  intros app Hin. apply elem_of_list_all_apps.
  destruct Hpre as [rest ->]. apply elem_of_app. by left.
Qed.

(** X6.  When [list_optimized_apps] answers, the applications it lists
    come in the order of [list_all_apps], each with a list of
    activities that is not empty.  The record of a listed application,
    when it decodes, is a document whose [activityConfigMap] is a
    mapping, and the activities listed are, in the order of the mapping,
    the entries that pass the test of the removal loop of
    [disable_handwriting], each with its name and its [drawViewKey].
    And every application whose record is such a document, with an
    entry that passes the test, is listed. *)
Theorem list_optimized_apps_listed s optimized s' :
  list_optimized_apps s = (Return optimized, s') →
  (∃ apps, (list_all_apps s).1 = Return apps ∧ optimized.*1 `sublist_of` apps)
  ∧ (∀ app activities v,
       (app, activities) ∈ optimized →
       stored s app = Some v →
       activities ≠ []
       ∧ ∃ config activity_map,
           v = JDict config
           ∧ dict_get activityConfigMap config = Some (JDict activity_map)
           ∧ activities
             = List.map info_of (List.filter (λ kv, selected kv.2) activity_map))
  ∧ (∀ app config activity_map,
       stored s app = Some (JDict config) →
       dict_get activityConfigMap config = Some (JDict activity_map) →
       List.filter (λ kv, selected kv.2) activity_map ≠ [] →
       (app, List.map info_of (List.filter (λ kv, selected kv.2) activity_map))
       ∈ optimized).
Proof.
  rewrite list_optimized_apps_run. intros Hrun.
  split; [eexists; split; [reflexivity|by eapply list_optimized_loop_sublist]|].
  split.
  - intros app acts v Hin Hst.
    destruct (list_optimized_loop_listed _ _ _ _ Hrun _ _ Hin) as (_ & Hne & Hacts).
    split; [done|]. destruct acts as [|x acts]; [done|].
    apply optimized_activities_inv in Hacts as (d & m & Hd & Hget & Hacts).
    rewrite Hst in Hd. injection Hd as ->.
    exists d, m. split; [done|]. split; [done|].
    by apply activities_with_drawing_Return in Hacts as [? _].
  - intros app d m Hst Hget Hne.
    assert (app ∈ sorted (eac_apps (map_to_list (db s)).*1)) as Hin.
    { apply elem_of_list_all_apps. by eapply manager_spec.stored_Some_present. }
    destruct (list_optimized_loop_returns _ _ _ _ Hrun _ Hin) as (acts & Hacts & Hl).
    assert (m ≠ []) as Hm by (intros ->; done).
    rewrite Hst, (optimized_activities_map _ _ Hget Hm) in Hacts.
    apply activities_with_drawing_Return in Hacts as [-> _].
    apply Hl. intros Hnil. apply Hne. by destruct (List.filter _ m).
Qed.

Lemma list_optimized_apps_listed_witness :
  let optimized := [(py "x.y", [mkInfo (py "A") (JStr (py "v"))])] in
  (∃ apps, (list_all_apps two_entries_state).1 = Return apps
           ∧ optimized.*1 `sublist_of` apps)
  ∧ (∀ app activities v,
       (app, activities) ∈ optimized →
       stored two_entries_state app = Some v →
       activities ≠ []
       ∧ ∃ config activity_map,
           v = JDict config
           ∧ dict_get activityConfigMap config = Some (JDict activity_map)
           ∧ activities
             = List.map info_of (List.filter (λ kv, selected kv.2) activity_map))
  ∧ (∀ app config activity_map,
       stored two_entries_state app = Some (JDict config) →
       dict_get activityConfigMap config = Some (JDict activity_map) →
       List.filter (λ kv, selected kv.2) activity_map ≠ [] →
       (app, List.map info_of (List.filter (λ kv, selected kv.2) activity_map))
       ∈ optimized).
Proof.
  apply (list_optimized_apps_listed two_entries_state
           [(py "x.y", [mkInfo (py "A") (JStr (py "v"))])]
           (list_optimized_apps two_entries_state).2).
  vm_compute. reflexivity.
Defined.

(** X7.  One record is enough to make [list_optimized_apps] fail: when
    the value stored for some application decodes to a true value that
    is no dictionary (a list that is not empty, a number, a string), or
    to a document whose map holds an entry on which the test raises, the
    call raises [AttributeError] and answers no list at all. *)
Theorem list_optimized_apps_malformed s app v :
  stored s app = Some v →
  (truthy v = true ∧ ∀ config, v ≠ JDict config)
  ∨ (∃ config activity_map k entry e,
       v = JDict config
       ∧ dict_get activityConfigMap config = Some (JDict activity_map)
       ∧ (k, entry) ∈ activity_map
       ∧ has_handwriting entry = Raise e) →
  (list_optimized_apps s).1 = Raise AttributeError.
Proof.
  intros Hst Hbad. rewrite list_optimized_apps_run.
  assert (app ∈ sorted (eac_apps (map_to_list (db s)).*1)) as Hin.
  { apply elem_of_list_all_apps. by eapply manager_spec.stored_Some_present. }
  assert (∃ e, optimized_activities (stored s app) = Raise e) as [e He].
  { rewrite Hst. destruct Hbad as [[Htr Hnd] | (d & m & k & entry & e & -> & Hget & Hk & He)].
    - unfold optimized_activities. cbn [falsy]. rewrite Htr. cbn [negb].
      destruct v as [| | | | |d]; eauto. by destruct (Hnd d).
    - assert (m ≠ []) as Hm by (intros ->; by apply elem_of_nil in Hk).
      rewrite (optimized_activities_map _ _ Hget Hm).
      pose proof (activities_with_drawing_spec m) as Hspec.
      destruct (collect_to_remove m) as [rm|e'] eqn:Hrm.
      + exfalso. clear Hspec Hget Hm. revert rm Hrm.
        induction m as [|[k0 v0] m IH]; intros rm Hrm; [by apply elem_of_nil in Hk|].
        cbn [collect_to_remove] in Hrm.
        destruct (has_handwriting v0) as [b|] eqn:E0; [|done].
        destruct (collect_to_remove m) as [rm'|]; [|done].
        apply elem_of_cons in Hk as [[= <- <-] | Hk]; [by rewrite He in E0|].
        by eapply IH.
      + destruct Hspec as [-> _]. eauto. }
  by eapply list_optimized_loop_raises.
Qed.

Lemma list_optimized_apps_malformed_witness :
  (list_optimized_apps list_record_state).1 = Raise AttributeError.
Proof.
  apply (list_optimized_apps_malformed list_record_state (py "x.y") (JList [JInt 1])).
  - vm_compute. reflexivity.
  - left. split; [reflexivity|]. intros config. discriminate.
Defined.

End handler_spec.

(** ** The optimizer: how enable, disable and the listings compose *)

Module optimizer_spec.
Import codec codec_aux codec_facts dict_facts wf_facts optimizer_facts listing_facts ascii_facts removal_facts command_facts.

(** X8.  A successful enable touches one entry of the map and no
    other: every other activity is found afterwards as it was, the
    order of the entries is kept, an activity that was in the map keeps
    its place and a new one comes last; and [activityConfigMap] itself
    keeps its place among the fields of the record, or comes last when
    the record had none. *)
Theorem enable_keeps_other_activities package_name draw_view_key activity_name s config :
  located s package_name config →
  map_shape_ok config = true →
  str_ok draw_view_key = true →
  str_ok activity_name = true →
  ∃ s' config',
    enable_handwriting package_name draw_view_key activity_name s = (Return true, s')
    ∧ (get_app_config package_name s').1 = Return (Some (JDict config'))
    ∧ (∀ k, k ≠ activity_name →
            dict_get k (activity_map_of config') = dict_get k (activity_map_of config))
    ∧ (activity_map_of config').*1
      = (if dict_in activity_name (activity_map_of config)
         then (activity_map_of config).*1
         else (activity_map_of config).*1 ++ [activity_name])
    ∧ config'.*1
      = (if dict_in activityConfigMap config then config.*1
         else config.*1 ++ [activityConfigMap]).
Proof.
  intros Hloc Hshape Hkey Hact.
  destruct (stored_located _ _ _ Hloc) as [Hst Hcfg].
  pose proof (located_doc_ok _ _ _ Hloc) as Hok.
  exists (written package_name (JDict (enabled_config draw_view_key activity_name config)) s),
    (enabled_config draw_view_key activity_name config).
  split; [by apply enable_run|]. split.
  { rewrite get_app_config_run. cbn [fst]. f_equal. apply stored_written.
    by apply doc_ok_enabled_config. }
  unfold enabled_config at 1 2. rewrite manager_spec.activity_map_of_set.
  split; [intros k Hk; by apply dict_get_set_ne|].
  split; [by rewrite dict_set_keys, dict_in_elem|].
  unfold enabled_config. by rewrite dict_set_keys, dict_in_elem.
Qed.

Lemma enable_keeps_other_activities_witness :
  ∃ s' config',
    enable_handwriting (py "x.y") (py "some.View") (py "B") two_entries_state
    = (Return true, s')
    ∧ (get_app_config (py "x.y") s').1 = Return (Some (JDict config'))
    ∧ (∀ k, k ≠ py "B" →
            dict_get k (activity_map_of config')
            = dict_get k (activity_map_of two_entries_config))
    ∧ (activity_map_of config').*1
      = (if dict_in (py "B") (activity_map_of two_entries_config)
         then (activity_map_of two_entries_config).*1
         else (activity_map_of two_entries_config).*1 ++ [py "B"])
    ∧ config'.*1
      = (if dict_in activityConfigMap two_entries_config then two_entries_config.*1
         else two_entries_config.*1 ++ [activityConfigMap]).
Proof.
  apply (enable_keeps_other_activities (py "x.y") (py "some.View") (py "B")
           two_entries_state two_entries_config).
  - split; [|done]. exists two_entries_text. repeat split; vm_compute; reflexivity.
  - vm_compute. reflexivity.
  - vm_compute. reflexivity.
  - vm_compute. reflexivity.
Defined.

(** X9.  Enabling an activity that the map does not hold and then
    disabling that activity by name gives the record back: both calls
    succeed and the record read afterwards is the former record with
    [activityConfigMap] set to the former map, which is the former
    record itself when it had the field, and the former record followed
    by an empty map when it had none. *)
Theorem enable_then_disable_restores package_name draw_view_key c a s config :
  located s package_name config →
  map_shape_ok config = true →
  str_ok draw_view_key = true →
  str_ok (c :: a) = true →
  dict_get (c :: a) (activity_map_of config) = None →
  ∃ s1 s2,
    enable_handwriting package_name draw_view_key (c :: a) s = (Return true, s1)
    ∧ disable_handwriting package_name (Some (c :: a)) s1 = (Return true, s2)
    ∧ (get_app_config package_name s2).1
      = Return (Some (JDict (dict_set activityConfigMap
                                (JDict (activity_map_of config)) config)))
    ∧ (is_Some (dict_get activityConfigMap config) →
       (get_app_config package_name s2).1 = (get_app_config package_name s).1).
Proof.
  intros Hloc Hshape Hkey Hact Hfresh.
  destruct (stored_located _ _ _ Hloc) as [Hst Hcfg].
  pose proof (located_doc_ok _ _ _ Hloc) as Hok.
  set (entry := create_activity_config draw_view_key (c :: a)).
  set (m := activity_map_of config) in *.
  set (config1 := enabled_config draw_view_key (c :: a) config).
  set (s1 := written package_name (JDict config1) s).
  assert (stored s1 package_name = Some (JDict config1)) as Hst1.
  { apply stored_written. by apply doc_ok_enabled_config. }
  assert (dict_get activityConfigMap config1 = Some (JDict (dict_set (c :: a) entry m)))
    as Hget1.
  { unfold config1, enabled_config. by rewrite dict_get_set_eq. }
  set (config2 := dict_set activityConfigMap (JDict m) config).
  assert (dict_set activityConfigMap (JDict (dict_del (c :: a) (dict_set (c :: a) entry m)))
            config1 = config2) as Hback.
  { rewrite dict_del_set_fresh by done. unfold config1, enabled_config.
    by rewrite dict_set_set. }
  assert (doc_ok (JDict config2) = true) as Hok2.
  { apply doc_ok_dict_set; [done|apply str_ok_activityConfigMap|].
    by apply doc_ok_activity_map. }
  exists s1, (written package_name (JDict config2)
                (print_state [RemovedActivity (c :: a)] s1)).
  split; [by apply enable_run|]. split.
  { rewrite (disable_named_present _ _ _ _ config1 (dict_set (c :: a) entry m)); try done.
    - by rewrite Hback.
    - apply manager_spec.enabled_config_nonempty.
    - apply dict_set_nonempty.
    - rewrite dict_get_set_eq. eauto. }
  split.
  { rewrite get_app_config_run. cbn [fst]. f_equal. by apply stored_written. }
  intros [am Ham]. rewrite !get_app_config_run. cbn [fst]. f_equal.
  rewrite stored_written, Hst by done. f_equal. f_equal.
  unfold config2, m, activity_map_of. unfold map_shape_ok in Hshape. rewrite Ham in *.
  destruct am; try done. by apply dict_set_id.
Qed.

Lemma enable_then_disable_restores_witness :
  ∃ s1 s2,
    enable_handwriting (py "x.y") (py "some.View") (py "B") two_entries_state
    = (Return true, s1)
    ∧ disable_handwriting (py "x.y") (Some (py "B")) s1 = (Return true, s2)
    ∧ (get_app_config (py "x.y") s2).1
      = Return (Some (JDict (dict_set activityConfigMap
                                (JDict (activity_map_of two_entries_config))
                                two_entries_config)))
    ∧ (is_Some (dict_get activityConfigMap two_entries_config) →
       (get_app_config (py "x.y") s2).1 = (get_app_config (py "x.y") two_entries_state).1).
Proof.
  apply (enable_then_disable_restores (py "x.y") (py "some.View") 66%N []
           two_entries_state two_entries_config).
  - split; [|done]. exists two_entries_text. repeat split; vm_compute; reflexivity.
  - vm_compute. reflexivity.
  - vm_compute. reflexivity.
  - vm_compute. reflexivity.
  - vm_compute. reflexivity.
Defined.

(** X10.  The removal without an activity is all or nothing.  When one
    entry of the map is a value on which the test raises (an entry or a
    [noteConfig] that is no dictionary), the call raises
    [AttributeError] after the read: nothing is removed, not even the
    entries that pass the test, nothing is printed and nothing is
    written. *)
Theorem disable_all_or_nothing package_name activity s config activity_map k entry e :
  unnamed activity →
  stored s package_name = Some (JDict config) →
  dict_get activityConfigMap config = Some (JDict activity_map) →
  (k, entry) ∈ activity_map →
  has_handwriting entry = Raise e →
  disable_handwriting package_name activity s
  = (Raise AttributeError, record_call (GetString (app_key package_name)) s).
Proof.
  intros Hun Hst Hget Hin He. apply (disable_all_raise _ _ _ config activity_map); try done.
  - intros ->. by apply elem_of_nil in Hin.
  - by eapply collect_to_remove_raise.
Qed.

Lemma disable_all_or_nothing_witness :
  disable_handwriting (py "x.y") None broken_entry_state
  = (Raise AttributeError, record_call (GetString (app_key (py "x.y"))) broken_entry_state).
Proof.
  apply (disable_all_or_nothing (py "x.y") None broken_entry_state
           [(activityConfigMap, JDict broken_entry_map)] broken_entry_map
           (py "B") (JInt 5) AttributeError).
  - by left.
  - vm_compute. reflexivity.
  - vm_compute. reflexivity.
  - right. left.
  - reflexivity.
Defined.

(** X11.  Disabling is idempotent on the store.  For a record whose
    [activityConfigMap], when present, is a mapping, a second run of
    [disable_handwriting] with the same arguments, whatever the first
    answered, leaves the store as the first run left it. *)
Theorem disable_twice_same_store package_name activity s config :
  recorded s package_name config →
  map_shape_ok config = true →
  let s1 := (disable_handwriting package_name activity s).2 in
  let s2 := (disable_handwriting package_name activity s1).2 in
  db s2 = db s1.
Proof.
  intros Hrec Hshape s1 s2. subst s1 s2.
  destruct activity as [[|c a]|].
  2: {
    pose proof (stored_recorded _ _ _ Hrec) as Hst.
    pose proof (recorded_doc_ok _ _ _ Hrec) as Hok.
    destruct (decide (config = [])) as [-> | Hcfg].
    { rewrite (disable_not_found _ _ s) by (by rewrite Hst). cbn [snd].
      by rewrite disable_not_found by (by rewrite manager_spec.stored_only_read, Hst). }
    destruct (truthy (get_or_empty activityConfigMap config)) eqn:Htr.
    2: { rewrite (disable_nothing _ _ s config) by done. cbn [snd].
         by rewrite (disable_nothing _ _ _ config). }
    unfold get_or_empty, map_shape_ok in Htr, Hshape.
    destruct (dict_get activityConfigMap config) as [[| | | | |m]|] eqn:Hget; try done.
    assert (m ≠ []) as Hm by (by destruct m).
    pose proof (doc_ok_dict_get _ _ _ Hok Hget) as Hokm.
    pose proof (proj1 (doc_ok_dict m) Hokm) as [Hnd _].
    destruct (dict_get (c :: a) m) as [entry|] eqn:Hentry.
    2: { rewrite (disable_named_absent _ _ _ s config m) by done. cbn [snd].
         by rewrite (disable_named_absent _ _ _ _ config m). }
    rewrite (disable_named_present _ _ _ s config m) by eauto. cbn [snd].
    set (m1 := dict_del (c :: a) m).
    set (config1 := dict_set activityConfigMap (JDict m1) config).
    set (s1 := written _ _ _).
    assert (stored s1 package_name = Some (JDict config1)) as Hst1.
    { apply stored_written. apply doc_ok_dict_set; [done|apply str_ok_activityConfigMap|].
      by apply doc_ok_dict_del. }
    assert (dict_get activityConfigMap config1 = Some (JDict m1)) as Hget1
      by apply dict_get_set_eq.
    assert (config1 ≠ []) as Hcfg1 by apply dict_set_nonempty.
    destruct (decide (m1 = [])) as [Hempty | Hm1].
    { rewrite (disable_nothing _ _ s1 config1); [done|done|done|].
      by rewrite (get_or_empty_map _ _ Hget1), Hempty. }
    rewrite (disable_named_absent _ _ _ s1 config1 m1); try done.
    by apply dict_get_del_eq. }
  - apply (disable_unnamed_twice _ _ _ config); [by right|done|done].
  - apply (disable_unnamed_twice _ _ _ config); [by left|done|done].
Qed.

Lemma disable_twice_same_store_witness :
  let s1 := (disable_handwriting (py "x.y") None two_entries_state).2 in
  let s2 := (disable_handwriting (py "x.y") None s1).2 in
  db s2 = db s1.
Proof.
  apply (disable_twice_same_store (py "x.y") None two_entries_state two_entries_config).
  - exists two_entries_text. repeat split; vm_compute; reflexivity.
  - vm_compute. reflexivity.
Defined.

(** X12.  Enable and disable leave the list of applications as it was:
    whatever their arguments and their outcome, [list_all_apps] answers
    after the run what it answered before. *)
Theorem list_all_apps_stable package_name draw_view_key activity_name activity s :
  (list_all_apps (enable_handwriting package_name draw_view_key activity_name s).2).1
  = (list_all_apps s).1
  ∧ (list_all_apps (disable_handwriting package_name activity s).2).1
    = (list_all_apps s).1.
Proof.
  rewrite !list_all_apps_run. cbn [fst]. split; f_equal; apply same_keys_same_apps.
  - destruct (manager_spec.enable_effect package_name draw_view_key activity_name s)
      as [-> | (d & Hst & ->)]; [done|].
    apply keys_written. by eapply manager_spec.stored_Some_present.
  - destruct (manager_spec.disable_effect package_name activity s)
      as [-> | (d & m & rm & said & Hst & _ & ->)]; [done|].
    apply keys_written. by eapply manager_spec.stored_Some_present.
Qed.

(** X13.  An application that has just been enabled with a key that is
    not empty is listed: when [enable_handwriting] succeeds on a located
    record and [list_optimized_apps] then answers, its answer holds the
    application, and the activities listed for it hold the activity with
    the key. *)
Theorem enabled_app_is_listed package_name draw_view_key activity_name s config optimized s2 :
  located s package_name config →
  map_shape_ok config = true →
  str_ok draw_view_key = true →
  str_ok activity_name = true →
  draw_view_key ≠ [] →
  let s1 := (enable_handwriting package_name draw_view_key activity_name s).2 in
  list_optimized_apps s1 = (Return optimized, s2) →
  (enable_handwriting package_name draw_view_key activity_name s).1 = Return true
  ∧ ∃ activities,
      (package_name, activities) ∈ optimized
      ∧ mkInfo activity_name (JStr draw_view_key) ∈ activities.
Proof.
  intros Hloc Hshape Hkey Hact Hne s1 Hlist.
  destruct (stored_located _ _ _ Hloc) as [Hst Hcfg].
  pose proof (located_doc_ok _ _ _ Hloc) as Hok.
  pose proof (enable_run package_name draw_view_key activity_name s config Hst Hcfg Hshape)
    as Hrun.
  subst s1. rewrite Hrun in *. cbn [fst snd] in *. split; [done|].
  set (config' := enabled_config draw_view_key activity_name config) in *.
  set (s1 := written package_name (JDict config') s) in *.
  assert (stored s1 package_name = Some (JDict config')) as Hst1.
  { apply stored_written. by apply doc_ok_enabled_config. }
  set (m' := dict_set activity_name (create_activity_config draw_view_key activity_name)
               (activity_map_of config)).
  assert (dict_get activityConfigMap config' = Some (JDict m')) as Hget.
  { unfold config', enabled_config. by rewrite dict_get_set_eq. }
  assert (m' ≠ []) as Hm'.
  { unfold m'. destruct (activity_map_of config) as [|[k0 v0] m]; cbn; [done|].
    by destruct (decide _). }
  rewrite list_optimized_apps_run in Hlist.
  assert (package_name ∈ sorted (eac_apps (map_to_list (db s1)).*1)) as Hin.
  { apply elem_of_list_all_apps. by eapply manager_spec.stored_Some_present. }
  destruct (list_optimized_loop_returns _ _ _ _ Hlist _ Hin) as (acts & Hacts & Hl).
  rewrite Hst1, (optimized_activities_map _ _ Hget Hm') in Hacts.
  assert (mkInfo activity_name (JStr draw_view_key) ∈ acts) as Hinfo.
  { eapply (info_in_activities m' acts activity_name
              (create_activity_config draw_view_key activity_name)); [done| |].
    - apply dict_get_Some_elem. unfold m'. apply dict_get_set_eq.
    - destruct draw_view_key; [done|]. reflexivity. }
  exists acts. split; [|done]. apply Hl. intros ->. by apply elem_of_nil in Hinfo.
Qed.

Lemma enabled_app_is_listed_witness :
  let optimized :=
    [(py "x.y", [mkInfo (py "x.y.MainActivity") (JStr (py "some.View"))])] in
  (enable_handwriting (py "x.y") (py "some.View") (py "x.y.MainActivity")
     plain_record_state).1 = Return true
  ∧ ∃ activities,
      (py "x.y", activities) ∈ optimized
      ∧ mkInfo (py "x.y.MainActivity") (JStr (py "some.View")) ∈ activities.
Proof.
  apply (enabled_app_is_listed (py "x.y") (py "some.View") (py "x.y.MainActivity")
           plain_record_state [(py "label", JStr (py "X Y"))]
           [(py "x.y", [mkInfo (py "x.y.MainActivity") (JStr (py "some.View"))])]
           (list_optimized_apps
              (enable_handwriting (py "x.y") (py "some.View") (py "x.y.MainActivity")
                 plain_record_state).2).2).
  - split; [|done]. exists (dq "{'label':'X Y'}"). repeat split; vm_compute; reflexivity.
  - vm_compute. reflexivity.
  - vm_compute. reflexivity.
  - vm_compute. reflexivity.
  - vm_compute. discriminate.
  - vm_compute. reflexivity.
Defined.

(** X14.  An application that has just been disabled is not listed: when
    [disable_handwriting] without an activity succeeds on the record of
    an application and [list_optimized_apps] then answers, the
    application is not in its answer. *)
Theorem disabled_app_is_not_listed package_name activity s config s1 optimized s2 :
  recorded s package_name config →
  unnamed activity →
  disable_handwriting package_name activity s = (Return true, s1) →
  list_optimized_apps s1 = (Return optimized, s2) →
  package_name ∉ optimized.*1.
Proof.
  intros Hrec Hun Hrun Hlist Hin.
  apply list_elem_of_fmap in Hin as ([app acts] & -> & Hin). cbn [fst] in *.
  rewrite list_optimized_apps_run in Hlist.
  destruct (list_optimized_loop_listed _ _ _ _ Hlist _ _ Hin) as (_ & Hne & Hacts).
  destruct (disable_unnamed_true _ _ _ _ _ Hun (stored_recorded _ _ _ Hrec)
              (recorded_doc_ok _ _ _ Hrec) Hrun) as (d' & Hst1 & Hmap).
  rewrite Hst1 in Hacts. destruct Hmap as [Hfalsy | (m & Hget & Hsel)].
  - rewrite optimized_activities_falsy_map in Hacts by done. by injection Hacts as <-.
  - destruct (decide (m = [])) as [-> | Hm].
    + rewrite optimized_activities_falsy_map in Hacts; [by injection Hacts as <-|].
      by rewrite (get_or_empty_map _ _ Hget).
    + rewrite (optimized_activities_map _ _ Hget Hm) in Hacts.
      apply activities_with_drawing_Return in Hacts as [-> _]. by rewrite Hsel in Hne.
Qed.

Lemma disabled_app_is_not_listed_witness :
  py "x.y" ∉ [(py "a.b", [mkInfo (py "M") (JStr (py "w"))])].*1.
Proof.
  apply (disabled_app_is_not_listed (py "x.y") None two_apps_state two_entries_config
           (disable_handwriting (py "x.y") None two_apps_state).2
           [(py "a.b", [mkInfo (py "M") (JStr (py "w"))])]
           (list_optimized_apps (disable_handwriting (py "x.y") None two_apps_state).2).2).
  - exists two_entries_text. repeat split; vm_compute; reflexivity.
  - by left.
  - vm_compute. reflexivity.
  - vm_compute. reflexivity.
Defined.

End optimizer_spec.

(** ** The sub-commands that change the store *)

Module command_spec.
Import codec codec_aux codec_facts dict_facts wf_facts optimizer_facts listing_facts ascii_facts removal_facts command_facts.

(** X15.  Without the database file or without its CRC file no
    sub-command that works on the store does anything: the process
    prints the error, naming the database file when both are missing,
    and exits with status 1; the store is not opened, nothing is read,
    copied or written. *)
Theorem missing_file_stops_every_command main_args report_args c :
  let s := process c in
  database_exists s = false ∨ crc_exists s = false →
  let missing := if database_exists s then CrcFile else DatabaseFile in
  main main_args s = (1%Z, print_state [ErrorRaised (FileNotFoundError missing)] s)
  ∧ main_report report_args c
    = (1%Z, mkConsole s (screen c ++ [Said (ErrorRaised (FileNotFoundError missing))])).
Proof.
  intros s Hmissing missing. subst s. split.
  - unfold main, main_try, bind. rewrite init_missing by done. reflexivity.
  - unfold main_report, report_try, bindK, run. rewrite init_missing by done.
    cbn. rewrite drop_all. cbn. by rewrite app_nil_r.
Qed.

Lemma missing_file_stops_every_command_witness :
  let c := mkConsole (mkState true false ∅ None [] []) [] in
  let s := process c in
  let missing := if database_exists s then CrcFile else DatabaseFile in
  main (CmdDisable (py "x.y") None) s
  = (1%Z, print_state [ErrorRaised (FileNotFoundError missing)] s)
  ∧ main_report (CmdList false) c
    = (1%Z, mkConsole s (screen c ++ [Said (ErrorRaised (FileNotFoundError missing))])).
Proof.
  apply (missing_file_stops_every_command (CmdDisable (py "x.y") None) (CmdList false)
           (mkConsole (mkState true false ∅ None [] []) [])).
  right. reflexivity.
Defined.



(** X17.  A failed enable or disable is not an error of the process.
    With both files in place, when the application is not found (no
    value under its key, or a value that decodes to a false value) the
    enable and the disable sub-commands make the backup, report that the
    application was not found and that the operation failed, leave the
    store as it was, and exit with status 0. *)
Theorem not_found_exits_with_status_0 app draw_view activity_name activity s :
  database_exists s = true →
  crc_exists s = true →
  not_found s app →
  let s' failed :=
    mkState true true (db s) (Some (db s))
      (calls s ++ [Open; CopyFiles; GetString (app_key app)])
      (stdout s ++ [CreatedBackups; AppNotFound app; failed]) in
  main (CmdEnable app draw_view activity_name) s = (0%Z, s' (FailedEnable app))
  ∧ main (CmdDisable app activity) s = (0%Z, s' (FailedDisable app)).
Proof.
  intros Hdb Hcrc Hnone%not_found_falsy s'. subst s'.
  pose proof (after_backup s Hdb Hcrc) as Hstart.
  split.
  - unfold main, main_try. unfold bind in *. rewrite init_run in * by done.
    destruct (backup_database (record_call Open s)) as [[[]|] s1]; [|done].
    destruct (print CreatedBackups s1) as [[[]|] s2]; [|done].
    injection Hstart as ->. rewrite enable_not_found by done.
    cbn. by rewrite <- !app_assoc.
  - unfold main, main_try. unfold bind in *. rewrite init_run in * by done.
    destruct (backup_database (record_call Open s)) as [[[]|] s1]; [|done].
    destruct (print CreatedBackups s1) as [[[]|] s2]; [|done].
    injection Hstart as ->. rewrite disable_not_found by done.
    cbn. by rewrite <- !app_assoc.
Qed.

Lemma not_found_exits_with_status_0_witness :
  let s := fresh_state ∅ in
  let s' failed :=
    mkState true true (db s) (Some (db s))
      (calls s ++ [Open; CopyFiles; GetString (app_key (py "x.y"))])
      (stdout s ++ [CreatedBackups; AppNotFound (py "x.y"); failed]) in
  main (CmdEnable (py "x.y") (py "some.View") (py "x.y.MainActivity")) s
  = (0%Z, s' (FailedEnable (py "x.y")))
  ∧ main (CmdDisable (py "x.y") None) s = (0%Z, s' (FailedDisable (py "x.y"))).
Proof.
  apply (not_found_exits_with_status_0 (py "x.y") (py "some.View") (py "x.y.MainActivity")
           None (fresh_state ∅)).
  - reflexivity.
  - reflexivity.
  - left. vm_compute. reflexivity.
Defined.

(** X18.  A record whose [activityConfigMap] is present and is not a
    mapping (null, a list, a number, a string) stops the enable
    sub-command with an error: the backup is made, the record is read,
    the item assignment raises [TypeError], the process prints the error
    and exits with status 1, and the store is left as it was. *)
Theorem enable_command_on_malformed_map app draw_view activity_name s config v :
  database_exists s = true →
  crc_exists s = true →
  stored s app = Some (JDict config) →
  dict_get activityConfigMap config = Some v →
  (∀ activity_map, v ≠ JDict activity_map) →
  main (CmdEnable app draw_view activity_name) s
  = (1%Z,
     mkState true true (db s) (Some (db s))
       (calls s ++ [Open; CopyFiles; GetString (app_key app)])
       (stdout s ++ [CreatedBackups; ErrorRaised TypeError])).
Proof.
  intros Hdb Hcrc Hst Hget Hv.
  pose proof (after_backup s Hdb Hcrc) as Hstart.
  unfold main, main_try. unfold bind in *. rewrite init_run in * by done.
  destruct (backup_database (record_call Open s)) as [[[]|] s1]; [|done].
  destruct (print CreatedBackups s1) as [[[]|] s2]; [|done].
  injection Hstart as ->.
  unfold enable_handwriting, bind. rewrite get_app_config_run.
  unfold stored in *. cbn [db]. rewrite Hst. cbn [falsy].
  assert (config ≠ []) as Hcfg by (by destruct config).
  rewrite truthy_dict by done. cbn [negb]. unfold dict_in.
  rewrite bool_decide_eq_true_2 by (by rewrite Hget; eauto). cbn [negb]. rewrite Hget.
  destruct v as [| | | | |m]; try (cbn; by rewrite <- !app_assoc).
  by destruct (Hv m).
Qed.

Lemma enable_command_on_malformed_map_witness :
  let s := null_map_state in
  main (CmdEnable (py "x.y") (py "some.View") (py "x.y.MainActivity")) s
  = (1%Z,
     mkState true true (db s) (Some (db s))
       (calls s ++ [Open; CopyFiles; GetString (app_key (py "x.y"))])
       (stdout s ++ [CreatedBackups; ErrorRaised TypeError])).
Proof.
  apply (enable_command_on_malformed_map (py "x.y") (py "some.View") (py "x.y.MainActivity")
           null_map_state [(activityConfigMap, JNull)] JNull).
  - reflexivity.
  - reflexivity.
  - vm_compute. reflexivity.
  - vm_compute. reflexivity.
  - intros activity_map. discriminate.
Defined.



End command_spec.

(** ** The sub-commands that report *)

Module report_spec.
Import codec codec_aux codec_facts dict_facts wf_facts optimizer_facts listing_facts ascii_facts removal_facts command_facts.

(** X20.  The test sub-command looks before it copies.  With both files
    in place, on an application that is not found it prints its header
    and the not-found lines and returns: the exit status is 0, the
    record has been read once, and no backup is made and nothing is
    written. *)
Theorem test_command_not_found app draw_view activity name c :
  database_exists (process c) = true →
  crc_exists (process c) = true →
  not_found (process c) app →
  main_report (CmdTest app draw_view activity name) c
  = (0%Z,
     mkConsole
       (mkState true true (db (process c)) (backup (process c))
          (calls (process c) ++ [Open; GetString (app_key app)]) (stdout (process c)))
       (screen c ++ [Testing (test_name app name) app draw_view activity;
                     TestAppNotFound app])).
Proof.
  intros Hdb Hcrc Hnone%not_found_falsy. unfold main_report, report_try, bindK.
  rewrite run_init by done. cbn [say process screen]. rewrite run_get_app_config.
  cbn [process screen]. change (stored (record_call Open (process c)) app)
    with (stored (process c) app). rewrite Hnone.
  cbn [say process screen]. unfold record_call.
  cbn [database_exists crc_exists db backup calls stdout].
  by rewrite Hdb, Hcrc, <- !app_assoc.
Qed.

Lemma test_command_not_found_witness :
  let c := mkConsole (fresh_state ∅) [] in
  main_report (CmdTest (py "x.y") (py "some.View") (py "x.y.MainActivity") None) c
  = (0%Z,
     mkConsole
       (mkState true true (db (process c)) (backup (process c))
          (calls (process c) ++ [Open; GetString (app_key (py "x.y"))])
          (stdout (process c)))
       (screen c ++ [Testing (test_name (py "x.y") None) (py "x.y") (py "some.View")
                       (py "x.y.MainActivity");
                     TestAppNotFound (py "x.y")])).
Proof.
  apply (test_command_not_found (py "x.y") (py "some.View") (py "x.y.MainActivity") None
           (mkConsole (fresh_state ∅) [])).
  - reflexivity.
  - reflexivity.
  - left. vm_compute. reflexivity.
Defined.



(** X22.  The show sub-command only reads.  With both files in place,
    whatever the record of the application and whether the command
    prints its report or stops on an error, the store and the backup are
    what they were and the calls made are the opening of the store and
    one read of the record. *)
Theorem show_command_only_reads app c :
  database_exists (process c) = true →
  crc_exists (process c) = true →
  let s' := process (main_report (CmdShow app) c).2 in
  db s' = db (process c)
  ∧ backup s' = backup (process c)
  ∧ calls s' = calls (process c) ++ [Open; GetString (app_key app)].
Proof.
  intros Hdb Hcrc s'. subst s'. unfold main_report, report_try, bindK.
  rewrite run_init by done. rewrite run_get_app_config. cbn [process screen].
  set (s1 := record_call (GetString (app_key app)) (record_call Open (process c))).
  assert (db s1 = db (process c) ∧ backup s1 = backup (process c)
          ∧ calls s1 = calls (process c) ++ [Open; GetString (app_key app)]) as Hs1.
  { unfold s1. cbn. by rewrite <- app_assoc. }
  destruct (falsy (stored (record_call Open (process c)) app)); [done|].
  cbn [say process screen].
  destruct (stored (record_call Open (process c)) app) as [[| | | | |d]|]; try done.
  destruct (truthy (get_or_empty activityConfigMap d)); [|done].
  cbn [say process screen].
  destruct (get_or_empty activityConfigMap d) as [| | | | |items]; try done.
  match goal with
  | |- context [show_activities items ?c0] =>
      pose proof (show_activities_process items c0) as Hp;
      destruct (show_activities items c0) as [[[]|e] c1]
  end; cbn [snd process] in Hp.
  - cbn [snd]. by rewrite Hp.
  - destruct e; cbn [say snd process]; by rewrite Hp.
Qed.

Lemma show_command_only_reads_witness :
  let c := mkConsole two_entries_state [] in
  let s' := process (main_report (CmdShow (py "x.y")) c).2 in
  db s' = db (process c)
  ∧ backup s' = backup (process c)
  ∧ calls s' = calls (process c) ++ [Open; GetString (app_key (py "x.y"))].
Proof.
  apply (show_command_only_reads (py "x.y") (mkConsole two_entries_state []));
    reflexivity.
Defined.

(** X23.  What has been enabled is shown.  After a successful enable
    with a key that is not empty on a record of the data model, the show
    sub-command prints its report and exits with status 0, and the
    report holds the line of the activity marked as handwriting enabled,
    followed by the line with the key. *)
Theorem show_after_enable app draw_view_key activity_name s config out :
  database_exists s = true →
  crc_exists s = true →
  located s app config →
  record_typed config = true →
  str_ok draw_view_key = true →
  str_ok activity_name = true →
  draw_view_key ≠ [] →
  let s1 := (enable_handwriting app draw_view_key activity_name s).2 in
  ∃ before after,
    (main_report (CmdShow app) (mkConsole s1 out)).1 = 0%Z
    ∧ screen (main_report (CmdShow app) (mkConsole s1 out)).2
      = out ++ ConfigurationFor app :: ActivityConfigurations
            :: before
            ++ HandwritingEnabled activity_name :: DrawView (JStr draw_view_key)
            :: after.
Proof.
  intros Hdb Hcrc Hloc Htyped Hkey Hact Hne s1.
  destruct (stored_located _ _ _ Hloc) as [Hst Hcfg].
  pose proof (located_doc_ok _ _ _ Hloc) as Hok.
  pose proof Htyped as [Hshape Hentries]%andb_true_iff.
  subst s1. rewrite (enable_run _ _ _ _ config) by done. cbn [snd].
  set (config' := enabled_config draw_view_key activity_name config).
  set (entry := create_activity_config draw_view_key activity_name).
  assert (activity_map_of config' = dict_set activity_name entry (activity_map_of config))
    as Hmap by apply manager_spec.activity_map_of_set.
  assert (record_typed config' = true) as Htyped'.
  { unfold record_typed. rewrite Hmap. unfold config'.
    rewrite manager_spec.enabled_config_shape. cbn [andb]. by apply dict_set_forallb. }
  destruct (show_typed_record app
              (mkConsole (written app (JDict config') s) out) config') as [Hstatus Hscreen];
    try done.
  { apply stored_written. by apply doc_ok_enabled_config. }
  rewrite Hstatus, Hscreen. cbn [screen].
  rewrite bool_decide_eq_false_2 by apply manager_spec.enabled_config_nonempty.
  rewrite Hmap, bool_decide_eq_false_2 by apply dict_set_nonempty.
  assert ((activity_name, entry) ∈ dict_set activity_name entry (activity_map_of config))
    as Hin by apply dict_get_Some_elem, dict_get_set_eq.
  apply list_elem_of_split in Hin as (l1 & l2 & ->).
  exists (flat_map show_lines l1), (flat_map show_lines l2). split; [done|].
  rewrite flat_map_app. cbn [flat_map]. unfold show_lines at 2. cbn [fst snd].
  replace (active_test entry) with true by (by destruct draw_view_key).
  reflexivity.
Qed.

Lemma show_after_enable_witness :
  let s1 := (enable_handwriting (py "x.y") (py "some.View") (py "x.y.MainActivity")
               plain_record_state).2 in
  ∃ before after,
    (main_report (CmdShow (py "x.y")) (mkConsole s1 [])).1 = 0%Z
    ∧ screen (main_report (CmdShow (py "x.y")) (mkConsole s1 [])).2
      = [] ++ ConfigurationFor (py "x.y") :: ActivityConfigurations
           :: before
           ++ HandwritingEnabled (py "x.y.MainActivity") :: DrawView (JStr (py "some.View"))
           :: after.
Proof.
  apply (show_after_enable (py "x.y") (py "some.View") (py "x.y.MainActivity")
           plain_record_state [(py "label", JStr (py "X Y"))] []).
  - reflexivity.
  - reflexivity.
  - split; [|done]. exists (dq "{'label':'X Y'}"). repeat split; vm_compute; reflexivity.
  - vm_compute. reflexivity.
  - vm_compute. reflexivity.
  - vm_compute. reflexivity.
  - vm_compute. discriminate.
Defined.

(** X24.  What has been disabled is no longer shown as enabled.  After
    a disable without an activity on a record of the data model, the
    show sub-command exits with status 0 and prints no line that marks
    an activity as handwriting enabled. *)
Theorem show_after_disable app activity_name s config :
  database_exists s = true →
  crc_exists s = true →
  recorded s app config →
  record_typed config = true →
  let s1 := (disable_handwriting app None s).2 in
  (main_report (CmdShow app) (mkConsole s1 [])).1 = 0%Z
  ∧ HandwritingEnabled activity_name
    ∉ screen (main_report (CmdShow app) (mkConsole s1 [])).2.
Proof.
  intros Hdb Hcrc Hrec Htyped s1.
  pose proof (stored_recorded _ _ _ Hrec) as Hst.
  pose proof (recorded_doc_ok _ _ _ Hrec) as Hok.
  pose proof Htyped as [Hshape Hentries]%andb_true_iff.
  assert (∃ d, database_exists s1 = true ∧ crc_exists s1 = true
               ∧ stored s1 app = Some (JDict d) ∧ record_typed d = true
               ∧ (d = [] ∨ forallb (λ kv, negb (active_test kv.2)) (activity_map_of d) = true))
    as (d & Hdb1 & Hcrc1 & Hst1 & Htyped1 & Hinactive).
  { subst s1. destruct (decide (config = [])) as [-> | Hcfg].
    { exists []. rewrite disable_not_found by (by rewrite Hst). cbn [snd].
      do 2 (split; [done|]). split; [done|]. split; [done|]. by left. }
    destruct (decide (activity_map_of config = [])) as [Hempty | Hfull].
    { exists config. rewrite (disable_nothing _ _ _ config); [|done|done|].
      - cbn [snd]. do 2 (split; [done|]). split; [done|]. split; [done|]. right.
        by rewrite Hempty.
      - unfold get_or_empty, map_shape_ok, activity_map_of in *.
        destruct (dict_get activityConfigMap config) as [[| | | | |m]|]; try done.
        by subst m. }
    unfold activity_map_of in Hfull, Hentries.
    destruct (dict_get activityConfigMap config) as [[| | | | |m]|] eqn:Hmap; try done.
    destruct (collect_to_remove_typed m Hentries) as [Hrm Hsel].
    pose proof (doc_ok_dict_get _ _ _ Hok Hmap) as Hokm.
    pose proof (proj1 (doc_ok_dict m) Hokm) as [Hnd _].
    rewrite (disable_all _ None _ config m _ (or_introl eq_refl) Hst Hcfg Hmap Hfull Hrm).
    rewrite <- Hsel, remove_all_selected by done.
    rewrite manager_spec.filter_typed by done.
    set (m' := List.filter (λ kv, negb (active_test kv.2)) m).
    exists (dict_set activityConfigMap (JDict m') config). cbn [snd].
    do 2 (split; [done|]). split.
    { apply stored_written. apply doc_ok_dict_set; [done|apply str_ok_activityConfigMap|].
      by apply doc_ok_filter. }
    rewrite manager_spec.activity_map_of_set. split.
    - unfold record_typed, map_shape_ok. rewrite dict_get_set_eq.
      rewrite manager_spec.activity_map_of_set. cbn [andb].
      apply forallb_forall. intros kv [Hkv _]%filter_In.
      rewrite forallb_forall in Hentries. by apply Hentries.
    - right. apply forallb_forall. by intros kv [_ Hkv]%filter_In. }
  destruct (show_typed_record app (mkConsole s1 []) d) as [Hstatus Hscreen]; try done.
  split; [done|]. rewrite Hscreen. cbn [screen]. rewrite app_nil_l.
  destruct (bool_decide (d = [])) eqn:Hd.
  { apply not_elem_of_cons. split; [done|apply not_elem_of_nil]. }
  apply bool_decide_eq_false in Hd. destruct Hinactive as [? | Hinactive]; [done|].
  apply not_elem_of_cons. split; [done|].
  destruct (bool_decide (activity_map_of d = [])).
  { apply not_elem_of_cons. split; [done|apply not_elem_of_nil]. }
  apply not_elem_of_cons. split; [done|]. by apply show_lines_inactive.
Qed.

Lemma show_after_disable_witness :
  let s1 := (disable_handwriting (py "x.y") None two_entries_state).2 in
  (main_report (CmdShow (py "x.y")) (mkConsole s1 [])).1 = 0%Z
  ∧ HandwritingEnabled (py "A")
    ∉ screen (main_report (CmdShow (py "x.y")) (mkConsole s1 [])).2.
Proof.
  apply (show_after_disable (py "x.y") (py "A") two_entries_state two_entries_config).
  - reflexivity.
  - reflexivity.
  - exists two_entries_text. repeat split; vm_compute; reflexivity.
  - vm_compute. reflexivity.
Defined.

(** X25.  One record that decodes to a true value other than a
    dictionary (a list that is not empty, a number, a string) makes the
    list sub-command fail as a whole: with both files in place it prints
    the error and nothing else, not even the applications whose records
    are in order, and exits with status 1, the store being left as it
    was.  With [--all] the same store is listed, the application of that
    record included, and the exit status is 0. *)
Theorem list_command_on_malformed_record app v c :
  database_exists (process c) = true →
  crc_exists (process c) = true →
  stored (process c) app = Some v →
  truthy v = true →
  (∀ config, v ≠ JDict config) →
  (main_report (CmdList false) c).1 = 1%Z
  ∧ screen (main_report (CmdList false) c).2
    = screen c ++ [Said (ErrorRaised AttributeError)]
  ∧ db (process (main_report (CmdList false) c).2) = db (process c)
  ∧ ∃ apps,
      (list_all_apps (process c)).1 = Return apps
      ∧ main_report (CmdList true) c
        = (0%Z, mkConsole (record_call Open (process c))
                  (screen c ++ AllApps (length apps) :: List.map ListedApp apps))
      ∧ app ∈ apps.
Proof.
  intros Hdb Hcrc Hst Htr Hnd.
  assert (is_Some (db (process c) !! app_key app)) as Hin
    by (by eapply manager_spec.stored_Some_present).
  destruct (list_optimized_apps_raises (record_call Open (process c)) app AttributeError)
    as (s' & Hrun & Hdb' & Hout'); [done| |].
  { change (stored (record_call Open (process c)) app) with (stored (process c) app).
    rewrite Hst. by apply optimized_activities_not_dict. }
  assert (main_report (CmdList false) c
          = (1%Z, mkConsole s' (screen c ++ [Said (ErrorRaised AttributeError)]))) as Hlist.
  { unfold main_report, report_try, bindK. rewrite run_init by done.
    rewrite run_silent; cbn [process screen]; rewrite Hrun; [|done]. reflexivity. }
  rewrite Hlist. cbn [fst snd screen process]. do 3 (split; [done|]).
  eexists. split; [reflexivity|]. split.
  - unfold main_report, report_try, bindK. rewrite run_init by done.
    rewrite run_silent by done. cbn [process screen fst snd list_all_apps].
    rewrite list_all_apps_run. cbn [fst snd say process screen].
    rewrite say_all_run. cbn [process screen]. by rewrite <- app_assoc.
  - by apply elem_of_list_all_apps.
Qed.

Lemma list_command_on_malformed_record_witness :
  let c := mkConsole list_record_state [] in
  (main_report (CmdList false) c).1 = 1%Z
  ∧ screen (main_report (CmdList false) c).2
    = screen c ++ [Said (ErrorRaised AttributeError)]
  ∧ db (process (main_report (CmdList false) c).2) = db (process c)
  ∧ ∃ apps,
      (list_all_apps (process c)).1 = Return apps
      ∧ main_report (CmdList true) c
        = (0%Z, mkConsole (record_call Open (process c))
                  (screen c ++ AllApps (length apps) :: List.map ListedApp apps))
      ∧ py "x.y" ∈ apps.
Proof.
  apply (list_command_on_malformed_record (py "x.y") (JList [JInt 1])
           (mkConsole list_record_state [])).
  - reflexivity.
  - reflexivity.
  - vm_compute. reflexivity.
  - reflexivity.
  - intros config. discriminate.
Defined.

(** X26.  The discover sub-command prints ten suggestions for an
    application, numbered from 1, whatever its name.  For a name of at
    most two components they are five names, each printed twice: the
    application followed by one of the first five suffixes.  For a name
    of three components or more they are built from the first three
    suffixes alone: four names for each of the first two and two for the
    third. *)
Theorem discover_prints_ten_suggestions c a :
  let app := c :: a in
  let package_parts := split_dot app in
  let shown := printed_suggestions (Some app) in
  shown.*1 = seq 1 10
  ∧ ((length package_parts ≤ 2)%nat →
     shown.*2
     = flat_map (λ suffix, [dotted app suffix; dotted app suffix]) (take 5 common_suffixes))
  ∧ ((3 ≤ length package_parts)%nat →
     let base_package := join 46 (removelast package_parts) in
     let first := nth 0 package_parts [] in
     let second := nth 1 package_parts [] in
     let four suffix :=
       [ dotted base_package suffix; dotted app suffix;
         dotted first (dotted second (dotted (py "ui") suffix));
         dotted first (dotted second (dotted (py "view") suffix)) ] in
     shown.*2
     = four (py "DrawView") ++ four (py "CanvasView")
       ++ [dotted base_package (py "PaintView"); dotted app (py "PaintView")]).
Proof.
  intros app package_parts shown. subst shown. unfold printed_suggestions, app.
  fold app. unfold suggestions. fold package_parts.
  destruct package_parts as [|p0 [|p1 [|p2 rest]]] eqn:E.
  - split; [done|]. split; [done|]. cbn. lia.
  - split; [done|]. split; [done|]. cbn. lia.
  - split; [done|]. split; [done|]. cbn. lia.
  - split; [done|]. split; [cbn; lia|]. intros _. reflexivity.
Qed.

End report_spec.

(** ** A value that is no record, and the names of the files *)

Module store_facts.
Import codec codec_aux codec_facts.

Section decoder.
Local Open Scope N_scope.

Lemma strip_prefix_other a p c rest :
  (c =? a) = false → strip_prefix (a :: p) (c :: rest) = None.
Proof. intros H. cbn [strip_prefix]. by rewrite N.eqb_sym, H. Qed.

Lemma loads_no_value raw : no_value raw = true → loads raw = None.
Proof.
  unfold no_value, loads. destruct (skip_ws raw) as [|c rest]; [done|].
  intros [[Hopen _]%andb_true_iff _]%andb_true_iff. apply negb_true_iff in Hopen.
  unfold opens_value in Hopen. repeat apply orb_false_iff in Hopen as [Hopen ?].
  cbn [scan_once]. rewrite Hopen.
  replace (c =? 123) with false by done. replace (c =? 91) with false by done.
  unfold scan_literal.
  change (py "null") with (110 :: py "ull"). change (py "true") with (116 :: py "rue").
  change (py "false") with (102 :: py "alse").
  rewrite !strip_prefix_other by done.
  unfold scan_number. replace (c =? 45) with false by done.
  assert (is_digit c = false) as Hdigit by done.
  unfold match_integer. rewrite Hdigit.
  destruct (N.eqb_spec c 48) as [-> | _]; [|done]. by vm_compute in Hdigit.
Qed.

End decoder.

Lemma rfind_dot_None name : rfind_dot name = None ↔ 46%N ∉ name.
Proof.
  induction name as [|c name IH]; cbn [rfind_dot].
  - split; [intros _; apply not_elem_of_nil|done].
  - rewrite not_elem_of_cons. destruct (rfind_dot name) as [i|].
    + split; [done|]. intros [_ H]. by apply IH in H.
    + destruct (N.eqb_spec c 46) as [-> | Hne].
      * split; [done|]. by intros [? _].
      * split; [|done]. intros _. split; [done|]. by apply IH.
Qed.

Lemma rfind_dot_app name rest :
  46%N ∉ rest → rfind_dot (name ++ 46%N :: rest) = Some (length name).
Proof.
  intros Hrest. induction name as [|c name IH]; cbn [app rfind_dot length].
  - apply rfind_dot_None in Hrest. by rewrite Hrest.
  - by rewrite IH.
Qed.

Lemma rfind_dot_Some name i :
  rfind_dot name = Some i →
  ∃ rest, name = take i name ++ 46%N :: rest ∧ length (take i name) = i ∧ 46%N ∉ rest.
Proof.
  revert i. induction name as [|c name IH]; intros i; cbn [rfind_dot]; [done|].
  destruct (rfind_dot name) as [j|] eqn:E.
  - intros [= <-]. destruct (IH j eq_refl) as (rest & Hname & Hlen & Hrest).
    exists rest. cbn [firstn length app]. split; [by rewrite <- Hname|]. by rewrite Hlen.
  - destruct (N.eqb_spec c 46) as [-> | Hne]; [|done]. intros [= <-].
    exists name. split; [done|]. split; [done|]. by apply rfind_dot_None.
Qed.

Lemma suffix_start_Some name i :
  suffix_start name = Some i →
  ∃ c rest, name = take i name ++ 46%N :: c :: rest
            ∧ length (take i name) = i ∧ (0 < i)%nat ∧ 46%N ∉ c :: rest.
Proof.
  unfold suffix_start. destruct (rfind_dot name) as [j|] eqn:E; [|done].
  destruct (Nat.ltb_spec 0 j); [|done]. destruct (Nat.ltb_spec j (length name - 1)); [|done].
  cbn [andb]. intros [= <-].
  destruct (rfind_dot_Some _ _ E) as (rest & Hname & Hlen & Hrest).
  destruct rest as [|c rest].
  { exfalso. rewrite Hname in H0. rewrite length_app, Hlen in H0. cbn in H0. lia. }
  by exists c, rest.
Qed.

Lemma suffix_start_app stem' c rest :
  stem' ≠ [] → 46%N ∉ c :: rest →
  suffix_start (stem' ++ 46%N :: c :: rest) = Some (length stem').
Proof.
  intros Hstem Hrest. unfold suffix_start. rewrite rfind_dot_app by done.
  rewrite length_app. cbn [length].
  destruct stem'; [done|]. cbn [length].
  destruct (Nat.ltb_spec 0 (S (length stem'))); [|lia].
  destruct (Nat.ltb_spec (S (length stem')) (S (length stem') + S (S (length rest)) - 1));
    [done|lia].
Qed.

Lemma with_suffix_stem stem' c rest new_suffix :
  stem' ≠ [] → 46%N ∉ c :: rest →
  with_suffix (stem' ++ 46%N :: c :: rest) new_suffix = Some (stem' ++ new_suffix).
Proof.
  intros Hstem Hrest. unfold with_suffix, suffix. rewrite suffix_start_app by done.
  destruct (stem' ++ 46%N :: c :: rest) eqn:E; [by destruct stem'|]. rewrite <- E.
  rewrite drop_app_length. rewrite length_app.
  replace (length stem' + length (46%N :: c :: rest) - length (46%N :: c :: rest))%nat
    with (length stem') by lia.
  by rewrite take_app_length.
Qed.

Lemma with_suffix_plain name new_suffix :
  name ≠ [] → suffix_start name = None → with_suffix name new_suffix = Some (name ++ new_suffix).
Proof.
  intros Hname Hnone. unfold with_suffix, suffix. rewrite Hnone.
  destruct name as [|c name]; [done|]. change (length (@nil N)) with 0%nat.
  by rewrite Nat.sub_0_r, firstn_all.
Qed.

Lemma suffix_start_None name :
  hd_error name ≠ Some 46%N → last name ≠ Some 46%N →
  suffix_start name = None → 46%N ∉ name.
Proof.
  intros Hfirst Hlast. unfold suffix_start.
  destruct (rfind_dot name) as [i|] eqn:E; [|intros _; by apply rfind_dot_None].
  destruct (rfind_dot_Some _ _ E) as (rest & Hname & Hlen & Hrest).
  destruct (Nat.ltb_spec 0 i) as [Hpos | Hzero].
  - destruct (Nat.ltb_spec i (length name - 1)) as [Hlt | Hge]; [done|].
    intros _. exfalso. apply Hlast. rewrite Hname.
    destruct rest as [|c rest]; [by rewrite last_snoc|].
    rewrite Hname, length_app, Hlen in Hge. cbn in Hge. lia.
  - intros _. exfalso. apply Hfirst. assert (i = 0)%nat as -> by lia.
    rewrite Hname. by rewrite take_0.
Qed.

End store_facts.

Module store_spec.
Import codec codec_aux codec_facts dict_facts wf_facts optimizer_facts store_facts.

(** X27.  A stored value that is no JSON text is not an error: when the
    value under the key of an application holds no JSON value,
    [get_app_config] answers [None], and enable and disable report the
    application as not found and answer [False] after the read alone,
    as they do for an application that is not in the store. *)
Theorem corrupt_record_is_not_found package_name draw_view_key activity_name activity s raw :
  db s !! app_key package_name = Some raw →
  no_value raw = true →
  (get_app_config package_name s).1 = Return None
  ∧ enable_handwriting package_name draw_view_key activity_name s
    = (Return false, only_read package_name [AppNotFound package_name] s)
  ∧ disable_handwriting package_name activity s
    = (Return false, only_read package_name [AppNotFound package_name] s).
Proof.
  intros Hraw Hno.
  assert (stored s package_name = None) as Hst.
  { unfold stored. rewrite Hraw. by apply loads_no_value. }
  split; [by rewrite get_app_config_run, Hst|].
  split; [apply enable_not_found|apply disable_not_found]; by rewrite Hst.
Qed.

Lemma corrupt_record_is_not_found_witness :
  (get_app_config (py "x.y") plain_text_state).1 = Return None
  ∧ enable_handwriting (py "x.y") (py "some.View") (py "x.y.MainActivity") plain_text_state
    = (Return false, only_read (py "x.y") [AppNotFound (py "x.y")] plain_text_state)
  ∧ disable_handwriting (py "x.y") None plain_text_state
    = (Return false, only_read (py "x.y") [AppNotFound (py "x.y")] plain_text_state).
Proof.
  apply (corrupt_record_is_not_found (py "x.y") (py "some.View") (py "x.y.MainActivity")
           None plain_text_state (py "  record lost")).
  - vm_compute. reflexivity.
  - vm_compute. reflexivity.
Defined.

(** X28.  The names the handler works with all come from the stem of
    the database file name.  For a name that neither starts nor ends
    with a dot, the store is opened under the stem, the file checked
    beside the database is the stem with [.crc], and the backups are the
    stem with [.backup] and with [.crc.backup].  The stem is the name
    itself exactly when the name has no dot: for a name with an
    extension the store is opened under another name than the file that
    was checked, and the backup takes the place of the extension. *)
Theorem file_names_come_from_the_stem name :
  name ≠ [] →
  hd_error name ≠ Some 46%N →
  last name ≠ Some 46%N →
  database_name name = stem name
  ∧ crc_name name = Some (stem name ++ py ".crc")
  ∧ backup_db_name name = Some (stem name ++ py ".backup")
  ∧ backup_crc_name name = Some (stem name ++ py ".crc.backup")
  ∧ (stem name = name ↔ 46%N ∉ name).
Proof.
  intros Hname Hfirst Hlast. split; [done|].
  assert (stem name ≠ []) as Hstem.
  { unfold stem. destruct (suffix_start name) as [i|] eqn:E; [|done].
    destruct (suffix_start_Some _ _ E) as (c & rest & _ & Hlen & Hpos & _).
    intros Hnil. rewrite Hnil in Hlen. cbn in Hlen. lia. }
  assert (∀ new_suffix, with_suffix name new_suffix = Some (stem name ++ new_suffix)) as Hwith.
  { intros new_suffix. unfold stem in *. destruct (suffix_start name) as [i|] eqn:E.
    - destruct (suffix_start_Some _ _ E) as (c & rest & Hsplit & _ & _ & Hrest).
      rewrite Hsplit at 1. by apply with_suffix_stem.
    - by apply with_suffix_plain. }
  split; [apply Hwith|]. split; [apply Hwith|]. split.
  { unfold backup_crc_name, crc_name. rewrite Hwith. cbn [mbind option_bind].
    apply (with_suffix_stem (stem name) 99%N (py "rc")); [done|].
    by_compute. }
  unfold stem. destruct (suffix_start name) as [i|] eqn:E.
  - destruct (suffix_start_Some _ _ E) as (c & rest & Hsplit & Hlen & _ & _). split.
    + intros Heq. exfalso. rewrite <- Heq in Hsplit at 1.
      apply (f_equal length) in Hsplit. rewrite length_app in Hsplit. cbn in Hsplit. lia.
    + intros Hno. exfalso. apply Hno. rewrite Hsplit. apply elem_of_app. right. left.
  - split; [|done]. intros _. by apply suffix_start_None.
Qed.

Lemma file_names_come_from_the_stem_witness :
  let name := py "onyx_config.db" in
  database_name name = stem name
  ∧ crc_name name = Some (stem name ++ py ".crc")
  ∧ backup_db_name name = Some (stem name ++ py ".backup")
  ∧ backup_crc_name name = Some (stem name ++ py ".crc.backup")
  ∧ (stem name = name ↔ 46%N ∉ name).
Proof.
  apply (file_names_come_from_the_stem (py "onyx_config.db")).
  - vm_compute. discriminate.
  - vm_compute. discriminate.
  - vm_compute. discriminate.
Defined.

End store_spec.
